(** * spm-backend: report synthesis, alert handling and notification dispatch

    A shallow embedding of the parts of the [power_monitor] Django
    application that the specification speaks about:

    - [power_monitor/models.py]: the entities, as records;
    - [power_monitor/services/report_service.py]: [ReportService];
    - [power_monitor/services/whatsapp_service.py]: [WhatsAppService];
    - [power_monitor/services/email_service.py]: [EmailService];
    - [power_monitor/services/pdf_service.py]: the tables of [PDFReportService];
    - [power_monitor/views.py]: [AlertViewSet], and the report and cost
      actions of [ClientViewSet], [EnergyReportViewSet] and
      [DailyConsumptionViewSet];
    - [power_monitor/admin.py]: the actions of [AlertAdmin] and
      [EnergyReportAdmin];
    - [power_monitor/serializers.py]: [ClientSerializer.create];
    - [power_monitor/management/commands]: the daily summaries and the
      reports of [generate_sample_data], and [create_tariffs].

    Modelling conventions.

    - A [FloatField] holds a rational number ([Q]); arithmetic on it is exact,
      so the rounding of IEEE doubles is outside the model.  Equalities between
      such values are stated with [==]; where a statement is about a sum or a
      product, it names the operations in the order in which the code
      performs them.
    - A [DateField] (and the date of a [DateTimeField]) is the proleptic
      Gregorian ordinal of the day ([date.toordinal()]), a [Z]; subtracting
      [timedelta(days=n)] subtracts [n].
    - A nullable column or an optional argument is an [option]; [None] is
      Python's [None].
    - The database is an explicit record of tables (lists of rows) that is
      threaded through every operation that writes.
    - The clock ([timezone.now().date()]), the Django settings and the
      behaviour of the external transports (Twilio, SMTP) are parameters. *)

From Stdlib Require Import ZArith QArith Qabs String Ascii List Sorted Lia Lqa.
From stdpp Require Import base option gmap strings.
Import ListNotations.

Local Open Scope string_scope.
Local Open Scope Z_scope.

(** ** models.py *)

Module Device.
Record t := mk {
  pk : Z;
  device_id : string;
  device_name : string;
  device_type : string;
  is_active : bool
}.
End Device.

Module Client.
Record t := mk {
  pk : Z;
  name : string;
  email : string;
  whatsapp_number : string;
  devices : list Device.t;
  is_active : bool;
  receive_whatsapp_alerts : bool;
  receive_email_reports : bool;
  report_frequency : string
}.
End Client.

Module PowerReading.
Record t := mk {
  device : option Z;
  power : Q;
  power_factor : Q;
  timestamp_date : Z
}.
End PowerReading.

Module DailyConsumption.
Record t := mk {
  device : option Z;
  device_identifier : string;
  date : Z;
  total_consumption : Q;
  avg_power : Q;
  peak_power : Q;
  min_power : Q;
  total_cost : Q
}.
End DailyConsumption.

Module Alert.
Record t := mk {
  pk : Z;
  device : option Z;
  device_identifier : string;
  alert_type : string;
  message : string;
  value : option Q;
  severity : string;
  status : string;
  timestamp_date : Z;
  resolved_at : option Z;
  whatsapp_sent : bool;
  whatsapp_sent_at : option Z
}.

Definition set_status (a : t) (st : string) (resolved : option Z) : t :=
  mk (pk a) (device a) (device_identifier a) (alert_type a) (message a)
     (value a) (severity a) st (timestamp_date a) resolved (whatsapp_sent a)
     (whatsapp_sent_at a).

Definition set_whatsapp_sent (a : t) (now : Z) : t :=
  mk (pk a) (device a) (device_identifier a) (alert_type a) (message a)
     (value a) (severity a) (status a) (timestamp_date a) (resolved_at a)
     true (Some now).
End Alert.

(** The dictionary returned by [ReportService._get_device_statistics]; it is
    also the element type of [report_data['devices']]. *)
Module DeviceStats.
Record t := mk {
  device_id : string;
  device_name : string;
  consumption : Q;
  cost : Q;
  peak_power : Q;
  power_factors : list Q;
  uptime : Q;
  alerts : Z;
  critical_alerts : Z
}.
End DeviceStats.

Module ReportData.
Record t := mk {
  devices : list DeviceStats.t;
  days_in_period : Z;
  generated_by : string
}.
End ReportData.

Module EnergyReport.
Record t := mk {
  pk : Z;
  client : Client.t;
  device : option Device.t;
  report_type : string;
  start_date : Z;
  end_date : Z;
  total_consumption_kwh : Q;
  total_cost : Q;
  avg_daily_consumption : Q;
  peak_power : Q;
  avg_power_factor : Q;
  uptime_hours : Q;
  total_alerts : Z;
  critical_alerts : Z;
  report_data : ReportData.t;
  generated_at : Z;
  sent_via_email : bool;
  sent_via_whatsapp : bool
}.

Definition set_sent_via_email (r : t) (b : bool) : t :=
  mk (pk r) (client r) (device r) (report_type r) (start_date r) (end_date r)
     (total_consumption_kwh r) (total_cost r) (avg_daily_consumption r)
     (peak_power r) (avg_power_factor r) (uptime_hours r) (total_alerts r)
     (critical_alerts r) (report_data r) (generated_at r) b
     (sent_via_whatsapp r).

Definition set_sent_via_whatsapp (r : t) (b : bool) : t :=
  mk (pk r) (client r) (device r) (report_type r) (start_date r) (end_date r)
     (total_consumption_kwh r) (total_cost r) (avg_daily_consumption r)
     (peak_power r) (avg_power_factor r) (uptime_hours r) (total_alerts r)
     (critical_alerts r) (report_data r) (generated_at r)
     (sent_via_email r) b.
End EnergyReport.

Module WhatsAppMessage.
Record t := mk {
  pk : Z;
  recipient : string;
  message : string;
  message_type : string;
  status : string;
  alert : option Z;
  client : option Z;
  response_data : option (list (string * string));
  sent_at : option Z
}.

Definition set_status (m : t) (st : string)
    (resp : option (list (string * string))) (sent : option Z) : t :=
  mk (pk m) (recipient m) (message m) (message_type m) st (alert m)
     (client m) resp sent.
End WhatsAppMessage.

(** The tables of the database that the modelled code reads or writes. *)
Module DB.
Record t := mk {
  devices : list Device.t;
  clients : list Client.t;
  daily_consumption : list DailyConsumption.t;
  power_readings : list PowerReading.t;
  alerts : list Alert.t;
  energy_reports : list EnergyReport.t;
  whatsapp_messages : list WhatsAppMessage.t
}.

Definition empty : t := mk [] [] [] [] [] [] [].

Definition set_devices (db : t) (l : list Device.t) : t :=
  mk l (clients db) (daily_consumption db) (power_readings db) (alerts db)
     (energy_reports db) (whatsapp_messages db).

Definition set_alerts (db : t) (l : list Alert.t) : t :=
  mk (devices db) (clients db) (daily_consumption db) (power_readings db) l
     (energy_reports db) (whatsapp_messages db).

Definition set_energy_reports (db : t) (l : list EnergyReport.t) : t :=
  mk (devices db) (clients db) (daily_consumption db) (power_readings db)
     (alerts db) l (whatsapp_messages db).

Definition set_whatsapp_messages (db : t) (l : list WhatsAppMessage.t) : t :=
  mk (devices db) (clients db) (daily_consumption db) (power_readings db)
     (alerts db) (energy_reports db) l.

(** The primary key given to the next row of a table. *)
Definition next_pk (pks : list Z) : Z := 1 + fold_left Z.max pks 0.

(** [Model.objects.create(...)]: a new row at the end of the table. *)
Definition add_device (db : t) (d : Device.t) : t :=
  set_devices db (devices db ++ [d]).
Definition add_alert (db : t) (a : Alert.t) : t :=
  set_alerts db (alerts db ++ [a]).
Definition add_energy_report (db : t) (r : EnergyReport.t) : t :=
  set_energy_reports db (energy_reports db ++ [r]).
Definition add_whatsapp_message (db : t) (m : WhatsAppMessage.t) : t :=
  set_whatsapp_messages db (whatsapp_messages db ++ [m]).

(** [instance.save()] on a stored instance: the row with the same primary
    key is replaced. *)
Definition save_alert (db : t) (a : Alert.t) : t :=
  set_alerts db
    (map (fun b => if Alert.pk b =? Alert.pk a then a else b) (alerts db)).
Definition save_energy_report (db : t) (r : EnergyReport.t) : t :=
  set_energy_reports db
    (map (fun b => if EnergyReport.pk b =? EnergyReport.pk r then r else b)
         (energy_reports db)).
Definition save_whatsapp_message (db : t) (m : WhatsAppMessage.t) : t :=
  set_whatsapp_messages db
    (map (fun b => if WhatsAppMessage.pk b =? WhatsAppMessage.pk m
                   then m else b)
         (whatsapp_messages db)).

(** [Model.objects.get(pk=...)]; [None] stands for [DoesNotExist]. *)
Definition get_device (db : t) (pk : Z) : option Device.t :=
  find (fun d => Device.pk d =? pk) (devices db).
Definition get_alert (db : t) (pk : Z) : option Alert.t :=
  find (fun a => Alert.pk a =? pk) (alerts db).

(** [device.clients]: the reverse side of [Client.devices]. *)
Definition clients_of_device (db : t) (device_pk : Z) : list Client.t :=
  filter (fun c => existsb (fun d => Device.pk d =? device_pk)
                           (Client.devices c))
         (clients db).
End DB.

(** ** The pieces of Python and of the Django ORM that the code relies on *)

Module Py.
(** Truthiness of a string: the empty string is falsy. *)
Definition truthy_string (s : string) : bool :=
  match s with EmptyString => false | _ => true end.

(** Truthiness of an optional string setting ([None] or [''] are falsy). *)
Definition truthy_setting (o : option string) : bool :=
  match o with Some s => truthy_string s | None => false end.

(** [x or 0] on the result of an aggregate over a float column. *)
Definition or_zero (o : option Q) : Q :=
  match o with
  | Some x => if Qeq_bool x 0 then 0%Q else x
  | None => 0%Q
  end.

(** The built-in [max(a, b)]: [b] when [b > a], else [a]. *)
Definition max (a b : Q) : Q := if Qle_bool b a then a else b.

(** The built-in [sum] of a list of floats. *)
Definition sum (l : list Q) : Q := fold_left Qplus l 0%Q.

Definition len {A} (l : list A) : Z := Z.of_nat (length l).
End Py.

(** [datetime.date]: the ordinal of a calendar day, as [date.toordinal()]
    computes it (1 is 0001-01-01). *)
Module Date.
Definition is_leap (y : Z) : bool :=
  (y mod 4 =? 0) && (negb (y mod 100 =? 0) || (y mod 400 =? 0)).

Definition days_before_year (y : Z) : Z :=
  let y := y - 1 in y * 365 + y / 4 - y / 100 + y / 400.

Definition days_in_month (y m : Z) : Z :=
  if m =? 2 then (if is_leap y then 29 else 28)
  else if (m =? 4) || (m =? 6) || (m =? 9) || (m =? 11) then 30
  else 31.

Definition days_before_month (y m : Z) : Z :=
  fold_left (fun acc k => acc + days_in_month y k)
            (map Z.of_nat (seq 1 (Z.to_nat (m - 1)))) 0.

Definition toordinal (y m d : Z) : Z :=
  days_before_year y + days_before_month y m + d.
End Date.

Module Orm.
(** [date__range=[start, end]] is SQL's inclusive BETWEEN. *)
Definition date_in_range (start_date end_date d : Z) : bool :=
  (start_date <=? d) && (d <=? end_date).

Definition fk_is (fk : option Z) (pk : Z) : bool :=
  match fk with Some k => k =? pk | None => false end.

(** [Sum(column)]: NULL (None) over an empty queryset. *)
Definition Sum (l : list Q) : option Q :=
  match l with [] => None | _ => Some (fold_left Qplus l 0%Q) end.

(** [Max(column)]: NULL (None) over an empty queryset. *)
Definition Max (l : list Q) : option Q :=
  match l with [] => None | x :: r => Some (fold_left Py.max r x) end.

Definition count {A} (l : list A) : Z := Z.of_nat (length l).
End Orm.

(** ** Python string operations and [format] specifications *)

Module Str.
Definition nl : string := String (ascii_of_nat 10) EmptyString.
Definition dq : string := String (ascii_of_nat 34) EmptyString.

(** [s1 + s2 + ...] *)
Definition cat (l : list string) : string :=
  fold_right String.append EmptyString l.

Definition is_upper (c : ascii) : bool :=
  let n := nat_of_ascii c in (65 <=? n)%nat && (n <=? 90)%nat.
Definition is_lower (c : ascii) : bool :=
  let n := nat_of_ascii c in (97 <=? n)%nat && (n <=? 122)%nat.
Definition to_upper (c : ascii) : ascii :=
  if is_lower c then ascii_of_nat (nat_of_ascii c - 32) else c.
Definition to_lower (c : ascii) : ascii :=
  if is_upper c then ascii_of_nat (nat_of_ascii c + 32) else c.

(** [str.upper()] and [str.lower()], on ASCII text. *)
Fixpoint upper (s : string) : string :=
  match s with
  | EmptyString => EmptyString
  | String c r => String (to_upper c) (upper r)
  end.
Fixpoint lower (s : string) : string :=
  match s with
  | EmptyString => EmptyString
  | String c r => String (to_lower c) (lower r)
  end.

(** [str.title()], on ASCII text: a letter that follows a non-letter is
    upper-cased, every other letter is lower-cased. *)
Fixpoint title_from (prev_cased : bool) (s : string) : string :=
  match s with
  | EmptyString => EmptyString
  | String c r =>
    let cased := is_upper c || is_lower c in
    String (if prev_cased then to_lower c else to_upper c) (title_from cased r)
  end.
Definition title (s : string) : string := title_from false s.

(** [s.startswith(p)] *)
Definition startswith (s p : string) : bool := String.prefix p s.
End Str.

Module Fmt.
Definition digit (d : Z) : ascii := ascii_of_nat (48 + Z.to_nat d).

(** The [d] low-order decimal digits of [n], most significant first, put in
    front of [acc]. *)
Fixpoint fixed_digits (d : nat) (n : Z) (acc : string) : string :=
  match d with
  | O => acc
  | S d' => fixed_digits d' (n / 10) (String (digit (n mod 10)) acc)
  end.

Fixpoint numeral_aux (fuel : nat) (n : Z) (acc : string) : string :=
  match fuel with
  | O => acc
  | S fuel' =>
    let acc' := String (digit (n mod 10)) acc in
    if n / 10 =? 0 then acc' else numeral_aux fuel' (n / 10) acc'
  end.

(** The decimal numeral of [n >= 0] ([str(n)]); a number has no more decimal
    digits than binary ones, which bounds the recursion. *)
Definition numeral (n : Z) : string :=
  numeral_aux (S (Z.to_nat (Z.log2 n))) n EmptyString.

(** [str(n)] for an [int]. *)
Definition str_int (n : Z) : string :=
  if n <? 0 then String "-"%char (numeral (- n)) else numeral n.

(** The [,] option of a format specification: a comma between groups of
    three digits, counted from the right.  [rev_digits] is the numeral
    reversed, [k] the number of digits already put in the current group. *)
Fixpoint group_rev (rev_digits : list ascii) (k : nat) (acc : string)
    : string :=
  match rev_digits with
  | [] => acc
  | c :: r =>
    match k with
    | 3%nat => group_rev r 1 (String c (String ","%char acc))
    | _ => group_rev r (S k) (String c acc)
    end
  end.
Definition group_thousands (s : string) : string :=
  group_rev (rev (list_ascii_of_string s)) 0 EmptyString.

(** Rounding to the nearest integer, ties to even: what the conversion of a
    double to a fixed number of decimals does with its exact value. *)
Definition round_half_even (x : Q) : Z :=
  let n := Qnum x in
  let d := Zpos (Qden x) in
  let fl := n / d in
  let r2 := 2 * (n mod d) in
  if r2 <? d then fl
  else if d <? r2 then fl + 1
  else if Z.even fl then fl else fl + 1.

(** [format(x, '.df')], and [format(x, ',.df')] when [grouping] is set, for a
    finite [x]. *)
Definition format_f (grouping : bool) (d : nat) (x : Q) : string :=
  let p := 10 ^ Z.of_nat d in
  let m := Z.abs (round_half_even (x * inject_Z p)) in
  let int_part := numeral (m / p) in
  let int_part := if grouping then group_thousands int_part else int_part in
  let sign := if Qle_bool 0 x then EmptyString else "-" in
  let frac :=
    match d with
    | O => EmptyString
    | _ => String "."%char (fixed_digits d (m mod p) EmptyString)
    end in
  sign ++ int_part ++ frac.

(** The number of characters that follow the first decimal point of [s]
    (0 when there is none). *)
Fixpoint decimals (s : string) : nat :=
  match s with
  | EmptyString => 0%nat
  | String c r => if Ascii.eqb c "."%char then String.length r else decimals r
  end.

(** The number that a string of decimal digits denotes ([int(s)]). *)
Definition digit_value (c : ascii) : Z := Z.of_nat (nat_of_ascii c) - 48.
Fixpoint value_from (acc : Z) (s : string) : Z :=
  match s with
  | EmptyString => acc
  | String c r => value_from (10 * acc + digit_value c) r
  end.
Definition int_value (s : string) : Z := value_from 0 s.

(** Whether a decimal point occurs in [s]. *)
Fixpoint has_dot (s : string) : bool :=
  match s with
  | EmptyString => false
  | String c r => Ascii.eqb c "."%char || has_dot r
  end.
End Fmt.

(** ** Settings and external transports *)

Module Settings.
Record t := mk {
  TWILIO_ACCOUNT_SID : option string;
  TWILIO_AUTH_TOKEN : option string;
  TWILIO_WHATSAPP_NUMBER : option string;
  EMAIL_HOST : option string;
  EMAIL_HOST_USER : option string;
  EMAIL_HOST_PASSWORD : option string;
  DEFAULT_FROM_EMAIL : option string
}.

(** No credentials at all: the development configuration. *)
Definition unconfigured : t := mk None None None None None None None.
End Settings.

Module Twilio.
(** [twilio_client.messages.create(body, from_, to)] either returns a
    message object or raises. *)
Inductive outcome :=
| Created (sid status : string)
| Raised (error : string).

Definition messages_create := string -> string -> string -> outcome.
End Twilio.

Module Smtp.
(** [email.send(fail_silently=False)]: [true] when the message was handed
    over, [false] when the call raised.  The arguments are the subject, the
    text body, the HTML alternative, the sender and the recipient. *)
Definition send := string -> string -> string -> string -> string -> bool.
End Smtp.

(** ** services/whatsapp_service.py *)

Module WhatsAppService.

Record t := mk {
  account_sid : option string;
  auth_token : option string;
  from_number : string;
  enabled : bool
}.

Definition __init__ (settings : Settings.t) : t :=
  {| account_sid := Settings.TWILIO_ACCOUNT_SID settings;
     auth_token := Settings.TWILIO_AUTH_TOKEN settings;
     from_number :=
       default "whatsapp:+14155238886"
               (Settings.TWILIO_WHATSAPP_NUMBER settings);
     enabled :=
       Py.truthy_setting (Settings.TWILIO_ACCOUNT_SID settings)
       && Py.truthy_setting (Settings.TWILIO_AUTH_TOKEN settings) |}.

(** What [send_alert_message] returns: the mock message, [None], or the
    list of the messages sent. *)
Inductive alert_result :=
| MockMessage (m : WhatsAppMessage.t)
| NoRecipients
| Results (l : list WhatsAppMessage.t).

Section Service.
Variable self : t.
(** [timezone.now()] *)
Variable now : Z.
(** [strftime('%Y-%m-%d %H:%M:%S')] of a timestamp and [str] of a date. *)
Variable strftime : Z -> string.
Variable isoformat : Z -> string.
Variable messages_create : Twilio.messages_create.

Definition alert_device (db : DB.t) (alert : Alert.t) : option Device.t :=
  match Alert.device alert with
  | Some pk => DB.get_device db pk
  | None => None
  end.

(** [_get_alert_recipients(alert, client)]: the pairs (phone, client). *)
Definition _get_alert_recipients (db : DB.t) (alert : Alert.t)
    (client : option Client.t) : list (string * Client.t) :=
  match client with
  | Some c =>
    if Client.receive_whatsapp_alerts c
       && Py.truthy_string (Client.whatsapp_number c)
    then [(Client.whatsapp_number c, c)] else []
  | None =>
    match Alert.device alert with
    | Some device_pk =>
      let clients :=
        filter (fun c => Client.receive_whatsapp_alerts c
                         && Client.is_active c)
               (DB.clients_of_device db device_pk) in
      map (fun c => (Client.whatsapp_number c, c))
          (filter (fun c => Py.truthy_string (Client.whatsapp_number c))
                  clients)
    | None => []
    end
  end.

Definition severity_emoji (severity : string) : string :=
  if String.eqb severity "INFO" then "ℹ️"
  else if String.eqb severity "WARNING" then "⚠️"
  else if String.eqb severity "CRITICAL" then "🚨"
  else "📢".

(** [_format_alert_message(alert)], after [strip()]. *)
Definition _format_alert_message (db : DB.t) (alert : Alert.t) : string :=
  let device_name :=
    match alert_device db alert with
    | Some d => Device.device_name d
    | None => "Unknown Device"
    end in
  let value_line :=
    match Alert.value alert with
    | Some v =>
      if Qeq_bool v 0 then EmptyString
      else Str.cat ["*Value:* "; Fmt.format_f false 2 v; Str.nl]
    | None => EmptyString
    end in
  Str.cat
    [severity_emoji (Alert.severity alert); " *"; Alert.severity alert;
     " ALERT*"; Str.nl; Str.nl;
     "*Device:* "; device_name; Str.nl;
     "*Type:* "; Alert.alert_type alert; Str.nl; Str.nl;
     "*Message:* "; Alert.message alert; Str.nl;
     value_line;
     Str.nl; "*Time:* "; strftime (Alert.timestamp_date alert); Str.nl;
     Str.nl; "_Power Monitoring System_"].

(** [_format_report_message(report)], after [strip()]. *)
Definition _format_report_message (report : EnergyReport.t) : string :=
  Str.cat
    ["📊 *"; Str.title (EnergyReport.report_type report);
     " Energy Report*"; Str.nl; Str.nl;
     "*Period:* "; isoformat (EnergyReport.start_date report); " to ";
     isoformat (EnergyReport.end_date report); Str.nl; Str.nl;
     "*Consumption Summary:*"; Str.nl;
     "• Total: ";
     Fmt.format_f false 2 (EnergyReport.total_consumption_kwh report);
     " kWh"; Str.nl;
     "• Daily Average: ";
     Fmt.format_f false 2 (EnergyReport.avg_daily_consumption report);
     " kWh"; Str.nl;
     "• Total Cost: ₦";
     Fmt.format_f true 2 (EnergyReport.total_cost report); Str.nl; Str.nl;
     "*Performance:*"; Str.nl;
     "• Peak Power: ";
     Fmt.format_f false 0 (EnergyReport.peak_power report); " W"; Str.nl;
     "• Avg Power Factor: ";
     Fmt.format_f false 2 (EnergyReport.avg_power_factor report); Str.nl;
     "• Uptime: ";
     Fmt.format_f false 1 (EnergyReport.uptime_hours report); " hours";
     Str.nl; Str.nl;
     "*Alerts:*"; Str.nl;
     "• Total: "; Fmt.str_int (EnergyReport.total_alerts report); Str.nl;
     "• Critical: "; Fmt.str_int (EnergyReport.critical_alerts report);
     Str.nl; Str.nl;
     "_Full report available in dashboard_"; Str.nl;
     "_Power Monitoring System_"].

(** [_send_message(to_number, message, alert, client, message_type)]: a
    PENDING row is created, the transport is called, and the row is saved
    again as SENT or FAILED. *)
Definition _send_message (db : DB.t) (to_number message : string)
    (alert : option Alert.t) (client : option Client.t)
    (message_type : string) : WhatsAppMessage.t * DB.t :=
  let to_number :=
    if Str.startswith to_number "whatsapp:" then to_number
    else "whatsapp:" ++ to_number in
  let wa_message :=
    {| WhatsAppMessage.pk :=
         DB.next_pk (map WhatsAppMessage.pk (DB.whatsapp_messages db));
       WhatsAppMessage.recipient := to_number;
       WhatsAppMessage.message := message;
       WhatsAppMessage.message_type := message_type;
       WhatsAppMessage.status := "PENDING";
       WhatsAppMessage.alert := Alert.pk <$> alert;
       WhatsAppMessage.client := Client.pk <$> client;
       WhatsAppMessage.response_data := None;
       WhatsAppMessage.sent_at := None |} in
  let db := DB.add_whatsapp_message db wa_message in
  match messages_create message (from_number self) to_number with
  | Twilio.Created sid status =>
    let wa_message :=
      WhatsAppMessage.set_status wa_message "SENT"
        (Some [("sid", sid); ("status", status)]) (Some now) in
    let db := DB.save_whatsapp_message db wa_message in
    let db :=
      match alert with
      | Some a => DB.save_alert db (Alert.set_whatsapp_sent a now)
      | None => db
      end in
    (wa_message, db)
  | Twilio.Raised e =>
    let wa_message :=
      WhatsAppMessage.set_status wa_message "FAILED"
        (Some [("error", e)]) None in
    (wa_message, DB.save_whatsapp_message db wa_message)
  end.

(** [_create_mock_message(alert, client)] *)
Definition _create_mock_message (db : DB.t) (alert : Alert.t)
    (client : option Client.t) : WhatsAppMessage.t * DB.t :=
  let message := _format_alert_message db alert in
  let wa_message :=
    {| WhatsAppMessage.pk :=
         DB.next_pk (map WhatsAppMessage.pk (DB.whatsapp_messages db));
       WhatsAppMessage.recipient :=
         match client with
         | Some c => Client.whatsapp_number c
         | None => "whatsapp:+1234567890"
         end;
       WhatsAppMessage.message := message;
       WhatsAppMessage.message_type := "alert";
       WhatsAppMessage.status := "SENT";
       WhatsAppMessage.alert := Some (Alert.pk alert);
       WhatsAppMessage.client := Client.pk <$> client;
       WhatsAppMessage.response_data := None;
       WhatsAppMessage.sent_at := Some now |} in
  (wa_message, DB.add_whatsapp_message db wa_message).

(** [send_alert_message(alert, client=None)] *)
Definition send_alert_message (db : DB.t) (alert : Alert.t)
    (client : option Client.t) : alert_result * DB.t :=
  if negb (enabled self) then
    let '(m, db) := _create_mock_message db alert client in
    (MockMessage m, db)
  else
    match _get_alert_recipients db alert client with
    | [] => (NoRecipients, db)
    | recipients =>
      let message := _format_alert_message db alert in
      let '(results, db) :=
        fold_left
          (fun '(results, db) '(phone, c) =>
             let '(result, db) :=
               _send_message db phone message (Some alert) (Some c)
                             "alert" in
             ((results ++ [result])%list, db))
          recipients (@nil WhatsAppMessage.t, db) in
      (Results results, db)
    end.

(** [send_report_summary(report)] *)
Definition send_report_summary (db : DB.t) (report : EnergyReport.t)
    : option WhatsAppMessage.t * DB.t :=
  if negb (enabled self) then (None, db)
  else if negb (Client.receive_whatsapp_alerts (EnergyReport.client report))
  then (None, db)
  else
    let message := _format_report_message report in
    let '(m, db) :=
      _send_message db
        (Client.whatsapp_number (EnergyReport.client report)) message
        None (Some (EnergyReport.client report)) "report" in
    (Some m, db).
End Service.

End WhatsAppService.

(** ** services/email_service.py *)

Module EmailService.

Record t := mk {
  from_email : string;
  enabled : bool
}.

Definition _check_email_config (settings : Settings.t) : bool :=
  Py.truthy_setting (Settings.EMAIL_HOST settings)
  && Py.truthy_setting (Settings.EMAIL_HOST_USER settings)
  && Py.truthy_setting (Settings.EMAIL_HOST_PASSWORD settings).

Definition __init__ (settings : Settings.t) : t :=
  {| from_email :=
       default "noreply@powermonitor.com"
               (Settings.DEFAULT_FROM_EMAIL settings);
     enabled := _check_email_config settings |}.

Section Service.
Variable self : t.
(** [timezone.now().strftime('%Y-%m-%d %H:%M:%S')] and [str] of a date. *)
Variable now_text : string.
Variable isoformat : Z -> string.
Variable smtp_send : Smtp.send.

(** A document is the list of its lines; the indentation of the template
    is left out. *)
Definition unlines (l : list string) : string :=
  Str.cat (map (fun s => s ++ Str.nl) l).

Definition div_open (attr value : string) : string :=
  Str.cat ["<div "; attr; "="; Str.dq; value; Str.dq; ">"].
Definition span (class text : string) : string :=
  Str.cat ["<span class="; Str.dq; class; Str.dq; ">"; text; "</span>"].

(** One [<div class="stat">] block of the HTML report. *)
Definition stat (label value : string) : list string :=
  [div_open "class" "stat";
   span "stat-label" label;
   span "stat-value" value;
   "</div>"].

Definition box_heading (text : string) : string :=
  Str.cat ["<h2 style="; Str.dq; "margin-top: 0; color: #2d3748;"; Str.dq;
           ">"; text; "</h2>"].

(** [_generate_alert_section_html(report)] *)
Definition _generate_alert_section_html (report : EnergyReport.t)
    : list string :=
  if EnergyReport.total_alerts report =? 0 then
    [div_open "style"
       "background: #d4edda; padding: 15px; border-left: 4px solid #28a745; margin: 20px 0; border-radius: 4px;";
     "<strong>✅ System Status:</strong> No alerts during this period. All systems operating normally.";
     "</div>"]
  else
    let severity_class :=
      if EnergyReport.critical_alerts report =? 0 then "alert-section"
      else "background: #f8d7da; border-left-color: #dc3545;" in
    [div_open "style"
       (severity_class ++ " padding: 15px; margin: 20px 0; border-radius: 4px;");
     "<strong>⚠️ Alert Summary:</strong><br>";
     Str.cat ["Total Alerts: <strong>";
              Fmt.str_int (EnergyReport.total_alerts report);
              "</strong><br>"];
     Str.cat ["Critical Alerts: <strong>";
              Fmt.str_int (EnergyReport.critical_alerts report);
              "</strong>"];
     (if 0 <? EnergyReport.critical_alerts report then " ⚠️"
      else EmptyString);
     "<br><br>";
     "<small>Please review the detailed report for specific alert information.</small>";
     "</div>"].

(** [_generate_html_report(report)].  The [<head>] of the template, a
    static style sheet that interpolates nothing, is elided. *)
Definition _generate_html_report (report : EnergyReport.t) : list string :=
  ["<!DOCTYPE html>"; "<html>"; "<body>";
   div_open "class" "header";
   "<h1>⚡ Energy Report</h1>";
   Str.cat ["<p style="; Str.dq; "margin: 10px 0 0 0; opacity: 0.9;";
            Str.dq; ">"; Str.title (EnergyReport.report_type report);
            " Report</p>"];
   "</div>";
   div_open "class" "content";
   Str.cat ["<p>Dear "; Client.name (EnergyReport.client report); ",</p>"];
   Str.cat ["<p>Here is your "; Str.lower (EnergyReport.report_type report);
            " energy consumption report for the period "];
   Str.cat ["<strong>"; isoformat (EnergyReport.start_date report);
            "</strong> to <strong>";
            isoformat (EnergyReport.end_date report); "</strong>.</p>"];
   div_open "class" "summary-box";
   box_heading "📊 Consumption Summary"]
  ++ stat "Total Consumption"
       (Fmt.format_f false 2 (EnergyReport.total_consumption_kwh report)
        ++ " kWh")
  ++ stat "Daily Average"
       (Fmt.format_f false 2 (EnergyReport.avg_daily_consumption report)
        ++ " kWh")
  ++ stat "Total Cost"
       ("₦" ++ Fmt.format_f true 2 (EnergyReport.total_cost report))
  ++ ["</div>";
      div_open "class" "summary-box";
      box_heading "⚡ Performance Metrics"]
  ++ stat "Peak Power"
       (Fmt.format_f false 0 (EnergyReport.peak_power report) ++ " W")
  ++ stat "Average Power Factor"
       (Fmt.format_f false 2 (EnergyReport.avg_power_factor report))
  ++ stat "System Uptime"
       (Fmt.format_f false 1 (EnergyReport.uptime_hours report) ++ " hours")
  ++ ["</div>"]
  ++ _generate_alert_section_html report
  ++ [div_open "class" "highlight";
      "<strong>💡 Cost Analysis:</strong><br>";
      Str.cat ["Based on your consumption of <strong>";
               Fmt.format_f false 2
                 (EnergyReport.total_consumption_kwh report);
               " kWh</strong>, "];
      Str.cat ["your estimated monthly cost is approximately <strong>₦";
               Fmt.format_f true 2
                 (EnergyReport.total_cost report * (43 # 10))%Q;
               "</strong>."];
      "</div>";
      "<center>";
      Str.cat ["<a href="; Str.dq;
               "http://localhost:8000/admin/power_monitor/energyreport/";
               Fmt.str_int (EnergyReport.pk report); "/"; Str.dq;
               " class="; Str.dq; "button"; Str.dq; ">"];
      "View Detailed Report";
      "</a>";
      "</center>";
      Str.cat ["<p style="; Str.dq; "margin-top: 30px;"; Str.dq;
               ">If you have any questions about this report, please don't hesitate to contact us.</p>"];
      "<p>Best regards,<br>";
      "<strong>Power Monitoring System</strong></p>";
      "</div>";
      div_open "class" "footer";
      "<p>This is an automated report from Power Monitoring System<br>";
      Str.cat ["Generated on "; now_text; "</p>"];
      Str.cat ["<p style="; Str.dq;
               "margin-top: 10px; font-size: 11px; color: #999;"; Str.dq;
               ">"];
      "To unsubscribe from these reports, please update your preferences in your account settings.";
      "</p>";
      "</div>";
      "</body>";
      "</html>"].

(** A [Label: value] line of the plain-text report. *)
Definition field (label value : string) : string :=
  label ++ ": " ++ value.

(** [_generate_text_report(report)], after [strip()]. *)
Definition _generate_text_report (report : EnergyReport.t) : list string :=
  ["ENERGY REPORT";
   Str.upper (EnergyReport.report_type report) ++ " REPORT";
   EmptyString;
   Str.cat ["Dear "; Client.name (EnergyReport.client report); ","];
   EmptyString;
   Str.cat ["Here is your "; Str.lower (EnergyReport.report_type report);
            " energy consumption report."];
   EmptyString;
   "REPORT PERIOD";
   field "From" (isoformat (EnergyReport.start_date report));
   field "To" (isoformat (EnergyReport.end_date report));
   EmptyString;
   "CONSUMPTION SUMMARY";
   "==================";
   field "Total Consumption"
     (Fmt.format_f false 2 (EnergyReport.total_consumption_kwh report)
      ++ " kWh");
   field "Daily Average"
     (Fmt.format_f false 2 (EnergyReport.avg_daily_consumption report)
      ++ " kWh");
   field "Total Cost"
     ("₦" ++ Fmt.format_f true 2 (EnergyReport.total_cost report));
   EmptyString;
   "PERFORMANCE METRICS";
   "==================";
   field "Peak Power"
     (Fmt.format_f false 0 (EnergyReport.peak_power report) ++ " W");
   field "Average Power Factor"
     (Fmt.format_f false 2 (EnergyReport.avg_power_factor report));
   field "System Uptime"
     (Fmt.format_f false 1 (EnergyReport.uptime_hours report) ++ " hours");
   EmptyString;
   "ALERT SUMMARY";
   "==================";
   field "Total Alerts" (Fmt.str_int (EnergyReport.total_alerts report));
   field "Critical Alerts"
     (Fmt.str_int (EnergyReport.critical_alerts report));
   EmptyString;
   "COST ANALYSIS";
   "==================";
   Str.cat ["Based on your consumption of ";
            Fmt.format_f false 2
              (EnergyReport.total_consumption_kwh report); " kWh, "];
   Str.cat ["your estimated monthly cost is approximately ₦";
            Fmt.format_f true 2
              (EnergyReport.total_cost report * (43 # 10))%Q; "."];
   EmptyString;
   "If you have any questions about this report, please contact us.";
   EmptyString;
   "Best regards,";
   "Power Monitoring System";
   EmptyString;
   "---";
   "This is an automated report generated on " ++ now_text].

(** [_create_mock_email_log(report)]: logs and returns [True]. *)
Definition _create_mock_email_log (report : EnergyReport.t) : bool := true.

(** [send_report_email(report)].  The result is [Some true] for [True],
    [Some false] for [False] and [None] for [None]; the report comes back
    because the call may set its [sent_via_email] flag. *)
Definition send_report_email (db : DB.t) (report : EnergyReport.t)
    : option bool * EnergyReport.t * DB.t :=
  let client := EnergyReport.client report in
  if negb (enabled self) then
    (Some (_create_mock_email_log report), report, db)
  else if negb (Py.truthy_string (Client.email client)) then
    (None, report, db)
  else if negb (Client.receive_email_reports client) then
    (None, report, db)
  else
    let subject :=
      Str.cat [Str.title (EnergyReport.report_type report);
               " Energy Report - ";
               isoformat (EnergyReport.start_date report); " to ";
               isoformat (EnergyReport.end_date report)] in
    let html_content := unlines (_generate_html_report report) in
    let text_content := unlines (_generate_text_report report) in
    if smtp_send subject text_content html_content (from_email self)
                 (Client.email client)
    then
      let report := EnergyReport.set_sent_via_email report true in
      (Some true, report, DB.save_energy_report db report)
    else (Some false, report, db).
End Service.

End EmailService.

(** ** services/pdf_service.py *)

Module PDFReportService.

(** The flowables handed to the document builder. *)
Inductive flowable :=
| Paragraph (text style : string)
| Spacer (height_inch : Q)
| Table (data : list (list string))
| PageBreak.

Section Service.
(** [strftime('%Y-%m-%d %H:%M:%S')] of a timestamp, the same of
    [datetime.now()], and [str] of a date. *)
Variable strftime : Z -> string.
Variable now_text : string.
Variable isoformat : Z -> string.

Definition days_in_period (report : EnergyReport.t) : Z :=
  EnergyReport.end_date report - EnergyReport.start_date report + 1.

Definition _create_header (report : EnergyReport.t) : list flowable :=
  [Paragraph "⚡ ENERGY REPORT" "CustomTitle";
   Spacer (2 # 10);
   Paragraph
     (Str.cat ["<b>"; Str.upper (EnergyReport.report_type report);
               " REPORT</b><br/>"; "Period: ";
               isoformat (EnergyReport.start_date report); " to ";
               isoformat (EnergyReport.end_date report)])
     "Normal";
   Spacer (3 # 10);
   Paragraph
     (Str.cat ["<b>Client:</b> "; Client.name (EnergyReport.client report);
               "<br/>"; "<b>Generated:</b> ";
               strftime (EnergyReport.generated_at report)])
     "Normal";
   Spacer (4 # 10)].

Definition _create_report_info (report : EnergyReport.t) : list flowable :=
  let device_text :=
    match EnergyReport.device report with
    | Some d =>
      Str.cat ["<b>Device:</b> "; Device.device_name d; " (";
               Device.device_id d; ")"]
    | None =>
      Str.cat ["<b>Devices:</b> ";
               Fmt.str_int
                 (Py.len (ReportData.devices
                            (EnergyReport.report_data report)));
               " device(s) monitored"]
    end in
  [Paragraph device_text "Normal"; Spacer (2 # 10)].

Definition _create_consumption_summary (report : EnergyReport.t)
    : list flowable :=
  [Paragraph "📊 CONSUMPTION SUMMARY" "CustomHeading";
   Spacer (1 # 10);
   Table
     [["Metric"; "Value"];
      ["Total Consumption";
       Fmt.format_f false 2 (EnergyReport.total_consumption_kwh report)
       ++ " kWh"];
      ["Daily Average";
       Fmt.format_f false 2 (EnergyReport.avg_daily_consumption report)
       ++ " kWh"];
      ["Total Cost";
       "₦" ++ Fmt.format_f true 2 (EnergyReport.total_cost report)];
      ["Report Period"; Fmt.str_int (days_in_period report) ++ " days"]];
   Spacer (3 # 10)].

Definition _create_performance_metrics (report : EnergyReport.t)
    : list flowable :=
  [Paragraph "⚡ PERFORMANCE METRICS" "CustomHeading";
   Spacer (1 # 10);
   Table
     [["Metric"; "Value"];
      ["Peak Power";
       Fmt.format_f false 0 (EnergyReport.peak_power report) ++ " W"];
      ["Average Power Factor";
       Fmt.format_f false 3 (EnergyReport.avg_power_factor report)];
      ["System Uptime";
       Fmt.format_f false 1 (EnergyReport.uptime_hours report)
       ++ " hours"]];
   Spacer (3 # 10)].

Definition _create_alert_summary (report : EnergyReport.t)
    : list flowable :=
  [Paragraph "⚠️ ALERT SUMMARY" "CustomHeading"; Spacer (1 # 10)]
  ++ (if EnergyReport.total_alerts report =? 0 then
        [Paragraph
           "✅ <b>No alerts during this period.</b> All systems operating normally."
           "Normal"]
      else
        [Table
           [["Alert Type"; "Count"];
            ["Total Alerts";
             Fmt.str_int (EnergyReport.total_alerts report)];
            ["Critical Alerts";
             Fmt.str_int (EnergyReport.critical_alerts report)];
            ["Warning Alerts";
             Fmt.str_int (EnergyReport.total_alerts report
                          - EnergyReport.critical_alerts report)]]])
  ++ [Spacer (3 # 10)].

Definition _create_cost_analysis (report : EnergyReport.t)
    : list flowable :=
  let days := days_in_period report in
  let daily_cost :=
    if 0 <? days then (EnergyReport.total_cost report / inject_Z days)%Q
    else 0%Q in
  let monthly_projection := (daily_cost * 30)%Q in
  let yearly_projection := (daily_cost * 365)%Q in
  [Paragraph "💰 COST ANALYSIS" "CustomHeading";
   Spacer (1 # 10);
   Table
     [["Period"; "Cost"];
      [Str.title (EnergyReport.report_type report) ++ " Cost";
       "₦" ++ Fmt.format_f true 2 (EnergyReport.total_cost report)];
      ["Daily Average"; "₦" ++ Fmt.format_f true 2 daily_cost];
      ["Monthly Projection"; "₦" ++ Fmt.format_f true 2 monthly_projection];
      ["Yearly Projection"; "₦" ++ Fmt.format_f true 2 yearly_projection]];
   Spacer (3 # 10)].

Definition device_table (device_info : DeviceStats.t) : list flowable :=
  [Paragraph
     (Str.cat ["<b>"; DeviceStats.device_name device_info; "</b> (";
               DeviceStats.device_id device_info; ")"])
     "CustomSubHeading";
   Spacer (1 # 10);
   Table
     [["Metric"; "Value"];
      ["Consumption";
       Fmt.format_f false 2 (DeviceStats.consumption device_info)
       ++ " kWh"];
      ["Cost"; "₦" ++ Fmt.format_f true 2 (DeviceStats.cost device_info)];
      ["Peak Power";
       Fmt.format_f false 0 (DeviceStats.peak_power device_info) ++ " W"];
      ["Uptime";
       Fmt.format_f false 1 (DeviceStats.uptime device_info) ++ " hours"];
      ["Alerts";
       Str.cat [Fmt.str_int (DeviceStats.alerts device_info); " (";
                Fmt.str_int (DeviceStats.critical_alerts device_info);
                " critical)"]]];
   Spacer (2 # 10)].

Definition _create_device_details (report : EnergyReport.t)
    : list flowable :=
  match ReportData.devices (EnergyReport.report_data report) with
  | [] => []
  | devices_data =>
    [PageBreak; Paragraph "🔌 DEVICE BREAKDOWN" "CustomHeading";
     Spacer (2 # 10)]
    ++ concat (map device_table devices_data)
  end.

Definition _create_footer (report : EnergyReport.t) : list flowable :=
  [Spacer (5 # 10);
   Paragraph
     (Str.cat ["<i>This report was automatically generated by Smart Monitoring System.<br/>";
               "Report ID: "; Fmt.str_int (EnergyReport.pk report);
               " | Generated: "; now_text; "</i>"])
     "Normal"].

(** [generate_report_pdf(report)]: the elements given to [doc.build]. *)
Definition generate_report_pdf (report : EnergyReport.t) : list flowable :=
  _create_header report
  ++ _create_report_info report
  ++ _create_consumption_summary report
  ++ _create_performance_metrics report
  ++ _create_alert_summary report
  ++ _create_cost_analysis report
  ++ (match ReportData.devices (EnergyReport.report_data report) with
      | [] => []
      | _ => _create_device_details report
      end)
  ++ _create_footer report.
End Service.

End PDFReportService.

(** ** services/report_service.py *)

Module ReportService.

(** [_get_date_range(report_type)]; [today] is [timezone.now().date()]. *)
Definition _get_date_range (today : Z) (report_type : string) : Z * Z :=
  let end_date := today in
  let start_date :=
    if String.eqb report_type "DAILY" then end_date
    else if String.eqb report_type "WEEKLY" then end_date - 6
    else if String.eqb report_type "MONTHLY" then end_date - 29
    else end_date - 6 in
  (start_date, end_date).

Definition consumption_records (db : DB.t) (device : Device.t)
    (start_date end_date : Z) : list DailyConsumption.t :=
  filter (fun r => Orm.fk_is (DailyConsumption.device r) (Device.pk device)
                   && Orm.date_in_range start_date end_date
                        (DailyConsumption.date r))
         (DB.daily_consumption db).

Definition readings (db : DB.t) (device : Device.t)
    (start_date end_date : Z) : list PowerReading.t :=
  filter (fun r => Orm.fk_is (PowerReading.device r) (Device.pk device)
                   && Orm.date_in_range start_date end_date
                        (PowerReading.timestamp_date r))
         (DB.power_readings db).

Definition alerts (db : DB.t) (device : Device.t)
    (start_date end_date : Z) : list Alert.t :=
  filter (fun a => Orm.fk_is (Alert.device a) (Device.pk device)
                   && Orm.date_in_range start_date end_date
                        (Alert.timestamp_date a))
         (DB.alerts db).

(** [_get_device_statistics(device, start_date, end_date)] *)
Definition _get_device_statistics (db : DB.t) (device : Device.t)
    (start_date end_date : Z) : DeviceStats.t :=
  let records := consumption_records db device start_date end_date in
  let total := Orm.Sum (map DailyConsumption.total_consumption records) in
  let cost := Orm.Sum (map DailyConsumption.total_cost records) in
  let peak := Orm.Max (map DailyConsumption.peak_power records) in
  let rs := readings db device start_date end_date in
  let power_factors := map PowerReading.power_factor rs in
  let uptime_hours := (inject_Z (Orm.count rs) * (5 / 60))%Q in
  let als := alerts db device start_date end_date in
  {| DeviceStats.device_id := Device.device_id device;
     DeviceStats.device_name := Device.device_name device;
     DeviceStats.consumption := Py.or_zero total;
     DeviceStats.cost := Py.or_zero cost;
     DeviceStats.peak_power := Py.or_zero peak;
     DeviceStats.power_factors := power_factors;
     DeviceStats.uptime := uptime_hours;
     DeviceStats.alerts := Orm.count als;
     DeviceStats.critical_alerts :=
       Orm.count (filter (fun a => String.eqb (Alert.severity a) "CRITICAL")
                         als) |}.

(** The accumulators of the loop of [generate_report]. *)
Record totals := mk_totals {
  total_consumption : Q;
  total_cost : Q;
  peak_power : Q;
  power_factors : list Q;
  uptime_hours : Q;
  total_alerts : Z;
  critical_alerts : Z;
  device_data : list DeviceStats.t
}.

Definition totals_init : totals :=
  mk_totals 0 0 0 [] 0 0 0 [].

(** One iteration of [for dev in devices], given the statistics of [dev]. *)
Definition accumulate (acc : totals) (device_stats : DeviceStats.t) : totals :=
  {| total_consumption :=
       (total_consumption acc + DeviceStats.consumption device_stats)%Q;
     total_cost := (total_cost acc + DeviceStats.cost device_stats)%Q;
     peak_power := Py.max (peak_power acc) (DeviceStats.peak_power device_stats);
     power_factors :=
       power_factors acc ++ DeviceStats.power_factors device_stats;
     uptime_hours := (uptime_hours acc + DeviceStats.uptime device_stats)%Q;
     total_alerts := total_alerts acc + DeviceStats.alerts device_stats;
     critical_alerts :=
       critical_alerts acc + DeviceStats.critical_alerts device_stats;
     device_data := device_data acc ++ [device_stats] |}.

Definition aggregate (db : DB.t) (devices : list Device.t)
    (start_date end_date : Z) : totals :=
  fold_left
    (fun acc dev =>
       accumulate acc (_get_device_statistics db dev start_date end_date))
    devices totals_init.

(** [devices = [device] if device else list(client.devices.all())] *)
Definition device_set (client : Client.t) (device : option Device.t)
    : list Device.t :=
  match device with
  | Some d => [d]
  | None => Client.devices client
  end.

(** [if not start_date or not end_date: ... = self._get_date_range(...)] *)
Definition resolve_dates (today : Z) (report_type : string)
    (start_date end_date : option Z) : Z * Z :=
  match start_date, end_date with
  | Some s, Some e => (s, e)
  | _, _ => _get_date_range today report_type
  end.

(** [generate_report(client, report_type, device, start_date, end_date)].
    The result is the report ([None] when the function returns [None]) and
    the database after the call. *)
Definition generate_report (today : Z) (db : DB.t) (client : Client.t)
    (report_type : string) (device : option Device.t)
    (start_date end_date : option Z) : option EnergyReport.t * DB.t :=
  let '(start_date, end_date) :=
    resolve_dates today report_type start_date end_date in
  let devices := device_set client device in
  match devices with
  | [] => (None, db)
  | _ =>
    let acc := aggregate db devices start_date end_date in
    let days_in_period := end_date - start_date + 1 in
    let avg_daily_consumption :=
      if 0 <? days_in_period
      then (total_consumption acc / inject_Z days_in_period)%Q else 0%Q in
    let avg_power_factor :=
      match power_factors acc with
      | [] => 0%Q
      | _ => (Py.sum (power_factors acc)
              / inject_Z (Py.len (power_factors acc)))%Q
      end in
    let report :=
      {| EnergyReport.pk :=
           DB.next_pk (map EnergyReport.pk (DB.energy_reports db));
         EnergyReport.client := client;
         EnergyReport.device := device;
         EnergyReport.report_type := report_type;
         EnergyReport.start_date := start_date;
         EnergyReport.end_date := end_date;
         EnergyReport.total_consumption_kwh := total_consumption acc;
         EnergyReport.total_cost := total_cost acc;
         EnergyReport.avg_daily_consumption := avg_daily_consumption;
         EnergyReport.peak_power := peak_power acc;
         EnergyReport.avg_power_factor := avg_power_factor;
         EnergyReport.uptime_hours := uptime_hours acc;
         EnergyReport.total_alerts := total_alerts acc;
         EnergyReport.critical_alerts := critical_alerts acc;
         EnergyReport.report_data :=
           {| ReportData.devices := device_data acc;
              ReportData.days_in_period := days_in_period;
              ReportData.generated_by := "system" |};
         EnergyReport.generated_at := today;
         EnergyReport.sent_via_email := false;
         EnergyReport.sent_via_whatsapp := false |} in
    (Some report, DB.add_energy_report db report)
  end.

Section Delivery.
Variable settings : Settings.t.
Variable now : Z.
Variable now_text : string.
Variable isoformat : Z -> string.
Variable smtp_send : Smtp.send.
Variable messages_create : Twilio.messages_create.

(** [send_report(report, via_email=True, via_whatsapp=True)].  [results]
    is the dictionary that is returned; the report comes back because its
    delivery flags may have been set. *)
Definition send_report (db : DB.t) (report : EnergyReport.t)
    (via_email via_whatsapp : bool)
    : gmap string string * EnergyReport.t * DB.t :=
  let results : gmap string string := ∅ in
  let '(results, report, db) :=
    if via_email
       && Client.receive_email_reports (EnergyReport.client report)
    then
      let email_service := EmailService.__init__ settings in
      let '(email_result, report, db) :=
        EmailService.send_report_email email_service now_text isoformat
          smtp_send db report in
      match email_result with
      | Some true =>
        let report := EnergyReport.set_sent_via_email report true in
        (<["email" := "sent"]> results, report,
         DB.save_energy_report db report)
      | _ => (<["email" := "failed"]> results, report, db)
      end
    else (results, report, db) in
  if via_whatsapp
     && Client.receive_whatsapp_alerts (EnergyReport.client report)
  then
    let wa_service := WhatsAppService.__init__ settings in
    let '(wa_result, db) :=
      WhatsAppService.send_report_summary wa_service now isoformat
        messages_create db report in
    match wa_result with
    | Some _ =>
      let report := EnergyReport.set_sent_via_whatsapp report true in
      (<["whatsapp" := "sent"]> results, report,
       DB.save_energy_report db report)
    | None => (<["whatsapp" := "failed"]> results, report, db)
    end
  else (results, report, db).
End Delivery.

End ReportService.

(** ** views.py: AlertViewSet *)

Module AlertViewSet.

(** The fields of [request.data] that [create] and [AlertSerializer] read. *)
Record request_data := mk_request {
  device_id : option string;
  device_name : option string;
  alert_type : option string;
  message : option string;
  value : option Q;
  severity : option string;
  status : option string
}.

Inductive response :=
| Response (status_code : Z) (body : string).

Definition status_code (r : response) : Z :=
  match r with Response c _ => c end.

Definition mem (s : string) (l : list string) : bool :=
  existsb (String.eqb s) l.

(** [serializer.validated_data] of [AlertSerializer]: its writable fields.
    [device_id] is validated too, but [create] overrides it when it saves;
    [severity] and [status] are absent when the request leaves them out. *)
Record validated_data := mk_validated {
  valid_alert_type : string;
  valid_message : string;
  valid_value : option Q;
  valid_severity : option string;
  valid_status : option string;
  valid_resolved_at : option Z
}.

(** [self.get_serializer(data=data)] followed by [is_valid]: the validation
    is the work of Django REST framework, so it is a parameter; the result is
    the validated data, or [None] when validation fails. *)
Definition serializer := request_data -> option validated_data.

(** [Device.objects.get_or_create(device_id=..., defaults={...})] *)
Definition get_or_create_device (db : DB.t) (device_id : string)
    (device_name : string) : Device.t * DB.t :=
  match find (fun d => String.eqb (Device.device_id d) device_id)
             (DB.devices db) with
  | Some d => (d, db)
  | None =>
    let d :=
      {| Device.pk := DB.next_pk (map Device.pk (DB.devices db));
         Device.device_id := device_id;
         Device.device_name := device_name;
         Device.device_type := "inverter";
         Device.is_active := true |} in
    (d, DB.add_device db d)
  end.

Section View.
Variable settings : Settings.t.
Variable now : Z.
Variable strftime : Z -> string.
Variable messages_create : Twilio.messages_create.
Variable is_valid : serializer.

(** [_send_whatsapp_alert(alert)]; what [send_alert_message] returns is
    dropped. *)
Definition _send_whatsapp_alert (db : DB.t) (alert : Alert.t) : DB.t :=
  if mem (Alert.severity alert) ["WARNING"; "CRITICAL"] then
    let wa_service := WhatsAppService.__init__ settings in
    snd (WhatsAppService.send_alert_message wa_service now strftime
           messages_create db alert None)
  else db.

(** What [create] answers: the status, and the alert that the body
    serializes when one was created. *)
Record created := mk_created {
  created_response : response;
  created_alert : option Alert.t
}.

(** [create(request)] *)
Definition create (db : DB.t) (data : request_data) : created * DB.t :=
  let device_id_ := default "default" (device_id data) in
  let '(device, db) :=
    get_or_create_device db device_id_
      (default "Unknown Device" (device_name data)) in
  match is_valid data with
  | None => (mk_created (Response 400 "validation error") None, db)
  | Some valid =>
    let alert :=
      {| Alert.pk := DB.next_pk (map Alert.pk (DB.alerts db));
         Alert.device := Some (Device.pk device);
         Alert.device_identifier := device_id_;
         Alert.alert_type := valid_alert_type valid;
         Alert.message := valid_message valid;
         Alert.value := valid_value valid;
         Alert.severity := default "INFO" (valid_severity valid);
         Alert.status := default "ACTIVE" (valid_status valid);
         Alert.timestamp_date := now;
         Alert.resolved_at := valid_resolved_at valid;
         Alert.whatsapp_sent := false;
         Alert.whatsapp_sent_at := None |} in
    let db := DB.add_alert db alert in
    let db := _send_whatsapp_alert db alert in
    (mk_created (Response 201 "created") (Some alert), db)
  end.

(** [acknowledge(request, pk)] *)
Definition acknowledge (db : DB.t) (pk : Z) : response * DB.t :=
  match DB.get_alert db pk with
  | None => (Response 404 "Not found.", db)
  | Some alert =>
    let alert :=
      Alert.set_status alert "ACKNOWLEDGED" (Alert.resolved_at alert) in
    (Response 200 "Alert acknowledged", DB.save_alert db alert)
  end.

(** [resolve(request, pk)] *)
Definition resolve (db : DB.t) (pk : Z) : response * DB.t :=
  match DB.get_alert db pk with
  | None => (Response 404 "Not found.", db)
  | Some alert =>
    let alert := Alert.set_status alert "RESOLVED" (Some now) in
    (Response 200 "Alert resolved", DB.save_alert db alert)
  end.
End View.

(** The two operator actions on an alert, and a sequence of them applied to
    the alert with primary key [pk]. *)
Inductive action := Acknowledge | Resolve.

Definition apply_action (now : Z) (pk : Z) (db : DB.t) (a : action) : DB.t :=
  match a with
  | Acknowledge => snd (acknowledge db pk)
  | Resolve => snd (resolve now db pk)
  end.

Definition run (now : Z) (pk : Z) (db : DB.t) (l : list action) : DB.t :=
  fold_left (apply_action now pk) l db.

(** The status of the alert [pk], as stored. *)
Definition status_of (db : DB.t) (pk : Z) : option string :=
  Alert.status <$> DB.get_alert db pk.

(** The position of a status along ACTIVE, ACKNOWLEDGED, RESOLVED. *)
Definition rank (st : string) : Z :=
  if String.eqb st "ACTIVE" then 0
  else if String.eqb st "ACKNOWLEDGED" then 1
  else if String.eqb st "RESOLVED" then 2
  else 0.

End AlertViewSet.

(** ** models.py: EnergyTariff *)

Module EnergyTariff.
Record t := mk {
  pk : Z;
  name : string;
  rate_per_kwh : Q;
  currency : string;
  is_active : bool
}.
End EnergyTariff.

(** ** services/email_service.py: alert e-mails *)

Module EmailAlert.

(** [email.send(fail_silently=False)] for a message to a list of recipients:
    [true] when it was handed over, [false] when the call raised.  The
    arguments are the subject, the text body, the HTML alternative, the sender
    and the recipients. *)
Definition send := string -> string -> string -> string -> list string -> bool.

Section Service.
Variable self : EmailService.t.
Variable strftime : Z -> string.
Variable smtp_send : send.

Definition severity_color (severity : string) : string :=
  if String.eqb severity "INFO" then "#17a2b8"
  else if String.eqb severity "WARNING" then "#ffc107"
  else if String.eqb severity "CRITICAL" then "#dc3545"
  else "#6c757d".

Definition device_name_of (db : DB.t) (alert : Alert.t) : string :=
  match WhatsAppService.alert_device db alert with
  | Some d => Device.device_name d
  | None => "Unknown Device"
  end.

(** [if alert.value]: a value that is absent or zero is falsy. *)
Definition shown_value (alert : Alert.t) : option Q :=
  match Alert.value alert with
  | Some v => if Qeq_bool v 0 then None else Some v
  | None => None
  end.

Definition detail (inner : string) : list string :=
  [EmailService.div_open "class" "detail"; inner; "</div>"].

(** [_generate_html_alert(alert)], line by line. *)
Definition _generate_html_alert (db : DB.t) (alert : Alert.t) : list string :=
  ["<!DOCTYPE html>"; "<html>"; "<head>"; "<style>";
   "body { font-family: Arial, sans-serif; line-height: 1.6; color: #333; }";
   ".container { max-width: 600px; margin: 0 auto; padding: 20px; }";
   Str.cat [".alert-box { background: ";
            severity_color (Alert.severity alert);
            "; color: white; padding: 20px; border-radius: 8px; }"];
   ".content { background: #f8f9fa; padding: 20px; margin-top: 20px; border-radius: 8px; }";
   ".detail { padding: 10px 0; border-bottom: 1px solid #dee2e6; }";
   "</style>"; "</head>"; "<body>";
   EmailService.div_open "class" "container";
   EmailService.div_open "class" "alert-box";
   Str.cat ["<h1 style="; Str.dq; "margin: 0;"; Str.dq; ">⚠️ ";
            Alert.severity alert; " ALERT</h1>"];
   Str.cat ["<p style="; Str.dq; "margin: 10px 0 0 0; opacity: 0.9;"; Str.dq;
            ">"; Alert.alert_type alert; "</p>"];
   "</div>";
   EmailService.div_open "class" "content"]
  ++ detail ("<strong>Device:</strong> " ++ device_name_of db alert)
  ++ detail ("<strong>Message:</strong> " ++ Alert.message alert)
  ++ [match shown_value alert with
      | Some v =>
        Str.cat ["<div class="; Str.dq; "detail"; Str.dq;
                 "><strong>Value:</strong> "; Fmt.format_f false 2 v; "</div>"]
      | None => EmptyString
      end]
  ++ detail ("<strong>Time:</strong> " ++ strftime (Alert.timestamp_date alert))
  ++ [Str.cat ["<p style="; Str.dq; "margin-top: 20px;"; Str.dq; ">"];
      "Please review this alert and take necessary action if required.";
      "</p>";
      "</div>";
      Str.cat ["<p style="; Str.dq;
               "text-align: center; color: #6c757d; font-size: 12px; margin-top: 20px;";
               Str.dq; ">"];
      "Power Monitoring System - Automated Alert";
      "</p>";
      "</div>"; "</body>"; "</html>"].

(** [_generate_text_alert(alert)], after [strip()], line by line. *)
Definition _generate_text_alert (db : DB.t) (alert : Alert.t) : list string :=
  [Str.cat ["⚠️ "; Alert.severity alert; " ALERT"];
   EmptyString;
   "Alert Type: " ++ Alert.alert_type alert;
   "Device: " ++ device_name_of db alert;
   EmptyString;
   "Message: " ++ Alert.message alert]
  ++ match shown_value alert with
     | Some v => ["Value: " ++ Fmt.format_f false 2 v]
     | None => []
     end
  ++ [EmptyString;
      "Time: " ++ strftime (Alert.timestamp_date alert);
      EmptyString;
      "Please review this alert and take necessary action if required.";
      EmptyString;
      "---";
      "Power Monitoring System - Automated Alert"].

(** [send_alert_email(alert, recipients)] *)
Definition send_alert_email (db : DB.t) (alert : Alert.t)
    (recipients : list string) : bool :=
  if negb (EmailService.enabled self) then false
  else
    match recipients with
    | [] => false
    | _ =>
      let subject :=
        Str.cat ["⚠️ "; Alert.severity alert; " Alert - ";
                 Alert.alert_type alert] in
      let html_content :=
        EmailService.unlines (_generate_html_alert db alert) in
      let text_content :=
        EmailService.unlines (_generate_text_alert db alert) in
      smtp_send subject text_content html_content
                (EmailService.from_email self) recipients
    end.
End Service.

End EmailAlert.

(** ** serializers.py: ClientSerializer *)

Module ClientSerializer.

(** The validated data handed to [create]. *)
Record validated_data := mk_data {
  name : string;
  email : string;
  whatsapp_number : string;
  is_active : bool;
  receive_whatsapp_alerts : bool;
  receive_email_reports : bool;
  report_frequency : string;
  device_ids : option (list string)
}.

Definition add_client (db : DB.t) (c : Client.t) : DB.t :=
  DB.mk (DB.devices db) (DB.clients db ++ [c]) (DB.daily_consumption db)
        (DB.power_readings db) (DB.alerts db) (DB.energy_reports db)
        (DB.whatsapp_messages db).

(** [create(validated_data)]: the client is stored, and the devices whose
    [device_id] is listed are attached to it. *)
Definition create (db : DB.t) (data : validated_data) : Client.t * DB.t :=
  let ids := default [] (device_ids data) in
  let devices :=
    match ids with
    | [] => []
    | _ => filter (fun d => AlertViewSet.mem (Device.device_id d) ids)
                  (DB.devices db)
    end in
  let client :=
    {| Client.pk := DB.next_pk (map Client.pk (DB.clients db));
       Client.name := name data;
       Client.email := email data;
       Client.whatsapp_number := whatsapp_number data;
       Client.devices := devices;
       Client.is_active := is_active data;
       Client.receive_whatsapp_alerts := receive_whatsapp_alerts data;
       Client.receive_email_reports := receive_email_reports data;
       Client.report_frequency := report_frequency data |} in
  (client, add_client db client).

End ClientSerializer.

(** ** views.py: ClientViewSet, EnergyReportViewSet, DailyConsumptionViewSet *)

Module Http.
(** What a view answers: the status code, and the report that the body
    serializes when there is one. *)
Record response := mk {
  status_code : Z;
  error : option string;
  report : option EnergyReport.t
}.

Definition created (r : EnergyReport.t) : response := mk 201 None (Some r).
Definition failed (code : Z) (msg : string) : response :=
  mk code (Some msg) None.

Definition get_client (db : DB.t) (pk : Z) : option Client.t :=
  find (fun c => Client.pk c =? pk) (DB.clients db).
Definition get_report (db : DB.t) (pk : Z) : option EnergyReport.t :=
  find (fun r => EnergyReport.pk r =? pk) (DB.energy_reports db).
Definition get_device_by_id (db : DB.t) (device_id : string)
    : option Device.t :=
  find (fun d => String.eqb (Device.device_id d) device_id) (DB.devices db).
End Http.

Module ClientViewSet.
(** [generate_report(request, pk)]; only [report_type] is read from the
    request. *)
Definition generate_report (today : Z) (db : DB.t) (pk : Z)
    (report_type : option string) : Http.response * DB.t :=
  match Http.get_client db pk with
  | None => (Http.failed 404 "Not found.", db)
  | Some client =>
    let report_type := default "WEEKLY" report_type in
    match ReportService.generate_report today db client report_type None
                                        None None with
    | (Some report, db) => (Http.created report, db)
    | (None, db) => (Http.failed 400 "Failed to generate report", db)
    end
  end.
End ClientViewSet.

Module EnergyReportViewSet.

Record request_data := mk_request {
  client_id : option Z;
  device_id : option string;
  report_type : option string;
  send_whatsapp : bool;
  send_email : bool
}.

Section View.
Variable settings : Settings.t.
Variable today : Z.
Variable now_text : string.
Variable isoformat : Z -> string.
Variable smtp_send : Smtp.send.
Variable messages_create : Twilio.messages_create.

(** [device not in client.devices.all()]: instances are compared by primary
    key. *)
Definition belongs (device : Device.t) (client : Client.t) : bool :=
  existsb (fun d => Device.pk d =? Device.pk device) (Client.devices client).

(** The report and the optional delivery, once the client and the device are
    known. *)
Definition generate_for (db : DB.t) (data : request_data) (client : Client.t)
    (device : option Device.t) : Http.response * DB.t :=
  match ReportService.generate_report today db client
          (default "WEEKLY" (report_type data)) device None None with
  | (Some report, db) =>
    if send_whatsapp data || send_email data then
      let '(_, report, db) :=
        ReportService.send_report settings today now_text isoformat smtp_send
          messages_create db report (send_email data) (send_whatsapp data) in
      (Http.created report, db)
    else (Http.created report, db)
  | (None, db) => (Http.failed 400 "Failed to generate report", db)
  end.

(** [generate(request)] *)
Definition generate (db : DB.t) (data : request_data)
    : Http.response * DB.t :=
  match client_id data ≫= Http.get_client db with
  | None => (Http.failed 404 "Client not found", db)
  | Some client =>
    match device_id data with
    | Some id =>
      if Py.truthy_string id then
        match Http.get_device_by_id db id with
        | None => (Http.failed 404 "Device not found", db)
        | Some device =>
          if negb (belongs device client) then
            (Http.failed 400 "Device does not belong to this client", db)
          else generate_for db data client (Some device)
        end
      else generate_for db data client None
    | None => generate_for db data client None
    end
  end.

(** [send(request, pk)]: the answer is the per-channel map, [None] standing
    for the 404 of [get_object]. *)
Definition send (db : DB.t) (pk : Z) (send_whatsapp send_email : option bool)
    : option (gmap string string) * DB.t :=
  match Http.get_report db pk with
  | None => (None, db)
  | Some report =>
    let '(results, _, db) :=
      ReportService.send_report settings today now_text isoformat smtp_send
        messages_create db report (default true send_email)
        (default true send_whatsapp) in
    (Some results, db)
  end.
End View.

End EnergyReportViewSet.

Module DailyConsumptionViewSet.

Inductive cost_answer :=
| Cost (consumption_kwh rate_per_kwh total_cost : Q) (currency : string)
| TariffNotFound
| TypeError.

(** [calculate_cost(request)]; [consumption_kwh] is [None] when the request
    holds no number there, and multiplying then raises. *)
Definition calculate_cost (tariffs : list EnergyTariff.t)
    (consumption_kwh : option Q) (tariff_id : option Z) : cost_answer :=
  match tariff_id ≫= fun id =>
          find (fun t => (EnergyTariff.pk t =? id) && EnergyTariff.is_active t)
               tariffs with
  | None => TariffNotFound
  | Some tariff =>
    match consumption_kwh with
    | None => TypeError
    | Some kwh =>
      Cost kwh (EnergyTariff.rate_per_kwh tariff)
           (kwh * EnergyTariff.rate_per_kwh tariff)%Q
           (EnergyTariff.currency tariff)
    end
  end.

End DailyConsumptionViewSet.

(** ** admin.py: the actions of AlertAdmin and EnergyReportAdmin *)

Module AlertAdmin.

Definition selected (queryset : list Z) (a : Alert.t) : bool :=
  existsb (Z.eqb (Alert.pk a)) queryset.

(** [mark_acknowledged]: [queryset.update(status='ACKNOWLEDGED')]; the
    queryset is the list of the selected primary keys. *)
Definition mark_acknowledged (db : DB.t) (queryset : list Z) : DB.t :=
  DB.set_alerts db
    (map (fun a => if selected queryset a
                   then Alert.set_status a "ACKNOWLEDGED" (Alert.resolved_at a)
                   else a)
         (DB.alerts db)).

(** [mark_resolved]:
    [queryset.update(status='RESOLVED', resolved_at=timezone.now())] *)
Definition mark_resolved (now : Z) (db : DB.t) (queryset : list Z) : DB.t :=
  DB.set_alerts db
    (map (fun a => if selected queryset a
                   then Alert.set_status a "RESOLVED" (Some now)
                   else a)
         (DB.alerts db)).

(** [resend_whatsapp]: the number that the admin message reports, and the
    database afterwards; the queryset is the list of the selected alerts. *)
Definition resend_whatsapp (settings : Settings.t) (now : Z)
    (strftime : Z -> string) (messages_create : Twilio.messages_create)
    (db : DB.t) (queryset : list Alert.t) : Z * DB.t :=
  let wa_service := WhatsAppService.__init__ settings in
  fold_left
    (fun '(count, db) alert =>
       let '(_, db) :=
         WhatsAppService.send_alert_message wa_service now strftime
           messages_create db alert None in
       (count + 1, db))
    queryset (0, db).

End AlertAdmin.

Module EnergyReportAdmin.

(** [send_via_whatsapp]: the number that the admin message reports, and the
    database afterwards. *)
Definition send_via_whatsapp (settings : Settings.t) (now : Z)
    (now_text : string) (isoformat : Z -> string) (smtp_send : Smtp.send)
    (messages_create : Twilio.messages_create)
    (db : DB.t) (queryset : list EnergyReport.t) : Z * DB.t :=
  fold_left
    (fun '(count, db) report =>
       let '(_, _, db) :=
         ReportService.send_report settings now now_text isoformat smtp_send
           messages_create db report false true in
       (count + 1, db))
    queryset (0, db).

End EnergyReportAdmin.

(** ** management/commands/generate_sample_data.py: daily summaries *)

Module SampleData.

(** The built-in [min(a, b)]: [b] when [b < a], else [a]. *)
Definition py_min (a b : Q) : Q := if Qle_bool a b then a else b.

(** The row that [generate_daily_consumption] creates for one day from the
    readings of that day, [None] when there is no reading.  The sums are taken
    as the code takes them: [sum] from the left, one division, one product
    after the other. *)
Definition daily_record (device : Device.t) (date : Z)
    (readings : list PowerReading.t) (tariff : EnergyTariff.t)
    : option DailyConsumption.t :=
  match map PowerReading.power readings with
  | [] => None
  | p :: ps =>
    let total := Py.sum (p :: ps) in
    let total_consumption := (total * (5 / 60) / 1000)%Q in
    Some {| DailyConsumption.device := Some (Device.pk device);
            DailyConsumption.device_identifier := Device.device_id device;
            DailyConsumption.date := date;
            DailyConsumption.total_consumption := total_consumption;
            DailyConsumption.avg_power :=
              (total / inject_Z (Py.len (p :: ps)))%Q;
            DailyConsumption.peak_power := fold_left Py.max ps p;
            DailyConsumption.min_power := fold_left py_min ps p;
            DailyConsumption.total_cost :=
              (total_consumption * EnergyTariff.rate_per_kwh tariff)%Q |}
  end.

(** The readings of a device on one day. *)
Definition readings_on (db : DB.t) (device : Device.t) (date : Z)
    : list PowerReading.t :=
  filter (fun r => Orm.fk_is (PowerReading.device r) (Device.pk device)
                   && (PowerReading.timestamp_date r =? date))
         (DB.power_readings db).

(** [range(days, 0, -1)] *)
Definition day_offsets (days : Z) : list Z :=
  map (fun k => days - Z.of_nat k) (seq 0 (Z.to_nat days)).

(** [unique_together = ['device_identifier', 'date']]: whether a stored
    summary already holds the key of [row]. *)
Definition collides (db : DB.t) (row : DailyConsumption.t) : bool :=
  existsb (fun r => String.eqb (DailyConsumption.device_identifier r)
                               (DailyConsumption.device_identifier row)
                    && (DailyConsumption.date r =? DailyConsumption.date row))
          (DB.daily_consumption db).

(** [DailyConsumption.objects.create(...)]: [None] stands for the
    [IntegrityError] of the unique constraint. *)
Definition create (db : DB.t) (row : DailyConsumption.t) : option DB.t :=
  if collides db row then None
  else Some (DB.mk (DB.devices db) (DB.clients db)
                   (DB.daily_consumption db ++ [row]) (DB.power_readings db)
                   (DB.alerts db) (DB.energy_reports db)
                   (DB.whatsapp_messages db)).

(** How the command ends: with the count it returns, or with the
    [IntegrityError] that nothing catches. *)
Inductive outcome :=
| Count (count : Z)
| IntegrityError.

(** The loop of [generate_daily_consumption] over the remaining offsets; the
    rows created before an error stay stored. *)
Fixpoint summarise (today : Z) (device : Device.t) (tariff : EnergyTariff.t)
    (offsets : list Z) (count : Z) (db : DB.t) : outcome * DB.t :=
  match offsets with
  | [] => (Count count, db)
  | day_offset :: rest =>
    let date := today - day_offset in
    match daily_record device date (readings_on db device date) tariff with
    | None => summarise today device tariff rest count db
    | Some row =>
      match create db row with
      | None => (IntegrityError, db)
      | Some db => summarise today device tariff rest (count + 1) db
      end
    end
  end.

(** [generate_daily_consumption(device, days, tariff)] *)
Definition generate_daily_consumption (today : Z) (db : DB.t)
    (device : Device.t) (days : Z) (tariff : EnergyTariff.t)
    : outcome * DB.t :=
  summarise today device tariff (day_offsets days) 0 db.

(** [generate_reports()]: a weekly report for every client, and a monthly one
    as well for the clients whose frequency is MONTHLY; the result is the
    number of the reports made, and the database afterwards. *)
Definition generate_reports (today : Z) (db : DB.t) : Z * DB.t :=
  fold_left
    (fun '(count, db) client =>
       let '(report, db) :=
         ReportService.generate_report today db client "WEEKLY" None None
                                       None in
       let count := match report with Some _ => count + 1 | None => count end in
       if String.eqb (Client.report_frequency client) "MONTHLY" then
         let '(report, db) :=
           ReportService.generate_report today db client "MONTHLY" None None
                                         None in
         (match report with Some _ => count + 1 | None => count end, db)
       else (count, db))
    (DB.clients db) (0, db).

End SampleData.

(** ** management/commands/create_tariffs.py *)

Module CreateTariffs.

(** One entry of the list [tariffs]; the times of day are not read by any
    modelled code and are left out. *)
Record tariff_data := mk_data {
  name : string;
  rate_per_kwh : Q;
  currency : string
}.

Definition tariffs : list tariff_data :=
  [mk_data "Standard Rate (Nigeria)" 65 "NGN";
   mk_data "Off-Peak Rate" 45 "NGN";
   mk_data "Peak Rate" 85 "NGN";
   mk_data "USD Standard Rate" (12 # 100) "USD"].

Definition named (n : string) (table : list EnergyTariff.t)
    : list EnergyTariff.t :=
  filter (fun t => String.eqb (EnergyTariff.name t) n) table.

(** [EnergyTariff.objects.get_or_create(name=..., defaults=tariff_data)]:
    the tariff, whether it was created, and the table afterwards; [None]
    stands for [MultipleObjectsReturned]. *)
Definition get_or_create (table : list EnergyTariff.t) (d : tariff_data)
    : option (EnergyTariff.t * bool * list EnergyTariff.t) :=
  match named (name d) table with
  | [] =>
    let t :=
      {| EnergyTariff.pk := DB.next_pk (map EnergyTariff.pk table);
         EnergyTariff.name := name d;
         EnergyTariff.rate_per_kwh := rate_per_kwh d;
         EnergyTariff.currency := currency d;
         EnergyTariff.is_active := true |} in
    Some (t, true, (table ++ [t])%list)
  | [t] => Some (t, false, table)
  | _ => None
  end.

(** The loop of [handle]: [created_count] and the table, [None] once
    [get_or_create] has raised. *)
Definition create_all (data : list tariff_data)
    (start : option (Z * list EnergyTariff.t))
    : option (Z * list EnergyTariff.t) :=
  fold_left
    (fun acc d =>
       match acc with
       | None => None
       | Some (created_count, table) =>
         match get_or_create table d with
         | None => None
         | Some (_, created, table) =>
           Some (if created then created_count + 1 else created_count, table)
         end
       end)
    data start.

(** [handle()] *)
Definition handle (table : list EnergyTariff.t)
    : option (Z * list EnergyTariff.t) :=
  create_all tariffs (Some (0, table)).

End CreateTariffs.

(** ** Vocabulary of the statements on delivery *)

Module Delivered.
(** The report with its two delivery flags raised as told. *)
Definition flagged (report : EnergyReport.t) (email whatsapp : bool)
    : EnergyReport.t :=
  EnergyReport.set_sent_via_whatsapp
    (EnergyReport.set_sent_via_email report
       (EnergyReport.sent_via_email report || email))
    (EnergyReport.sent_via_whatsapp report || whatsapp).

(** The row [b] after the report [r] was saved. *)
Definition replace_report (r b : EnergyReport.t) : EnergyReport.t :=
  if EnergyReport.pk b =? EnergyReport.pk r then r else b.

(** Whether the per-channel map answers "sent" for a channel. *)
Definition sent (results : gmap string string) (channel : string) : bool :=
  bool_decide (results !! channel = Some "sent").
End Delivered.

(** ** Vocabulary of the statements *)

Module Stat.
(** Sum of integers and of rationals, by structural recursion. *)
Definition Zsum (l : list Z) : Z := fold_right Z.add 0 l.
Definition Qsum (l : list Q) : Q := fold_right Qplus 0%Q l.

(** The arithmetic mean of a list of samples (0 for no sample). *)
Definition mean (l : list Q) : Q :=
match l with
| [] => 0%Q
| _ => (Py.sum l / inject_Z (Py.len l))%Q
end.

(** The greatest element of a non-empty list. *)
Definition is_maximum (x : Q) (l : list Q) : Prop :=
(forall y, In y l -> (y <= x)%Q) /\ (exists y, In y l /\ (x == y)%Q).

(** The statistics of each device of a list, in order. *)
Definition stats_of (db : DB.t) (devices : list Device.t) (sd ed : Z)
    : list DeviceStats.t :=
  map (fun dev => ReportService._get_device_statistics db dev sd ed) devices.

(** The number of power-factor samples of a device. *)
Definition samples (st : DeviceStats.t) : Z :=
  Py.len (DeviceStats.power_factors st).
End Stat.

(** Concrete data used by the closed examples below. *)
(** What a rendering displays.  In the plain text a figure is a
    [Label: value] line, in the HTML a [stat] block, in the PDF a row of a
    table. *)
Module Shown.
Definition in_text (doc : list string) (label value : string) : Prop :=
  In (EmailService.field label value) doc.

Definition in_html (doc : list string) (label value : string) : Prop :=
  exists before after,
    doc = (before ++ EmailService.stat label value ++ after)%list.

Definition in_pdf (doc : list PDFReportService.flowable)
    (label value : string) : Prop :=
  exists data, In (PDFReportService.Table data) doc /\ In [label; value] data.

(** The same figure under the same label in the three renderings. *)
Definition in_all (html text : list string)
    (pdf : list PDFReportService.flowable) (label value : string) : Prop :=
  in_html html label value /\ in_text text label value
  /\ in_pdf pdf label value.
End Shown.

Module Sample.
Definition inverter_a : Device.t := Device.mk 1 "INV-A" "Inverter A" "inverter" true.
Definition inverter_b : Device.t := Device.mk 2 "INV-B" "Inverter B" "inverter" true.

Definition ada : Client.t :=
  Client.mk 1 "Ada" "ada@example.com" "+2348000000001"
            [inverter_a; inverter_b] true true true "WEEKLY".

(** A client to whom no device is attached. *)
Definition bare : Client.t :=
  Client.mk 2 "Bare" "bare@example.com" "+2348000000002" [] true true true
            "WEEKLY".

Definition today : Z := Date.toordinal 2024 6 10.

(** Inverter A has two daily records and ten readings with power factor 0.90,
    inverter B one daily record and two readings with power factor 0.80, all
    in the week that ends today. *)
Definition reading (device_pk : Z) (pf : Q) : PowerReading.t :=
  PowerReading.mk (Some device_pk) 1000 pf today.

Definition an_alert (pk device_pk : Z) (severity status : string) : Alert.t :=
  Alert.mk pk (Some device_pk) "INV" "VOLTAGE" "Voltage out of range" None
           severity status today None false None.

Definition db : DB.t :=
  {| DB.devices := [inverter_a; inverter_b];
     DB.clients := [ada; bare];
     DB.daily_consumption :=
       [DailyConsumption.mk (Some 1) "INV-A" today (125 # 10) 520 1500 90 850;
        DailyConsumption.mk (Some 1) "INV-A" (today - 1) 10 410 1800 80 680;
        DailyConsumption.mk (Some 2) "INV-B" today (32 # 10) 130 900 20
                            (2176 # 10)];
     DB.power_readings :=
       repeat (reading 1 (9 # 10)) 10 ++ repeat (reading 2 (8 # 10)) 2;
     DB.alerts :=
       [an_alert 1 1 "CRITICAL" "ACTIVE"; an_alert 2 2 "INFO" "RESOLVED"];
     DB.energy_reports := [];
     DB.whatsapp_messages := [] |}.

(** A client who has switched WhatsApp off, and one without e-mail address. *)
Definition quiet : Client.t :=
  Client.mk 3 "Quiet" "quiet@example.com" "+2348000000003" [inverter_a] true
            false true "WEEKLY".
Definition no_email : Client.t :=
  Client.mk 4 "Postal" EmptyString "+2348000000004" [inverter_a] true true
            true "WEEKLY".

(** A stored weekly report for a client. *)
Definition report_for (c : Client.t) : EnergyReport.t :=
  {| EnergyReport.pk := 1;
     EnergyReport.client := c;
     EnergyReport.device := None;
     EnergyReport.report_type := "WEEKLY";
     EnergyReport.start_date := today - 6;
     EnergyReport.end_date := today;
     EnergyReport.total_consumption_kwh := 452 # 10;
     EnergyReport.total_cost := 307360 # 100;
     EnergyReport.avg_daily_consumption := 452 # 70;
     EnergyReport.peak_power := 1800;
     EnergyReport.avg_power_factor := 53 # 60;
     EnergyReport.uptime_hours := 1;
     EnergyReport.total_alerts := 2;
     EnergyReport.critical_alerts := 1;
     EnergyReport.report_data := ReportData.mk [] 7 "system";
     EnergyReport.generated_at := today;
     EnergyReport.sent_via_email := false;
     EnergyReport.sent_via_whatsapp := false |}.

Definition db_with (r : EnergyReport.t) : DB.t := DB.add_energy_report db r.

(** Settings with every credential present, and transports that accept
    every message. *)
Definition configured : Settings.t :=
  Settings.mk (Some "AC0123") (Some "token") None (Some "smtp.example.com")
              (Some "reports@example.com") (Some "secret") None.

Definition smtp_ok : Smtp.send := fun _ _ _ _ _ => true.
Definition twilio_ok : Twilio.messages_create :=
  fun _ _ _ => Twilio.Created "SM1" "queued".
Definition isoformat : Z -> string := fun _ => "2024-06-10".
Definition strftime : Z -> string := fun _ => "2024-06-10 08:00:00".
Definition now_text : string := "2024-06-10 08:00:00".
End Sample.

(** ** Vocabulary of the statements on alerts *)

Module Valued.
(** The alert with another measured value. *)
Definition with_value (a : Alert.t) (v : option Q) : Alert.t :=
  Alert.mk (Alert.pk a) (Alert.device a) (Alert.device_identifier a)
           (Alert.alert_type a) (Alert.message a) v (Alert.severity a)
           (Alert.status a) (Alert.timestamp_date a) (Alert.resolved_at a)
           (Alert.whatsapp_sent a) (Alert.whatsapp_sent_at a).

(** The alerts of the devices in a period that are not critical. *)
Definition other_alerts (db : DB.t) (devices : list Device.t) (sd ed : Z)
    : Z :=
  Stat.Zsum
    (map (fun dev =>
            Orm.count
              (filter (fun a => negb (String.eqb (Alert.severity a)
                                                 "CRITICAL"))
                      (ReportService.alerts db dev sd ed)))
         devices).

End Valued.

(** ** Vocabulary of the statements on daily summaries *)

Module Summaries.
(** The device has a reading on that day. *)
Definition due (db : DB.t) (device : Device.t) (date : Z) : Prop :=
  SampleData.readings_on db device date <> [].

(** A stored summary already holds the day under the device's identifier. *)
Definition taken (db : DB.t) (device : Device.t) (date : Z) : Prop :=
  exists r,
    In r (DB.daily_consumption db)
    /\ DailyConsumption.device_identifier r = Device.device_id device
    /\ DailyConsumption.date r = date.

(** [rows] are the summaries of the days [today - k], for [lo < k <= hi], on
    which the device has a reading, oldest first. *)
Definition cover (today : Z) (db : DB.t) (device : Device.t)
    (tariff : EnergyTariff.t) (lo hi : Z) (rows : list DailyConsumption.t)
    : Prop :=
  (forall row,
      In row rows
      <-> exists k,
            lo < k <= hi
            /\ SampleData.daily_record device (today - k)
                 (SampleData.readings_on db device (today - k)) tariff
               = Some row)
  /\ StronglySorted Z.lt (map DailyConsumption.date rows).
End Summaries.

(** More concrete data, for the examples on views, admin actions and
    tariffs. *)
Module Fixtures.
Definition standard : EnergyTariff.t :=
  EnergyTariff.mk 1 "Standard Rate (Nigeria)" 65 "NGN" true.
Definition retired : EnergyTariff.t :=
  EnergyTariff.mk 2 "Old Rate" 40 "NGN" false.
Definition tariffs : list EnergyTariff.t := [standard; retired].

Definition info_alert : Alert.t := Sample.an_alert 2 2 "INFO" "RESOLVED".
Definition critical_alert : Alert.t := Sample.an_alert 1 1 "CRITICAL" "ACTIVE".

Definition twilio_down : Twilio.messages_create :=
  fun _ _ _ => Twilio.Raised "down".

(** A request for a report on inverter A for the sample client. *)
Definition device_report_request : EnergyReportViewSet.request_data :=
  EnergyReportViewSet.mk_request (Some 1) (Some "INV-A") (Some "DAILY")
                                 false false.

(** Three readings of inverter A on the day before the sample day. *)
Definition yesterday_readings : list PowerReading.t :=
  [PowerReading.mk (Some 1) 600 (9 # 10) (Sample.today - 1);
   PowerReading.mk (Some 1) 1800 (9 # 10) (Sample.today - 1);
   PowerReading.mk (Some 1) 1200 (9 # 10) (Sample.today - 1)].

Definition new_client : ClientSerializer.validated_data :=
  ClientSerializer.mk_data "Chidi" "chidi@example.com" "+2348000000005" true
                           true true "WEEKLY" (Some ["INV-B"; "INV-Z"]).

(** A request without message for a device that is not stored, and a
    complete request for inverter A. *)
Definition blank_request : AlertViewSet.request_data :=
  AlertViewSet.mk_request (Some "INV-NEW") None (Some "VOLTAGE") None None
                          None None.
Definition warning_request : AlertViewSet.request_data :=
  AlertViewSet.mk_request (Some "INV-A") None (Some "VOLTAGE")
                          (Some "Voltage high") (Some 251%Q) (Some "WARNING")
                          None.

(** An alert whose measured value is zero. *)
Definition zero_alert : Alert.t :=
  Alert.mk 3 (Some 1) "INV-A" "POWER_LOSS" "No power drawn" (Some 0%Q) "WARNING"
           "ACTIVE" Sample.today None false None.

(** The sample database with the readings of the day before. *)
Definition db_yesterday : DB.t :=
  DB.mk (DB.devices Sample.db) (DB.clients Sample.db) [] yesterday_readings
        (DB.alerts Sample.db) [] [].

(** A serializer that asks for a type and a message and hands the other
    fields on. *)
Definition serializer : AlertViewSet.serializer :=
  fun data =>
    match AlertViewSet.alert_type data, AlertViewSet.message data with
    | Some alert_type, Some message =>
      Some (AlertViewSet.mk_validated alert_type message
              (AlertViewSet.value data) (AlertViewSet.severity data)
              (AlertViewSet.status data) None)
    | _, _ => None
    end.

(** A database in which the only daily record of inverter A has a negative
    peak. *)
Definition db_negative_peak : DB.t :=
  DB.mk (DB.devices Sample.db) (DB.clients Sample.db)
        [DailyConsumption.mk (Some 1) "INV-A" Sample.today 1 100 (-50) (-80)
                             68]
        [] [] [] [].
End Fixtures.

(** * Properties *)

(** ** Report date range (report_service.py, [_get_date_range]) *)

Section DateRange.
Import ReportService.

Lemma resolve_dates_explicit today rt s e :
  resolve_dates today rt (Some s) (Some e) = (s, e).
Proof. reflexivity. Qed.

Lemma resolve_dates_default today rt s e :
  s = None \/ e = None ->
  resolve_dates today rt s e = _get_date_range today rt.
Proof.
  intros [-> | ->]; [reflexivity|]. destruct s; reflexivity.
Qed.

(** A report is produced exactly when the device set is not empty; it is
    stored, and its period is the resolved date range. *)
Lemma generate_report_some today db client rt device s e :
  (0 < length (device_set client device))%nat ->
  exists r,
    generate_report today db client rt device s e
      = (Some r, DB.add_energy_report db r)
    /\ (EnergyReport.start_date r, EnergyReport.end_date r)
         = resolve_dates today rt s e
    /\ EnergyReport.report_type r = rt
    /\ EnergyReport.client r = client
    /\ EnergyReport.device r = device.
Proof.
  intros Hlen. unfold generate_report.
  destruct (resolve_dates today rt s e) as [sd ed].
  destruct (device_set client device) as [|d ds]; [simpl in Hlen; lia|].
  eexists. split; [reflexivity|]. simpl. auto.
Qed.

Lemma generate_report_none today db client rt device s e :
  device_set client device = [] ->
  generate_report today db client rt device s e = (None, db).
Proof.
  intros H. unfold generate_report.
  destruct (resolve_dates today rt s e) as [sd ed]. now rewrite H.
Qed.
End DateRange.

(** The example of the specification: a weekly report on 2024-06-10 covers
    2024-06-04 to 2024-06-10. *)
Example weekly_range_2024_06_10 :
  ReportService._get_date_range (Date.toordinal 2024 6 10) "WEEKLY"
  = (Date.toordinal 2024 6 4, Date.toordinal 2024 6 10).
Proof. reflexivity. Qed.

(** C2, as stated, fails: a CUSTOM request without explicit dates is given a
    default range, the weekly one.  On 2024-06-10 the report covers
    2024-06-04 to 2024-06-10. *)
Lemma custom_without_dates_gets_weekly_range :
  exists r db',
    ReportService.generate_report Sample.today DB.empty Sample.ada "CUSTOM"
      None None None = (Some r, db')
    /\ EnergyReport.start_date r = Date.toordinal 2024 6 4
    /\ EnergyReport.end_date r = Date.toordinal 2024 6 10.
Proof.
  eexists. eexists. split; [reflexivity|]. split; reflexivity.
Qed.

(** C2 (amended): without an explicit start or end date the range is
    [today, today] for DAILY, [today-6, today] for WEEKLY and
    [today-29, today] for MONTHLY, both ends included; a CUSTOM request
    without them falls back to the weekly range [today-6, today].  With both
    dates given, the report covers exactly these. *)
Theorem default_date_range_by_report_type today db client device s e :
  (0 < length (ReportService.device_set client device))%nat ->
  s = None \/ e = None ->
  (forall rt range,
      In (rt, range)
         [("DAILY", (today, today)); ("WEEKLY", (today - 6, today));
          ("MONTHLY", (today - 29, today)); ("CUSTOM", (today - 6, today))] ->
      exists r,
        ReportService.generate_report today db client rt device s e
          = (Some r, DB.add_energy_report db r)
        /\ (EnergyReport.start_date r, EnergyReport.end_date r) = range)
  /\ (forall rt s0 e0,
        exists r,
          ReportService.generate_report today db client rt device
            (Some s0) (Some e0) = (Some r, DB.add_energy_report db r)
          /\ (EnergyReport.start_date r, EnergyReport.end_date r) = (s0, e0)).
Proof.
  intros Hdev Hmissing. split.
  - intros rt range Hin.
    destruct (generate_report_some today db client rt device s e Hdev)
      as [r [Hr [Hrange _]]].
    exists r. split; [exact Hr|].
    rewrite Hrange, (resolve_dates_default _ _ _ _ Hmissing).
    simpl in Hin.
    destruct Hin as [H | [H | [H | [H | []]]]];
      inversion H; subst; reflexivity.
  - intros rt s0 e0.
    destruct (generate_report_some today db client rt device (Some s0)
                (Some e0) Hdev) as [r [Hr [Hrange _]]].
    exists r. split; [exact Hr|]. now rewrite Hrange.
Qed.

Lemma default_date_range_by_report_type_witness :
  exists r,
    ReportService.generate_report Sample.today DB.empty Sample.ada "MONTHLY"
      None None None = (Some r, DB.add_energy_report DB.empty r)
    /\ (EnergyReport.start_date r, EnergyReport.end_date r)
         = (Sample.today - 29, Sample.today).
Proof.
  apply (proj1 (default_date_range_by_report_type Sample.today DB.empty
                  Sample.ada None None None
                  ltac:(simpl; lia) ltac:(left; reflexivity))).
  simpl. right. right. left. reflexivity.
Defined.

(** C10: for every report type other than DAILY, WEEKLY and MONTHLY (CUSTOM
    and unknown strings alike), a request without explicit start and end dates
    is not rejected: the report is generated over the weekly default range
    [today-6, today]. *)
Theorem other_report_type_uses_weekly_range today db client rt device s e :
  rt <> "DAILY" -> rt <> "WEEKLY" -> rt <> "MONTHLY" ->
  s = None \/ e = None ->
  (0 < length (ReportService.device_set client device))%nat ->
  exists r,
    ReportService.generate_report today db client rt device s e
      = (Some r, DB.add_energy_report db r)
    /\ EnergyReport.report_type r = rt
    /\ EnergyReport.start_date r = today - 6
    /\ EnergyReport.end_date r = today.
Proof.
  intros Hd Hw Hm Hmissing Hdev.
  destruct (generate_report_some today db client rt device s e Hdev)
    as [r [Hr [Hrange [Hrt _]]]].
  exists r. split; [exact Hr|]. split; [exact Hrt|].
  rewrite (resolve_dates_default _ _ _ _ Hmissing) in Hrange.
  unfold ReportService._get_date_range in Hrange.
  apply String.eqb_neq in Hd, Hw, Hm. rewrite Hd, Hw, Hm in Hrange.
  inversion Hrange. split; reflexivity.
Qed.

Lemma other_report_type_uses_weekly_range_witness :
  exists r,
    ReportService.generate_report Sample.today DB.empty Sample.ada "YEARLY"
      None None None = (Some r, DB.add_energy_report DB.empty r)
    /\ EnergyReport.report_type r = "YEARLY"
    /\ EnergyReport.start_date r = Sample.today - 6
    /\ EnergyReport.end_date r = Sample.today.
Proof.
  apply (other_report_type_uses_weekly_range Sample.today DB.empty Sample.ada
           "YEARLY" None None None);
    [discriminate | discriminate | discriminate | left; reflexivity
     | simpl; lia].
Defined.

(** ** Aggregation (report_service.py, [generate_report] and
    [_get_device_statistics]) *)

Section Aggregation.
Import ReportService.

Lemma aggregate_fold db devices sd ed :
  aggregate db devices sd ed
  = fold_left accumulate (Stat.stats_of db devices sd ed) totals_init.
Proof.
  unfold aggregate, Stat.stats_of. generalize totals_init.
  induction devices as [|d ds IH]; intros acc; simpl; [reflexivity|].
  apply IH.
Qed.

Lemma fold_accumulate_consumption l acc :
  total_consumption (fold_left accumulate l acc)
  = fold_left Qplus (map DeviceStats.consumption l) (total_consumption acc).
Proof.
  revert acc. induction l as [|st l IH]; intros acc; simpl; [reflexivity|].
  now rewrite IH.
Qed.

Lemma fold_accumulate_cost l acc :
  total_cost (fold_left accumulate l acc)
  = fold_left Qplus (map DeviceStats.cost l) (total_cost acc).
Proof.
  revert acc. induction l as [|st l IH]; intros acc; simpl; [reflexivity|].
  now rewrite IH.
Qed.

Lemma fold_accumulate_uptime l acc :
  uptime_hours (fold_left accumulate l acc)
  = fold_left Qplus (map DeviceStats.uptime l) (uptime_hours acc).
Proof.
  revert acc. induction l as [|st l IH]; intros acc; simpl; [reflexivity|].
  now rewrite IH.
Qed.

Lemma fold_accumulate_peak l acc :
  peak_power (fold_left accumulate l acc)
  = fold_left Py.max (map DeviceStats.peak_power l) (peak_power acc).
Proof.
  revert acc. induction l as [|st l IH]; intros acc; simpl; [reflexivity|].
  now rewrite IH.
Qed.

Lemma fold_accumulate_alerts l acc :
  total_alerts (fold_left accumulate l acc)
  = total_alerts acc + Stat.Zsum (map DeviceStats.alerts l).
Proof.
  revert acc. induction l as [|st l IH]; intros acc; simpl; [lia|].
  rewrite IH. simpl. lia.
Qed.

Lemma fold_accumulate_critical l acc :
  critical_alerts (fold_left accumulate l acc)
  = critical_alerts acc + Stat.Zsum (map DeviceStats.critical_alerts l).
Proof.
  revert acc. induction l as [|st l IH]; intros acc; simpl; [lia|].
  rewrite IH. simpl. lia.
Qed.

Lemma fold_accumulate_power_factors l acc :
  power_factors (fold_left accumulate l acc)
  = (power_factors acc ++ concat (map DeviceStats.power_factors l))%list.
Proof.
  revert acc. induction l as [|st l IH]; intros acc; simpl.
  - now rewrite app_nil_r.
  - rewrite IH. simpl. now rewrite <- app_assoc.
Qed.

Lemma fold_accumulate_device_data l acc :
  device_data (fold_left accumulate l acc) = (device_data acc ++ l)%list.
Proof.
  revert acc. induction l as [|st l IH]; intros acc; simpl.
  - now rewrite app_nil_r.
  - rewrite IH. simpl. now rewrite <- app_assoc.
Qed.

(** Sums of rationals. *)
Lemma fold_Qplus_shift l a :
  (fold_left Qplus l a == a + fold_left Qplus l 0)%Q.
Proof.
  revert a. induction l as [|x l IH]; intros a; simpl.
  - ring.
  - rewrite (IH (a + x)%Q), (IH (0 + x)%Q). ring.
Qed.

Lemma sum_cons x l : (Py.sum (x :: l) == x + Py.sum l)%Q.
Proof.
  unfold Py.sum. simpl. rewrite fold_Qplus_shift. ring.
Qed.

Lemma sum_app l1 l2 : (Py.sum (l1 ++ l2) == Py.sum l1 + Py.sum l2)%Q.
Proof.
  induction l1 as [|x l1 IH]; simpl.
  - unfold Py.sum at 2. simpl. ring.
  - rewrite !sum_cons, IH. ring.
Qed.

Lemma sum_Qsum l : (Py.sum l == Stat.Qsum l)%Q.
Proof.
  induction l as [|x l IH]; [reflexivity|].
  rewrite sum_cons, IH. reflexivity.
Qed.

(** The running maximum of the loop. *)
Lemma max_l a b : (a <= Py.max a b)%Q.
Proof.
  unfold Py.max. destruct (Qle_bool b a) eqn:E; [apply Qle_refl|].
  destruct (Qlt_le_dec a b) as [H|H]; [now apply Qlt_le_weak|].
  apply Qle_bool_iff in H. congruence.
Qed.

Lemma max_r a b : (b <= Py.max a b)%Q.
Proof.
  unfold Py.max. destruct (Qle_bool b a) eqn:E; [|apply Qle_refl].
  now apply Qle_bool_iff.
Qed.

Lemma max_cases a b : Py.max a b = a \/ Py.max a b = b.
Proof. unfold Py.max. destruct (Qle_bool b a); auto. Qed.

Lemma fold_max_init l a : (a <= fold_left Py.max l a)%Q.
Proof.
  revert a. induction l as [|x l IH]; intros a; simpl; [apply Qle_refl|].
  eapply Qle_trans; [apply (max_l a x) | apply IH].
Qed.

Lemma fold_max_upper l a x : In x l -> (x <= fold_left Py.max l a)%Q.
Proof.
  revert a. induction l as [|y l IH]; intros a Hin; simpl in *; [tauto|].
  destruct Hin as [-> | Hin]; [|now apply IH].
  eapply Qle_trans; [apply (max_r a x) | apply fold_max_init].
Qed.

Lemma fold_max_cases l a :
  fold_left Py.max l a = a \/ In (fold_left Py.max l a) l.
Proof.
  revert a. induction l as [|y l IH]; intros a; simpl; [now left|].
  destruct (IH (Py.max a y)) as [H | H]; [|now right; right].
  rewrite H. destruct (max_cases a y) as [-> | ->]; [now left|].
  right. now left.
Qed.

(** The mean of pooled samples is the sample-weighted mean of the means. *)
Lemma len_app {A} (l1 l2 : list A) : Py.len (l1 ++ l2) = Py.len l1 + Py.len l2.
Proof. unfold Py.len. rewrite length_app. lia. Qed.

Lemma len_concat {A} (ls : list (list A)) :
  Py.len (concat ls) = Stat.Zsum (map Py.len ls).
Proof.
  induction ls as [|l ls IH]; simpl; [reflexivity|].
  now rewrite len_app, IH.
Qed.

Lemma len_pos_cons {A} (x : A) l : 0 < Py.len (x :: l).
Proof. unfold Py.len. simpl. lia. Qed.

Lemma inject_Z_pos_neq n : 0 < n -> ~ (inject_Z n == 0)%Q.
Proof. intros H E. unfold Qeq in E. simpl in E. lia. Qed.

Lemma mean_times_len l : (Stat.mean l * inject_Z (Py.len l) == Py.sum l)%Q.
Proof.
  destruct l as [|x l]; [reflexivity|].
  unfold Stat.mean. field.
  apply inject_Z_pos_neq, len_pos_cons.
Qed.

Lemma sum_concat ls : (Py.sum (concat ls) == Stat.Qsum (map Py.sum ls))%Q.
Proof.
  induction ls as [|l ls IH]; simpl; [reflexivity|].
  now rewrite sum_app, IH.
Qed.

Lemma weighted_mean ls :
  (Stat.mean (concat ls) * inject_Z (Stat.Zsum (map Py.len ls))
   == Stat.Qsum (map (fun l => inject_Z (Py.len l) * Stat.mean l) ls))%Q.
Proof.
  rewrite <- len_concat, mean_times_len, sum_concat.
  induction ls as [|l ls IH]; simpl; [reflexivity|].
  rewrite IH, <- (mean_times_len l). ring.
Qed.

Lemma mean_of_two la lb (na nb : Z) (ma mb : Q) :
  Py.len la = na -> Py.len lb = nb -> 0 < na -> 0 < nb ->
  (Stat.mean la == ma)%Q -> (Stat.mean lb == mb)%Q ->
  (Stat.mean (la ++ lb)
   == (inject_Z na * ma + inject_Z nb * mb) / inject_Z (na + nb))%Q.
Proof.
  intros Ha Hb Hna Hnb Hma Hmb.
  assert (Hn : ~ (inject_Z (na + nb) == 0)%Q)
    by (apply inject_Z_pos_neq; lia).
  rewrite <- Hma, <- Hmb, <- Ha, <- Hb.
  rewrite (Qmult_comm (inject_Z (Py.len la))), (Qmult_comm (inject_Z (Py.len lb))).
  rewrite !mean_times_len, <- sum_app.
  rewrite <- (mean_times_len (la ++ lb)), len_app.
  rewrite Ha, Hb. field. exact Hn.
Qed.

Lemma generate_report_fields today db client rt device s e :
  (0 < length (device_set client device))%nat ->
  exists r,
    generate_report today db client rt device s e
      = (Some r, DB.add_energy_report db r)
    /\ let acc := aggregate db (device_set client device)
                    (EnergyReport.start_date r) (EnergyReport.end_date r) in
       EnergyReport.total_consumption_kwh r = total_consumption acc
       /\ EnergyReport.total_cost r = total_cost acc
       /\ EnergyReport.peak_power r = peak_power acc
       /\ EnergyReport.uptime_hours r = uptime_hours acc
       /\ EnergyReport.total_alerts r = total_alerts acc
       /\ EnergyReport.critical_alerts r = critical_alerts acc
       /\ EnergyReport.avg_power_factor r = Stat.mean (power_factors acc)
       /\ ReportData.devices (EnergyReport.report_data r) = device_data acc.
Proof.
  intros Hlen. unfold generate_report.
  destruct (resolve_dates today rt s e) as [sd ed].
  remember (device_set client device) as devices eqn:Hd.
  destruct devices as [|d ds]; [simpl in Hlen; lia|].
  eexists. split; [reflexivity|]. simpl. repeat split; reflexivity.
Qed.

End Aggregation.

(** C1, as stated, fails on the peak power: the loop starts from a peak of 0,
    so a device whose peak is negative leaves the report at 0, which is not the
    maximum over the devices. *)
Lemma negative_peak_is_reported_as_zero :
  exists r,
    ReportService.generate_report Sample.today Fixtures.db_negative_peak
      Sample.quiet "DAILY" None None None
    = (Some r, DB.add_energy_report Fixtures.db_negative_peak r)
    /\ map DeviceStats.peak_power
          (Stat.stats_of Fixtures.db_negative_peak
             (ReportService.device_set Sample.quiet None)
             (EnergyReport.start_date r) (EnergyReport.end_date r))
       = [(-50)%Q]
    /\ EnergyReport.peak_power r = 0%Q
    /\ ~ Stat.is_maximum (EnergyReport.peak_power r) [(-50)%Q].
Proof.
  eexists. split; [vm_compute; reflexivity|].
  split; [vm_compute; reflexivity|]. split; [reflexivity|].
  intros [_ (y & Hy & Heq)]. destruct Hy as [<- | []]. discriminate Heq.
Qed.

(** C1: for a client with at least one device in the device set, the report
    combines the per-device statistics: consumption and cost are the sums over
    the devices, taken in their order; peak power is the greatest of 0 and the
    devices' peaks, which is the maximum over the devices when no device peak
    is negative; uptime is the number of readings times the 5-minute sampling
    interval, summed over the devices; the alert counts are sums; and the
    average power factor is the mean of all power-factor samples pooled
    across the devices, so that each device weighs by its number of samples:
    10 samples averaging 0.90 and 2 samples averaging 0.80 give 0.8833 and
    not 0.85. *)
Theorem report_combines_device_statistics today db client rt device s e :
  (0 < length (ReportService.device_set client device))%nat ->
  exists r,
    ReportService.generate_report today db client rt device s e
      = (Some r, DB.add_energy_report db r)
    /\ let devices := ReportService.device_set client device in
       let sd := EnergyReport.start_date r in
       let ed := EnergyReport.end_date r in
       let stats := Stat.stats_of db devices sd ed in
       let pooled := concat (map DeviceStats.power_factors stats) in
       EnergyReport.total_consumption_kwh r
         = Py.sum (map DeviceStats.consumption stats)
       /\ EnergyReport.total_cost r = Py.sum (map DeviceStats.cost stats)
       /\ (forall st, In st stats ->
             (DeviceStats.peak_power st <= EnergyReport.peak_power r)%Q)
       /\ (0 <= EnergyReport.peak_power r)%Q
       /\ (EnergyReport.peak_power r = 0%Q
           \/ In (EnergyReport.peak_power r)
                 (map DeviceStats.peak_power stats))
       /\ Stat.is_maximum (EnergyReport.peak_power r)
                          (0%Q :: map DeviceStats.peak_power stats)
       /\ ((forall st, In st stats -> (0 <= DeviceStats.peak_power st)%Q) ->
           Stat.is_maximum (EnergyReport.peak_power r)
                           (map DeviceStats.peak_power stats))
       /\ EnergyReport.uptime_hours r
           = Py.sum (map (fun dev =>
                            (inject_Z (Orm.count
                                         (ReportService.readings db dev sd ed))
                             * (5 / 60))%Q)
                         devices)
       /\ EnergyReport.total_alerts r
           = Stat.Zsum (map DeviceStats.alerts stats)
       /\ EnergyReport.critical_alerts r
           = Stat.Zsum (map DeviceStats.critical_alerts stats)
       /\ EnergyReport.avg_power_factor r = Stat.mean pooled
       /\ (forall a b,
             stats = [a; b] ->
             Stat.samples a = 10 ->
             (Qabs (Stat.mean (DeviceStats.power_factors a) - (90 # 100))
              <= 1 # 100000)%Q ->
             Stat.samples b = 2 ->
             (Qabs (Stat.mean (DeviceStats.power_factors b) - (80 # 100))
              <= 1 # 100000)%Q ->
             (Qabs (EnergyReport.avg_power_factor r - (8833 # 10000))
              < 1 # 10000)%Q
             /\ (3 # 100
                 < Qabs (EnergyReport.avg_power_factor r - (85 # 100)))%Q).
Proof.
  intros Hlen.
  destruct (generate_report_fields today db client rt device s e Hlen)
    as [r [Hr (Hc & Hcost & Hpeak & Hup & Hal & Hcrit & Hpf & _)]].
  exists r. split; [exact Hr|].
  rewrite aggregate_fold in Hc, Hcost, Hpeak, Hup, Hal, Hcrit, Hpf.
  cbv zeta.
  set (stats := Stat.stats_of db (ReportService.device_set client device)
                  (EnergyReport.start_date r) (EnergyReport.end_date r)) in *.
  rewrite fold_accumulate_consumption in Hc.
  rewrite fold_accumulate_cost in Hcost.
  rewrite fold_accumulate_peak in Hpeak.
  rewrite fold_accumulate_uptime in Hup.
  rewrite fold_accumulate_alerts in Hal.
  rewrite fold_accumulate_critical in Hcrit.
  rewrite fold_accumulate_power_factors in Hpf.
  simpl in Hc, Hcost, Hpeak, Hup, Hal, Hcrit, Hpf.
  split; [exact Hc|]. split; [exact Hcost|].
  split.
  { intros st Hin. rewrite Hpeak. apply fold_max_upper.
    now apply in_map. }
  split; [rewrite Hpeak; apply fold_max_init|].
  split.
  { rewrite Hpeak.
    destruct (fold_max_cases (map DeviceStats.peak_power stats) 0%Q)
      as [H0 | Hin]; [left; exact H0 | right; exact Hin]. }
  split.
  { rewrite Hpeak. split.
    - intros y [<- | Hy]; [apply fold_max_init | now apply fold_max_upper].
    - destruct (fold_max_cases (map DeviceStats.peak_power stats) 0%Q)
        as [H0 | Hin].
      + exists 0%Q. split; [now left | now rewrite H0].
      + eexists. split; [right; exact Hin | reflexivity]. }
  split.
  { intros Hnonneg. split.
    - intros y Hy. rewrite Hpeak. now apply fold_max_upper.
    - rewrite Hpeak.
      destruct (fold_max_cases (map DeviceStats.peak_power stats) 0%Q)
        as [H0 | Hin].
      + destruct stats as [|st rest] eqn:Hs.
        { unfold stats, Stat.stats_of in Hs.
          apply map_eq_nil in Hs. rewrite Hs in Hlen. simpl in Hlen. lia. }
        exists (DeviceStats.peak_power st). split; [now left|].
        rewrite H0. apply Qle_antisym.
        * apply Hnonneg. now left.
        * rewrite <- H0. apply fold_max_upper. now left.
      + eexists. split; [exact Hin | reflexivity]. }
  split.
  { rewrite Hup. unfold stats, Stat.stats_of. now rewrite map_map. }
  split; [exact Hal|]. split; [exact Hcrit|]. split; [exact Hpf|].
  intros a b Hs Ha Hma Hb Hmb.
  pose proof (weighted_mean (map DeviceStats.power_factors stats)) as W.
  rewrite !map_map in W. rewrite <- Hpf in W. rewrite Hs in W.
  cbn [map Stat.Zsum Stat.Qsum fold_right] in W.
  unfold Stat.samples in Ha, Hb. rewrite Ha, Hb in W.
  set (avg := EnergyReport.avg_power_factor r) in *.
  set (ma := Stat.mean (DeviceStats.power_factors a)) in *.
  set (mb := Stat.mean (DeviceStats.power_factors b)) in *.
  clearbody avg ma mb.
  apply Qabs_Qle_condition in Hma. apply Qabs_Qle_condition in Hmb.
  change (inject_Z (10 + (2 + 0))) with 12%Q in W.
  change (inject_Z 10) with 10%Q in W. change (inject_Z 2) with 2%Q in W.
  assert (Havg : (avg * 12 == 10 * ma + 2 * mb)%Q) by lra.
  split.
  - apply Qabs_Qlt_condition. split; lra.
  - destruct (Qlt_le_dec (avg - (85 # 100)) 0) as [Hneg | Hpos]; [lra|].
    rewrite Qabs_pos by exact Hpos. lra.
Qed.

Lemma report_combines_device_statistics_witness :
  exists r,
    ReportService.generate_report Sample.today Sample.db Sample.ada "WEEKLY"
      None None None = (Some r, DB.add_energy_report Sample.db r)
    /\ (0 <= EnergyReport.peak_power r)%Q
    /\ EnergyReport.total_alerts r
       = Stat.Zsum
           (map DeviceStats.alerts
                (Stat.stats_of Sample.db (Client.devices Sample.ada)
                   (EnergyReport.start_date r) (EnergyReport.end_date r))).
Proof.
  destruct (report_combines_device_statistics Sample.today Sample.db
              Sample.ada "WEEKLY" None None None ltac:(simpl; lia))
    as [r [Hr H]].
  exists r. split; [exact Hr|]. cbv zeta in H.
  destruct H as (_ & _ & _ & Hpos & _ & _ & _ & _ & Hal & _).
  split; [exact Hpos | exact Hal].
Defined.

(** ** The device set and the NoDevices outcome *)

(** C3: with an explicit device the device set is exactly that device,
    otherwise it is the list of the devices attached to the client; when no
    device is given and the client has none, generation fails (the function
    returns [None], the NoDevices outcome) and no EnergyReport is created;
    this is the only way to fail, and a report that is produced covers the
    device set, device by device. *)
Theorem device_set_and_no_devices today db client rt device s e :
  (forall d, ReportService.device_set client (Some d) = [d])
  /\ ReportService.device_set client None = Client.devices client
  /\ (device = None -> Client.devices client = [] ->
      ReportService.generate_report today db client rt device s e = (None, db)
      /\ DB.energy_reports
           (snd (ReportService.generate_report today db client rt device s e))
         = DB.energy_reports db)
  /\ (forall db',
        ReportService.generate_report today db client rt device s e
          = (None, db') ->
        device = None /\ Client.devices client = [] /\ db' = db)
  /\ (forall r db',
        ReportService.generate_report today db client rt device s e
          = (Some r, db') ->
        ReportData.devices (EnergyReport.report_data r)
          = Stat.stats_of db (ReportService.device_set client device)
              (EnergyReport.start_date r) (EnergyReport.end_date r)
        /\ DB.energy_reports db' = (DB.energy_reports db ++ [r])%list).
Proof.
  split; [reflexivity|]. split; [reflexivity|]. split.
  { intros -> Hnone.
    rewrite (generate_report_none today db client rt None s e Hnone).
    split; reflexivity. }
  destruct (ReportService.device_set client device) as [|d ds] eqn:Hset.
  - rewrite (generate_report_none today db client rt device s e Hset).
    split.
    + intros db' H. inversion H. subst db'.
      destruct device as [d|]; [discriminate Hset|].
      simpl in Hset. auto.
    + intros r db' H. discriminate H.
  - assert (Hlen : (0 < length (ReportService.device_set client device))%nat)
      by (rewrite Hset; simpl; lia).
    destruct (generate_report_fields today db client rt device s e Hlen)
      as [r [Hr (_ & _ & _ & _ & _ & _ & _ & Hdata)]].
    rewrite Hr. split.
    + intros db' H. discriminate H.
    + intros r' db' H. inversion H. subst r' db'.
      split; [|reflexivity].
      rewrite Hdata, aggregate_fold, fold_accumulate_device_data, Hset.
      reflexivity.
Qed.

Lemma device_set_and_no_devices_witness :
  ReportService.generate_report Sample.today Sample.db Sample.bare "WEEKLY"
    None None None = (None, Sample.db).
Proof.
  exact (proj1 (proj1 (proj2 (proj2
           (device_set_and_no_devices Sample.today Sample.db Sample.bare
              "WEEKLY" None None None)))
         eq_refl eq_refl)).
Defined.

(** ** Devices without data *)

(** C4: for a device with no reading and no daily-consumption record in the
    date range, [_get_device_statistics] (a total function: nothing is raised)
    returns the zero record: consumption 0, cost 0, peak power 0, with no
    power-factor sample and no uptime. *)
Theorem zero_readings_zero_record db device sd ed :
  ReportService.consumption_records db device sd ed = [] ->
  ReportService.readings db device sd ed = [] ->
  let st := ReportService._get_device_statistics db device sd ed in
  DeviceStats.consumption st = 0%Q
  /\ DeviceStats.cost st = 0%Q
  /\ DeviceStats.peak_power st = 0%Q
  /\ DeviceStats.power_factors st = []
  /\ (DeviceStats.uptime st == 0)%Q.
Proof.
  intros Hc Hr. unfold ReportService._get_device_statistics.
  rewrite Hc, Hr. simpl. repeat split; reflexivity.
Qed.

Lemma zero_readings_zero_record_witness :
  let st :=
    ReportService._get_device_statistics Sample.db Sample.inverter_b
      (Sample.today - 40) (Sample.today - 30) in
  DeviceStats.consumption st = 0%Q
  /\ DeviceStats.cost st = 0%Q
  /\ DeviceStats.peak_power st = 0%Q
  /\ DeviceStats.power_factors st = []
  /\ (DeviceStats.uptime st == 0)%Q.
Proof.
  apply (zero_readings_zero_record Sample.db Sample.inverter_b
           (Sample.today - 40) (Sample.today - 30));
    reflexivity.
Defined.

(** ** Alerts (views.py, [AlertViewSet]) *)

Section Alerts.
Import AlertViewSet.

Lemma mem_warning_critical s :
  mem s ["WARNING"; "CRITICAL"] = true <-> s = "WARNING" \/ s = "CRITICAL".
Proof.
  unfold mem. simpl. rewrite !orb_true_iff, !String.eqb_eq. intuition congruence.
Qed.

Lemma get_or_create_device_tables db device_id name d db' :
  get_or_create_device db device_id name = (d, db') ->
  DB.alerts db' = DB.alerts db
  /\ DB.whatsapp_messages db' = DB.whatsapp_messages db.
Proof.
  unfold get_or_create_device.
  destruct (find _ _); intros H; inversion H; subst; auto.
Qed.

End Alerts.

(** ** Alert status transitions *)

Section AlertStatus.
Import AlertViewSet.

Lemma get_alert_pk db pk a : DB.get_alert db pk = Some a -> Alert.pk a = pk.
Proof.
  unfold DB.get_alert. intros H. apply find_some in H.
  destruct H as [_ H]. now apply Z.eqb_eq in H.
Qed.

Lemma get_alert_save_alert db pk a a' :
  DB.get_alert db pk = Some a -> Alert.pk a' = pk ->
  DB.get_alert (DB.save_alert db a') pk = Some a'.
Proof.
  unfold DB.get_alert, DB.save_alert. simpl. intros Hfind Hpk. subst pk.
  induction (DB.alerts db) as [|b l IH]; simpl in *; [discriminate|].
  destruct (Alert.pk b =? Alert.pk a') eqn:E; simpl.
  - now rewrite Z.eqb_refl.
  - rewrite E. now apply IH.
Qed.

Lemma status_after_action now pk db alert a :
  DB.get_alert db pk = Some alert ->
  exists alert',
    DB.get_alert (apply_action now pk db a) pk = Some alert'
    /\ Alert.status alert'
       = match a with
         | Acknowledge => "ACKNOWLEDGED"
         | Resolve => "RESOLVED"
         end.
Proof.
  intros Hget. pose proof (get_alert_pk _ _ _ Hget) as Hpk.
  destruct a; simpl; unfold acknowledge, resolve; rewrite Hget; simpl;
    eexists; (split; [eapply get_alert_save_alert; [exact Hget | exact Hpk]
                     | reflexivity]).
Qed.

Lemma run_keeps_alert now pk db alert l :
  DB.get_alert db pk = Some alert ->
  exists alert', DB.get_alert (run now pk db l) pk = Some alert'.
Proof.
  revert db alert. induction l as [|a l IH]; intros db alert Hget; simpl.
  - eauto.
  - destruct (status_after_action now pk db alert a Hget) as [b [Hb _]].
    eapply IH. exact Hb.
Qed.

Lemma run_snoc now pk db l a :
  run now pk db (l ++ [a]) = apply_action now pk (run now pk db l) a.
Proof. unfold run. now rewrite fold_left_app. Qed.

Lemma rank_bounds st : 0 <= rank st <= 2.
Proof.
  unfold rank. repeat (destruct (String.eqb _ _)); lia.
Qed.

End AlertStatus.

(** C9, as stated, fails: resolving an ACTIVE alert and then acknowledging it
    takes its status from RESOLVED back to ACKNOWLEDGED. *)
Lemma acknowledge_after_resolve_moves_backward :
  AlertViewSet.status_of Sample.db 1 = Some "ACTIVE"
  /\ AlertViewSet.status_of
       (AlertViewSet.run Sample.today 1 Sample.db [AlertViewSet.Resolve]) 1
     = Some "RESOLVED"
  /\ AlertViewSet.status_of
       (AlertViewSet.run Sample.today 1 Sample.db
          [AlertViewSet.Resolve; AlertViewSet.Acknowledge]) 1
     = Some "ACKNOWLEDGED"
  /\ AlertViewSet.rank "ACKNOWLEDGED" < AlertViewSet.rank "RESOLVED".
Proof. repeat split; reflexivity. Qed.

(** C9 (amended): on a stored alert, acknowledge sets the status to
    ACKNOWLEDGED and resolve sets it to RESOLVED whatever the status was.  So
    after any non-empty sequence of these actions the status is the one of the
    last action and never ACTIVE; resolve never moves the status backward; and
    acknowledge moves it backward in one case only, from RESOLVED. *)
Theorem alert_status_after_actions now pk db alert :
  DB.get_alert db pk = Some alert ->
  (forall l a,
      AlertViewSet.status_of (AlertViewSet.run now pk db (l ++ [a])) pk
      = Some match a with
             | AlertViewSet.Acknowledge => "ACKNOWLEDGED"
             | AlertViewSet.Resolve => "RESOLVED"
             end)
  /\ (forall l, l <> [] ->
        AlertViewSet.status_of (AlertViewSet.run now pk db l) pk
        <> Some "ACTIVE")
  /\ (forall st',
        AlertViewSet.status_of
          (AlertViewSet.apply_action now pk db AlertViewSet.Resolve) pk
        = Some st' ->
        AlertViewSet.rank (Alert.status alert) <= AlertViewSet.rank st')
  /\ (forall st',
        AlertViewSet.status_of
          (AlertViewSet.apply_action now pk db AlertViewSet.Acknowledge) pk
        = Some st' ->
        (AlertViewSet.rank st' < AlertViewSet.rank (Alert.status alert)
         <-> Alert.status alert = "RESOLVED")).
Proof.
  intros Hget.
  assert (Hlast : forall l a,
    AlertViewSet.status_of (AlertViewSet.run now pk db (l ++ [a])) pk
    = Some match a with
           | AlertViewSet.Acknowledge => "ACKNOWLEDGED"
           | AlertViewSet.Resolve => "RESOLVED"
           end).
  { intros l a. rewrite run_snoc.
    destruct (run_keeps_alert now pk db alert l Hget) as [b Hb].
    destruct (status_after_action now pk _ b a Hb) as [b' [Hb' Hst]].
    unfold AlertViewSet.status_of. rewrite Hb'. simpl. now rewrite Hst. }
  split; [exact Hlast|]. split.
  { intros l Hne.
    destruct (exists_last Hne) as [l' [a ->]].
    rewrite Hlast. destruct a; discriminate. }
  split.
  { intros st' H.
    destruct (status_after_action now pk db alert AlertViewSet.Resolve Hget)
      as [b [Hb Hst]].
    unfold AlertViewSet.status_of in H. rewrite Hb in H. simpl in H.
    injection H as <-. rewrite Hst.
    pose proof (rank_bounds (Alert.status alert)). change (AlertViewSet.rank "RESOLVED") with 2. lia. }
  intros st' H.
  destruct (status_after_action now pk db alert AlertViewSet.Acknowledge Hget)
    as [b [Hb Hst]].
  unfold AlertViewSet.status_of in H. rewrite Hb in H. simpl in H.
  injection H as <-. rewrite Hst.
  change (AlertViewSet.rank "ACKNOWLEDGED") with 1.
  unfold AlertViewSet.rank.
  destruct (String.eqb (Alert.status alert) "ACTIVE") eqn:E1.
  { apply String.eqb_eq in E1. rewrite E1. split; [lia | discriminate]. }
  destruct (String.eqb (Alert.status alert) "ACKNOWLEDGED") eqn:E2.
  { apply String.eqb_eq in E2. rewrite E2. split; [lia | discriminate]. }
  destruct (String.eqb (Alert.status alert) "RESOLVED") eqn:E3.
  { apply String.eqb_eq in E3. split; [auto | lia]. }
  apply String.eqb_neq in E3. split; [lia | congruence].
Qed.

Lemma alert_status_after_actions_witness :
  AlertViewSet.status_of
    (AlertViewSet.run Sample.today 1 Sample.db
       ([AlertViewSet.Acknowledge; AlertViewSet.Acknowledge]
        ++ [AlertViewSet.Resolve])) 1
  = Some "RESOLVED".
Proof.
  exact (proj1 (alert_status_after_actions Sample.today 1 Sample.db
                  (Sample.an_alert 1 1 "CRITICAL" "ACTIVE") eq_refl)
               [AlertViewSet.Acknowledge; AlertViewSet.Acknowledge]
               AlertViewSet.Resolve).
Defined.

(** ** Report delivery (report_service.py, [send_report]) *)

Section Delivery.
Import ReportService.

Lemma send_report_email_preserves svc now_text isoformat smtp db report er
    report1 db1 :
  EmailService.send_report_email svc now_text isoformat smtp db report
    = (er, report1, db1) ->
  EnergyReport.client report1 = EnergyReport.client report
  /\ EnergyReport.sent_via_whatsapp report1
     = EnergyReport.sent_via_whatsapp report
  /\ DB.whatsapp_messages db1 = DB.whatsapp_messages db.
Proof.
  unfold EmailService.send_report_email.
  repeat match goal with
         | |- context [if ?b then _ else _] => destruct b
         end;
    intros H; injection H as <- <- <-; auto.
Qed.

(** An unconfigured WhatsApp service does nothing for a report and returns
    [None]. *)
Lemma send_report_summary_unconfigured settings now isoformat mc db report :
  WhatsAppService.enabled (WhatsAppService.__init__ settings) = false ->
  WhatsAppService.send_report_summary (WhatsAppService.__init__ settings) now
    isoformat mc db report = (None, db).
Proof.
  intros H. unfold WhatsAppService.send_report_summary. now rewrite H.
Qed.

(** The outcome of [send_report] for an unconfigured WhatsApp transport and a
    client who accepts WhatsApp messages. *)
Lemma send_report_whatsapp_unconfigured settings now now_text isoformat smtp mc
    db report via_email results report' db' :
  WhatsAppService.enabled (WhatsAppService.__init__ settings) = false ->
  Client.receive_whatsapp_alerts (EnergyReport.client report) = true ->
  send_report settings now now_text isoformat smtp mc db report via_email true
    = (results, report', db') ->
  results !! "whatsapp" = Some "failed"
  /\ EnergyReport.sent_via_whatsapp report'
     = EnergyReport.sent_via_whatsapp report
  /\ DB.whatsapp_messages db' = DB.whatsapp_messages db.
Proof.
  intros Hoff Hpref. unfold send_report.
  destruct (via_email && _).
  - destruct (EmailService.send_report_email _ _ _ _ _ _)
      as [[er report1] db1] eqn:Hemail.
    apply send_report_email_preserves in Hemail.
    destruct Hemail as (Hc & Hw & Hm).
    destruct er as [[|]|]; simpl; rewrite ?Hc, Hpref; simpl;
      rewrite send_report_summary_unconfigured by exact Hoff;
      intros H; injection H as <- <- <-; simpl;
      rewrite lookup_insert_eq; auto.
  - simpl. rewrite Hpref.
    rewrite send_report_summary_unconfigured by exact Hoff.
    intros H; injection H as <- <- <-. rewrite lookup_insert_eq. auto.
Qed.

End Delivery.

(** C6, as stated, fails.  For a client who has disabled WhatsApp the returned
    map has no entry for the channel, so the result is not "skipped"; and for
    a client without e-mail address (transport configured) the e-mail result
    is "failed". *)
Lemma disabled_channel_is_not_reported_skipped :
  (ReportService.send_report Sample.configured Sample.today Sample.now_text
     Sample.isoformat Sample.smtp_ok Sample.twilio_ok
     (Sample.db_with (Sample.report_for Sample.quiet))
     (Sample.report_for Sample.quiet) true true).1.1 !! "whatsapp"
  <> Some "skipped"
  /\ (ReportService.send_report Sample.configured Sample.today Sample.now_text
        Sample.isoformat Sample.smtp_ok Sample.twilio_ok
        (Sample.db_with (Sample.report_for Sample.quiet))
        (Sample.report_for Sample.quiet) true true).1.1 !! "whatsapp"
     = None
  /\ (ReportService.send_report Sample.configured Sample.today Sample.now_text
        Sample.isoformat Sample.smtp_ok Sample.twilio_ok
        (Sample.db_with (Sample.report_for Sample.no_email))
        (Sample.report_for Sample.no_email) true false).1.1 !! "email"
     = Some "failed".
Proof.
  split; [|split]; vm_compute; try reflexivity.
  intros H. discriminate H.
Qed.

(** C6 (amended): a channel that the client has disabled in the preferences
    gets no entry in the returned per-channel map: it is never reported as
    "failed", and the absence of the entry tells it from a failure.  The map
    holds no other value than "sent" and "failed" (there is no "skipped"), and
    with both channels disabled nothing is sent and nothing is written. *)
Theorem disabled_channel_has_no_entry settings now now_text isoformat smtp mc
    db report via_email via_whatsapp results report' db' :
  ReportService.send_report settings now now_text isoformat smtp mc db report
    via_email via_whatsapp = (results, report', db') ->
  (Client.receive_email_reports (EnergyReport.client report) = false ->
   results !! "email" = None)
  /\ (Client.receive_whatsapp_alerts (EnergyReport.client report) = false ->
      results !! "whatsapp" = None)
  /\ (forall k v, results !! k = Some v ->
        (k = "email" \/ k = "whatsapp") /\ (v = "sent" \/ v = "failed"))
  /\ (Client.receive_email_reports (EnergyReport.client report) = false ->
      Client.receive_whatsapp_alerts (EnergyReport.client report) = false ->
      results = ∅ /\ report' = report /\ db' = db).
Proof.
  unfold ReportService.send_report.
  destruct (via_email
            && Client.receive_email_reports (EnergyReport.client report))
    eqn:Hemail_on.
  - apply andb_true_iff in Hemail_on. destruct Hemail_on as [_ Hpref].
    destruct (EmailService.send_report_email _ _ _ _ _ _)
      as [[er report1] db1] eqn:Hemail.
    apply send_report_email_preserves in Hemail.
    destruct Hemail as (Hc & _ & _).
    assert (Hc' : forall b,
               EnergyReport.client (EnergyReport.set_sent_via_email report1 b)
               = EnergyReport.client report) by (intros b; exact Hc).
    destruct er as [[|]|]; simpl; rewrite ?Hc', ?Hc;
      (destruct (via_whatsapp
                 && Client.receive_whatsapp_alerts
                      (EnergyReport.client report)) eqn:Hwa_on;
       [ apply andb_true_iff in Hwa_on; destruct Hwa_on as [_ Hwpref];
         destruct (WhatsAppService.send_report_summary _ _ _ _ _ _)
           as [[m|] db2]
       | ]);
      intros H; injection H as <- <- <-;
      (split; [congruence|]); (split; [intros Hw; try congruence|]);
      try (rewrite lookup_insert_ne by discriminate;
           rewrite lookup_insert_ne by discriminate; apply lookup_empty);
      try (rewrite lookup_insert_ne by discriminate; apply lookup_empty);
      (split; [|congruence]);
      intros k v Hk;
      repeat (apply lookup_insert_Some in Hk;
              destruct Hk as [[<- <-] | [_ Hk]]; [auto|]);
      rewrite lookup_empty in Hk; discriminate.
  - simpl.
    destruct (via_whatsapp
              && Client.receive_whatsapp_alerts (EnergyReport.client report))
      eqn:Hwa_on.
    + apply andb_true_iff in Hwa_on. destruct Hwa_on as [_ Hwpref].
      destruct (WhatsAppService.send_report_summary _ _ _ _ _ _)
        as [[m|] db2];
        intros H; injection H as <- <- <-;
        (split; [intros _; rewrite lookup_insert_ne by discriminate;
                 apply lookup_empty|]);
        (split; [congruence|]); (split; [|congruence]);
        intros k v Hk;
        repeat (apply lookup_insert_Some in Hk;
                destruct Hk as [[<- <-] | [_ Hk]]; [auto|]);
        rewrite lookup_empty in Hk; discriminate.
    + intros H; injection H as <- <- <-.
      split; [intros _; apply lookup_empty|].
      split; [intros _; apply lookup_empty|].
      split; [|auto].
      intros k v Hk. rewrite lookup_empty in Hk. discriminate.
Qed.

Lemma triple_eta {A B C} (x : A * B * C) : x = (x.1.1, x.1.2, x.2).
Proof. destruct x as [[a b] c]. reflexivity. Qed.

Lemma disabled_channel_has_no_entry_witness :
  (ReportService.send_report Sample.configured Sample.today Sample.now_text
     Sample.isoformat Sample.smtp_ok Sample.twilio_ok
     (Sample.db_with (Sample.report_for Sample.quiet))
     (Sample.report_for Sample.quiet) true true).1.1 !! "whatsapp"
  = None.
Proof.
  exact (proj1 (proj2
           (disabled_channel_has_no_entry Sample.configured Sample.today
              Sample.now_text Sample.isoformat Sample.smtp_ok Sample.twilio_ok
              (Sample.db_with (Sample.report_for Sample.quiet))
              (Sample.report_for Sample.quiet) true true _ _ _
              (triple_eta _)))
         eq_refl).
Defined.

(** ** The unconfigured transport *)

(** C7, where the code departs from it.  With no credentials in the settings,
    sending a report over WhatsApp to a client who accepts WhatsApp messages
    records no message, answers "failed" and leaves [sent_via_whatsapp]
    unset; the two sibling paths do what the claim says: an alert gets a mock
    message with status SENT, and the e-mail of the same report is answered
    "sent" with [sent_via_email] set. *)
Theorem unconfigured_whatsapp_report_is_failed :
  let sent :=
    ReportService.send_report Settings.unconfigured Sample.today
      Sample.now_text Sample.isoformat Sample.smtp_ok Sample.twilio_ok
      (Sample.db_with (Sample.report_for Sample.ada))
      (Sample.report_for Sample.ada) true true in
  let alerted :=
    WhatsAppService.send_alert_message
      (WhatsAppService.__init__ Settings.unconfigured) Sample.today
      Sample.strftime Sample.twilio_ok Sample.db
      (Sample.an_alert 1 1 "CRITICAL" "ACTIVE") None in
  WhatsAppService.enabled (WhatsAppService.__init__ Settings.unconfigured)
  = false
  /\ sent.1.1 !! "whatsapp" = Some "failed"
  /\ DB.whatsapp_messages sent.2 = []
  /\ EnergyReport.sent_via_whatsapp sent.1.2 = false
  /\ sent.1.1 !! "email" = Some "sent"
  /\ EnergyReport.sent_via_email sent.1.2 = true
  /\ (exists m,
        alerted.1 = WhatsAppService.MockMessage m
        /\ DB.whatsapp_messages alerted.2 = [m]
        /\ WhatsAppMessage.status m = "SENT").
Proof.
  cbv zeta. split; [reflexivity|].
  split; [vm_compute; reflexivity|].
  split; [vm_compute; reflexivity|].
  split; [vm_compute; reflexivity|].
  split; [vm_compute; reflexivity|].
  split; [vm_compute; reflexivity|].
  eexists. split; [reflexivity|]. split; reflexivity.
Qed.

(** ** Number formatting ([format(x, '.df')]) *)

Section Formatting.
Import Fmt.

Lemma decimals_app_no_dot a b :
  has_dot a = false -> decimals (a ++ b) = decimals b.
Proof.
  induction a as [|c a IH]; simpl; [reflexivity|].
  intros H. apply orb_false_iff in H. destruct H as [Hc Ha].
  rewrite Hc. now apply IH.
Qed.

Lemma decimals_no_dot a : has_dot a = false -> decimals a = 0%nat.
Proof.
  induction a as [|c a IH]; simpl; [reflexivity|].
  intros H. apply orb_false_iff in H. destruct H as [Hc Ha].
  rewrite Hc. now apply IH.
Qed.

Lemma has_dot_app a b : has_dot (a ++ b) = has_dot a || has_dot b.
Proof.
  induction a as [|c a IH]; simpl; [reflexivity|].
  now rewrite IH, orb_assoc.
Qed.

Lemma digit_not_dot n : Ascii.eqb (digit (n mod 10)) "."%char = false.
Proof.
  pose proof (Z.mod_pos_bound n 10 ltac:(lia)) as H.
  assert (E : n mod 10 = 0 \/ n mod 10 = 1 \/ n mod 10 = 2 \/ n mod 10 = 3
              \/ n mod 10 = 4 \/ n mod 10 = 5 \/ n mod 10 = 6
              \/ n mod 10 = 7 \/ n mod 10 = 8 \/ n mod 10 = 9) by lia.
  repeat destruct E as [E | E]; rewrite E; reflexivity.
Qed.

Lemma fixed_digits_length d n acc :
  String.length (fixed_digits d n acc) = (d + String.length acc)%nat.
Proof.
  revert n acc. induction d as [|d IH]; intros n acc; simpl; [reflexivity|].
  rewrite IH. simpl. lia.
Qed.

Lemma numeral_aux_no_dot fuel n acc :
  has_dot acc = false -> has_dot (numeral_aux fuel n acc) = false.
Proof.
  revert n acc.
  induction fuel as [|fuel IH]; intros n acc Hacc; cbn [numeral_aux];
    [exact Hacc|].
  assert (H : has_dot (String (digit (n mod 10)) acc) = false)
    by (cbn [has_dot]; rewrite digit_not_dot, Hacc; reflexivity).
  destruct (n / 10 =? 0); [exact H | apply IH; exact H].
Qed.

Lemma numeral_no_dot n : has_dot (numeral n) = false.
Proof. unfold numeral. now apply numeral_aux_no_dot. Qed.

Lemma group_rev_no_dot l k acc :
  Forall (fun c => Ascii.eqb c "."%char = false) l ->
  has_dot acc = false -> has_dot (group_rev l k acc) = false.
Proof.
  revert k acc. induction l as [|c l IH]; intros k acc Hl Hacc; simpl;
    [exact Hacc|].
  inversion Hl as [|? ? Hc Hl']; subst.
  destruct k as [|[|[|[|k]]]]; apply IH; try assumption;
    cbn [has_dot]; rewrite ?Hc, Hacc; reflexivity.
Qed.

Lemma chars_no_dot s :
  has_dot s = false ->
  Forall (fun c => Ascii.eqb c "."%char = false) (list_ascii_of_string s).
Proof.
  induction s as [|c s IH]; simpl; intros H; [constructor|].
  apply orb_false_iff in H. destruct H as [Hc Hs].
  constructor; [exact Hc | now apply IH].
Qed.

Lemma group_thousands_no_dot s :
  has_dot s = false -> has_dot (group_thousands s) = false.
Proof.
  intros H. unfold group_thousands. apply group_rev_no_dot; [|reflexivity].
  apply Forall_rev. now apply chars_no_dot.
Qed.

(** [numeral] has fuel enough: the numeral of [n] reads back as [n]. *)
Lemma numeral_aux_acc fuel n acc :
  numeral_aux fuel n acc = numeral_aux fuel n EmptyString ++ acc.
Proof.
  revert n acc. induction fuel as [|fuel IH]; intros n acc; cbn [numeral_aux].
  - reflexivity.
  - destruct (n / 10 =? 0); [reflexivity|].
    rewrite (IH _ (String _ acc)), (IH _ (String _ EmptyString)).
    generalize (numeral_aux fuel (n / 10) EmptyString). intros s.
    induction s as [|c s IHs]; [reflexivity|].
    change (String c s ++ String (digit (n mod 10)) acc)
      with (String c (s ++ String (digit (n mod 10)) acc)).
    rewrite IHs. reflexivity.
Qed.

Lemma value_from_app a s t :
  value_from a (s ++ t) = value_from (value_from a s) t.
Proof.
  revert a. induction s as [|c s IH]; intros a; [reflexivity|].
  change (String c s ++ t) with (String c (s ++ t)).
  cbn [value_from]. apply IH.
Qed.

Lemma digit_value_digit d : 0 <= d <= 9 -> digit_value (digit d) = d.
Proof.
  intros H.
  assert (E : d = 0 \/ d = 1 \/ d = 2 \/ d = 3 \/ d = 4 \/ d = 5 \/ d = 6
              \/ d = 7 \/ d = 8 \/ d = 9) by lia.
  repeat destruct E as [E | E]; rewrite E; reflexivity.
Qed.

Lemma numeral_aux_value fuel n :
  0 <= n < 2 ^ Z.of_nat fuel ->
  int_value (numeral_aux fuel n EmptyString) = n.
Proof.
  revert n. induction fuel as [|fuel IH]; intros n Hn.
  - change (2 ^ Z.of_nat 0) with 1 in Hn. cbn [numeral_aux].
    unfold int_value. cbn [value_from]. lia.
  - cbn [numeral_aux].
    pose proof (Z.mod_pos_bound n 10 ltac:(lia)) as Hmod.
    pose proof (Z.div_mod n 10 ltac:(lia)) as Hdiv.
    destruct (n / 10 =? 0) eqn:E.
    + apply Z.eqb_eq in E. unfold int_value. cbn [value_from].
      rewrite digit_value_digit by lia. lia.
    + rewrite numeral_aux_acc. unfold int_value.
      rewrite value_from_app. fold (int_value (numeral_aux fuel (n / 10) EmptyString)).
      rewrite IH.
      * cbn [value_from]. rewrite digit_value_digit by lia. lia.
      * rewrite Nat2Z.inj_succ, Z.pow_succ_r in Hn by lia.
        split; [apply Z.div_pos; lia|].
        apply Z.div_lt_upper_bound; lia.
Qed.

Lemma numeral_value n : 0 <= n -> int_value (numeral n) = n.
Proof.
  intros Hn. unfold numeral. apply numeral_aux_value.
  split; [exact Hn|].
  rewrite Nat2Z.inj_succ, Z2Nat.id by apply Z.log2_nonneg.
  destruct (Z.eq_dec n 0) as [-> | Hne]; [reflexivity|].
  apply Z.log2_spec. lia.
Qed.

(** [round_half_even] is within one half of its argument. *)
Lemma round_half_even_close x :
  (Qabs (x - inject_Z (round_half_even x)) <= 1 # 2)%Q.
Proof.
  destruct x as [n d]. unfold round_half_even. cbn [Qnum Qden].
  pose proof (Z.mod_pos_bound n (Z.pos d) ltac:(lia)) as Hmod.
  pose proof (Z.div_mod n (Z.pos d) ltac:(lia)) as Hdiv.
  set (fl := n / Z.pos d) in *. set (r := n mod Z.pos d) in *.
  apply Qabs_Qle_condition.
  assert (Hcases :
    forall k, (k = fl /\ 2 * r <= Z.pos d) \/ (k = fl + 1 /\ Z.pos d <= 2 * r) ->
    (- (1 # 2) <= (n # d) - inject_Z k <= 1 # 2)%Q).
  { intros k Hk. unfold Qle, Qminus, Qplus, Qopp, inject_Z. cbn [Qnum Qden].
    rewrite !Pos2Z.inj_mul. nia. }
  destruct (2 * r <? Z.pos d) eqn:E1; [apply Hcases; left; lia|].
  destruct (Z.pos d <? 2 * r) eqn:E2; [apply Hcases; right; lia|].
  destruct (Z.even fl); apply Hcases; [left | right]; lia.
Qed.

(** [format_f] shows exactly [d] decimals. *)
Lemma format_f_decimals grouping d x : decimals (format_f grouping d x) = d.
Proof.
  unfold format_f.
  set (m := Z.abs _). set (p := 10 ^ Z.of_nat d).
  assert (Hsign : has_dot (if Qle_bool 0 x then EmptyString else "-") = false)
    by (destruct (Qle_bool 0 x); reflexivity).
  assert (Hint : has_dot (if grouping then group_thousands (numeral (m / p))
                          else numeral (m / p)) = false)
    by (destruct grouping;
        [apply group_thousands_no_dot|]; apply numeral_no_dot).
  rewrite (decimals_app_no_dot _ _ Hsign), (decimals_app_no_dot _ _ Hint).
  destruct d as [|d]; [reflexivity|].
  cbn [decimals]. rewrite Ascii.eqb_refl, fixed_digits_length.
  cbn [String.length]. lia.
Qed.

Lemma format_f_precision_differs g1 g2 d1 d2 x :
  d1 <> d2 -> format_f g1 d1 x <> format_f g2 d2 x.
Proof.
  intros Hne E. apply Hne.
  rewrite <- (format_f_decimals g1 d1 x), <- (format_f_decimals g2 d2 x).
  now rewrite E.
Qed.

End Formatting.

(** ** Renderings of a report (email_service.py, pdf_service.py) *)

Section Renderings.
Import PDFReportService.
Variable strftime : Z -> string.
Variable now_text : string.
Variable isoformat : Z -> string.
Variable report : EnergyReport.t.

Let html := EmailService._generate_html_report now_text isoformat report.
Let text := EmailService._generate_text_report now_text isoformat report.
Let pdf := generate_report_pdf strftime now_text isoformat report.

(** The [k]-th block of four lines of the HTML report. *)
Lemma html_block (k : nat) label value :
  firstn 4 (skipn k html) = EmailService.stat label value ->
  (k + 4 <= length html)%nat ->
  Shown.in_html html label value.
Proof.
  intros Hblock Hlen. exists (firstn k html), (skipn (k + 4) html).
  rewrite <- Hblock.
  rewrite <- (firstn_skipn k html) at 1. f_equal.
  rewrite <- (firstn_skipn 4 (skipn k html)) at 1. f_equal.
  rewrite skipn_skipn. f_equal. lia.
Qed.

Lemma html_length : (40 <= length html)%nat.
Proof.
  unfold html, EmailService._generate_html_report.
  rewrite !length_app. cbn [length EmailService.stat]. lia.
Qed.

Ltac html_shows k :=
  apply (html_block k);
  [ reflexivity | pose proof html_length; lia ].

Lemma html_total_consumption :
  Shown.in_html html "Total Consumption"
    (Fmt.format_f false 2 (EnergyReport.total_consumption_kwh report)
     ++ " kWh").
Proof. html_shows 13%nat. Qed.

Lemma html_daily_average :
  Shown.in_html html "Daily Average"
    (Fmt.format_f false 2 (EnergyReport.avg_daily_consumption report)
     ++ " kWh").
Proof. html_shows 17%nat. Qed.

Lemma html_total_cost :
  Shown.in_html html "Total Cost"
    ("₦" ++ Fmt.format_f true 2 (EnergyReport.total_cost report)).
Proof. html_shows 21%nat. Qed.

Lemma html_peak_power :
  Shown.in_html html "Peak Power"
    (Fmt.format_f false 0 (EnergyReport.peak_power report) ++ " W").
Proof. html_shows 28%nat. Qed.

Lemma html_power_factor :
  Shown.in_html html "Average Power Factor"
    (Fmt.format_f false 2 (EnergyReport.avg_power_factor report)).
Proof. html_shows 32%nat. Qed.

Lemma html_uptime :
  Shown.in_html html "System Uptime"
    (Fmt.format_f false 1 (EnergyReport.uptime_hours report) ++ " hours").
Proof. html_shows 36%nat. Qed.

Ltac text_shows :=
  unfold Shown.in_text, text, EmailService._generate_text_report;
  cbv [In]; repeat first [left; reflexivity | right].

Lemma text_total_consumption :
  Shown.in_text text "Total Consumption"
    (Fmt.format_f false 2 (EnergyReport.total_consumption_kwh report)
     ++ " kWh").
Proof. text_shows. Qed.

Lemma text_daily_average :
  Shown.in_text text "Daily Average"
    (Fmt.format_f false 2 (EnergyReport.avg_daily_consumption report)
     ++ " kWh").
Proof. text_shows. Qed.

Lemma text_total_cost :
  Shown.in_text text "Total Cost"
    ("₦" ++ Fmt.format_f true 2 (EnergyReport.total_cost report)).
Proof. text_shows. Qed.

Lemma text_peak_power :
  Shown.in_text text "Peak Power"
    (Fmt.format_f false 0 (EnergyReport.peak_power report) ++ " W").
Proof. text_shows. Qed.

Lemma text_power_factor :
  Shown.in_text text "Average Power Factor"
    (Fmt.format_f false 2 (EnergyReport.avg_power_factor report)).
Proof. text_shows. Qed.

Lemma text_uptime :
  Shown.in_text text "System Uptime"
    (Fmt.format_f false 1 (EnergyReport.uptime_hours report) ++ " hours").
Proof. text_shows. Qed.

End Renderings.

Section PdfRendering.
Import PDFReportService.
Variable strftime : Z -> string.
Variable now_text : string.
Variable isoformat : Z -> string.
Variable report : EnergyReport.t.

Let pdf := generate_report_pdf strftime now_text isoformat report.

Lemma pdf_consumption_row label value :
  In [label; value]
     [["Metric"; "Value"];
      ["Total Consumption";
       Fmt.format_f false 2 (EnergyReport.total_consumption_kwh report)
       ++ " kWh"];
      ["Daily Average";
       Fmt.format_f false 2 (EnergyReport.avg_daily_consumption report)
       ++ " kWh"];
      ["Total Cost";
       "₦" ++ Fmt.format_f true 2 (EnergyReport.total_cost report)];
      ["Report Period"; Fmt.str_int (days_in_period report) ++ " days"]] ->
  Shown.in_pdf pdf label value.
Proof.
  intros Hrow. eexists. split; [|exact Hrow].
  unfold pdf, generate_report_pdf. rewrite !in_app_iff.
  right. right. left. unfold _create_consumption_summary.
  cbv [In]. right. right. left. reflexivity.
Qed.

Lemma pdf_performance_row label value :
  In [label; value]
     [["Metric"; "Value"];
      ["Peak Power";
       Fmt.format_f false 0 (EnergyReport.peak_power report) ++ " W"];
      ["Average Power Factor";
       Fmt.format_f false 3 (EnergyReport.avg_power_factor report)];
      ["System Uptime";
       Fmt.format_f false 1 (EnergyReport.uptime_hours report) ++ " hours"]] ->
  Shown.in_pdf pdf label value.
Proof.
  intros Hrow. eexists. split; [|exact Hrow].
  unfold pdf, generate_report_pdf. rewrite !in_app_iff.
  right. right. right. left. unfold _create_performance_metrics.
  cbv [In]. right. right. left. reflexivity.
Qed.

(** No label of the form [... Cost] is the power-factor label. *)
Lemma cost_label_differs s : s ++ " Cost" <> "Average Power Factor".
Proof.
  intros H.
  do 20 (destruct s as [|? s]; [vm_compute in H; discriminate H|];
         match type of H with
         | String ?a ?s' ++ ?t = ?r => change (String a (s' ++ t) = r) in H
         end;
         injection H as Ha H; clear Ha).
  destruct s; vm_compute in H; discriminate H.
Qed.

Ltac not_a_table H :=
  cbv [In] in H;
  repeat (destruct H as [H | H]; [discriminate H|]);
  try contradiction.

Ltac the_table H :=
  cbv [In] in H;
  repeat destruct H as [H | H];
  try discriminate H; try contradiction;
  injection H as <-.

Ltac other_rows H :=
  cbv [In] in H;
  repeat (destruct H as [H | H];
          [ try (injection H as H _; discriminate H) |]);
  try contradiction.

Lemma device_tables_other_labels l data v :
  In (Table data) (concat (map device_table l)) ->
  ~ In ["Average Power Factor"; v] data.
Proof.
  induction l as [|d l IH]; cbn [map concat]; [intros []|].
  rewrite in_app_iff. intros [H | H]; [|now apply IH].
  unfold device_table in H. the_table H. intros Hrow. other_rows Hrow.
Qed.

(** The PDF shows one power-factor figure, with three decimals. *)
Lemma pdf_power_factor_unique v :
  Shown.in_pdf pdf "Average Power Factor" v ->
  v = Fmt.format_f false 3 (EnergyReport.avg_power_factor report).
Proof.
  intros [data [Hin Hrow]]. unfold pdf, generate_report_pdf in Hin.
  rewrite !in_app_iff in Hin.
  destruct Hin as [H | [H | [H | [H | [H | [H | [H | H]]]]]]].
  - unfold _create_header in H. not_a_table H.
  - unfold _create_report_info in H. not_a_table H.
  - unfold _create_consumption_summary in H. the_table H. other_rows Hrow.
  - unfold _create_performance_metrics in H. the_table H. cbv [In] in Hrow.
    destruct Hrow as [Hr | [Hr | [Hr | [Hr | []]]]];
      try (injection Hr as Hr _; discriminate Hr).
    injection Hr as <-. reflexivity.
  - unfold _create_alert_summary in H. rewrite !in_app_iff in H.
    destruct H as [H | [H | H]]; [not_a_table H | | not_a_table H].
    destruct (EnergyReport.total_alerts report =? 0); [not_a_table H|].
    the_table H. other_rows Hrow.
  - unfold _create_cost_analysis in H. the_table H. cbv [In] in Hrow.
    destruct Hrow as [Hr | [Hr | [Hr | [Hr | [Hr | []]]]]];
      try (injection Hr as Hr _; discriminate Hr).
    injection Hr as Hr _. now apply cost_label_differs in Hr.
  - destruct (ReportData.devices (EnergyReport.report_data report))
      as [|d l] eqn:Hd; [contradiction|].
    unfold _create_device_details in H. rewrite Hd in H.
    rewrite in_app_iff in H. destruct H as [H | H]; [not_a_table H|].
    exfalso. exact (device_tables_other_labels _ _ _ H Hrow).
  - unfold _create_footer in H. not_a_table H.
Qed.

End PdfRendering.

(** C8, as stated, fails on the average power factor: for a report whose
    average power factor is 53/60 the HTML and the plain text show 0.88, the
    PDF shows 0.883 and does not show 0.88. *)
Lemma power_factor_differs_in_pdf :
  let r := Sample.report_for Sample.ada in
  let html :=
    EmailService._generate_html_report Sample.now_text Sample.isoformat r in
  let text :=
    EmailService._generate_text_report Sample.now_text Sample.isoformat r in
  let pdf :=
    PDFReportService.generate_report_pdf Sample.strftime Sample.now_text
      Sample.isoformat r in
  Shown.in_html html "Average Power Factor" "0.88"
  /\ Shown.in_text text "Average Power Factor" "0.88"
  /\ Shown.in_pdf pdf "Average Power Factor" "0.883"
  /\ ~ Shown.in_pdf pdf "Average Power Factor" "0.88".
Proof.
  cbv zeta. split; [|split; [|split]].
  - exact (html_power_factor Sample.now_text Sample.isoformat
             (Sample.report_for Sample.ada)).
  - exact (text_power_factor Sample.now_text Sample.isoformat
             (Sample.report_for Sample.ada)).
  - apply pdf_performance_row. cbv [In]. right. right. left. reflexivity.
  - intros H. apply pdf_power_factor_unique in H.
    vm_compute in H. discriminate H.
Qed.

(** C8 (amended): the HTML, plain-text and PDF renderings of a report show
    the same figures, formatted alike, for the energy amounts (kWh, 2
    decimals), the cost (2 decimals, thousands separated), the peak power
    (watts, 0 decimals) and the uptime (hours, 1 decimal).  The average power
    factor is shown with 2 decimals in the HTML and the plain text and with 3
    decimals in the PDF, so its PDF figure is never the one of the other
    two. *)
Theorem renderings_show_same_figures strftime now_text isoformat report :
  let html := EmailService._generate_html_report now_text isoformat report in
  let text := EmailService._generate_text_report now_text isoformat report in
  let pdf :=
    PDFReportService.generate_report_pdf strftime now_text isoformat report in
  Shown.in_all html text pdf "Total Consumption"
    (Fmt.format_f false 2 (EnergyReport.total_consumption_kwh report)
     ++ " kWh")
  /\ Shown.in_all html text pdf "Daily Average"
       (Fmt.format_f false 2 (EnergyReport.avg_daily_consumption report)
        ++ " kWh")
  /\ Shown.in_all html text pdf "Total Cost"
       ("₦" ++ Fmt.format_f true 2 (EnergyReport.total_cost report))
  /\ Shown.in_all html text pdf "Peak Power"
       (Fmt.format_f false 0 (EnergyReport.peak_power report) ++ " W")
  /\ Shown.in_all html text pdf "System Uptime"
       (Fmt.format_f false 1 (EnergyReport.uptime_hours report) ++ " hours")
  /\ Shown.in_html html "Average Power Factor"
       (Fmt.format_f false 2 (EnergyReport.avg_power_factor report))
  /\ Shown.in_text text "Average Power Factor"
       (Fmt.format_f false 2 (EnergyReport.avg_power_factor report))
  /\ Shown.in_pdf pdf "Average Power Factor"
       (Fmt.format_f false 3 (EnergyReport.avg_power_factor report))
  /\ (forall v,
        Shown.in_pdf pdf "Average Power Factor" v ->
        v = Fmt.format_f false 3 (EnergyReport.avg_power_factor report)
        /\ v <> Fmt.format_f false 2 (EnergyReport.avg_power_factor report))
  /\ (forall grouping d x, Fmt.decimals (Fmt.format_f grouping d x) = d).
Proof.
  cbv zeta.
  assert (Hrow1 : forall label value, _ -> _)
    by exact (pdf_consumption_row strftime now_text isoformat report).
  assert (Hrow2 : forall label value, _ -> _)
    by exact (pdf_performance_row strftime now_text isoformat report).
  repeat split.
  - apply html_total_consumption.
  - apply text_total_consumption.
  - apply Hrow1. cbv [In]. right. left. reflexivity.
  - apply html_daily_average.
  - apply text_daily_average.
  - apply Hrow1. cbv [In]. right. right. left. reflexivity.
  - apply html_total_cost.
  - apply text_total_cost.
  - apply Hrow1. cbv [In]. right. right. right. left. reflexivity.
  - apply html_peak_power.
  - apply text_peak_power.
  - apply Hrow2. cbv [In]. right. left. reflexivity.
  - apply html_uptime.
  - apply text_uptime.
  - apply Hrow2. cbv [In]. right. right. right. left. reflexivity.
  - apply html_power_factor.
  - apply text_power_factor.
  - apply Hrow2. cbv [In]. right. right. left. reflexivity.
  - now apply pdf_power_factor_unique in H.
  - apply pdf_power_factor_unique in H. rewrite H.
    apply format_f_precision_differs. discriminate.
  - apply format_f_decimals.
Qed.

Lemma renderings_show_same_figures_witness :
  "0.883" <> Fmt.format_f false 2 (53 # 60).
Proof.
  pose proof (renderings_show_same_figures Sample.strftime Sample.now_text
                Sample.isoformat (Sample.report_for Sample.ada)) as H.
  cbv zeta in H.
  destruct H as (_ & _ & _ & _ & _ & _ & _ & Hpdf & Honly & _).
  exact (proj2 (Honly "0.883" Hpdf)).
Defined.

(** ** Examples *)

Example format_f_examples :
  Fmt.format_f false 2 (452 # 10) = "45.20"
  /\ Fmt.format_f true 2 (307360 # 100) = "3,073.60"
  /\ Fmt.format_f false 0 (25 # 10) = "2"
  /\ Fmt.format_f false 0 (35 # 10) = "4"
  /\ Fmt.format_f false 1 1 = "1.0"
  /\ Fmt.format_f false 2 (-1 # 1000) = "-0.00"
  /\ Fmt.format_f true 2 (-1234567891 # 1000) = "-1,234,567.89".
Proof. repeat split; reflexivity. Qed.

(** The example of the specification: 45.20 kWh in the three renderings. *)
Example total_consumption_45_20_kWh :
  let r := Sample.report_for Sample.ada in
  Shown.in_all
    (EmailService._generate_html_report Sample.now_text Sample.isoformat r)
    (EmailService._generate_text_report Sample.now_text Sample.isoformat r)
    (PDFReportService.generate_report_pdf Sample.strftime Sample.now_text
       Sample.isoformat r)
    "Total Consumption" "45.20 kWh".
Proof.
  cbv zeta. split; [|split].
  - exact (html_total_consumption Sample.now_text Sample.isoformat
             (Sample.report_for Sample.ada)).
  - exact (text_total_consumption Sample.now_text Sample.isoformat
             (Sample.report_for Sample.ada)).
  - apply pdf_consumption_row. cbv [In]. right. left. reflexivity.
Qed.

(** The report generated for the sample client over the sample week. *)
Example sample_weekly_report :
  exists r db',
    ReportService.generate_report Sample.today Sample.db Sample.ada "WEEKLY"
      None None None = (Some r, db')
    /\ EnergyReport.start_date r = Date.toordinal 2024 6 4
    /\ EnergyReport.end_date r = Date.toordinal 2024 6 10
    /\ (EnergyReport.total_consumption_kwh r == 257 # 10)%Q
    /\ (EnergyReport.total_cost r == 17476 # 10)%Q
    /\ (EnergyReport.avg_daily_consumption r == 257 # 70)%Q
    /\ (EnergyReport.peak_power r == 1800)%Q
    /\ (EnergyReport.avg_power_factor r == 53 # 60)%Q
    /\ (EnergyReport.uptime_hours r == 1)%Q
    /\ EnergyReport.total_alerts r = 2
    /\ EnergyReport.critical_alerts r = 1
    /\ DB.energy_reports db' = [r].
Proof.
  eexists. eexists. split; [reflexivity|]. repeat split; reflexivity.
Qed.

(** * Further properties of the code *)

(** ** Stored rows and primary keys *)

Section Rows.

Lemma fold_max_ge l a : a <= fold_left Z.max l a.
Proof.
  revert a. induction l as [|x l IH]; intros a; simpl; [lia|].
  specialize (IH (Z.max a x)). lia.
Qed.

Lemma fold_max_ge_elem l a x : In x l -> x <= fold_left Z.max l a.
Proof.
  revert a. induction l as [|y l IH]; intros a Hin; simpl in *; [tauto|].
  destruct Hin as [-> | Hin]; [|now apply IH].
  pose proof (fold_max_ge l (Z.max a x)). lia.
Qed.

(** The key of a new row is not the key of a stored row. *)
Lemma next_pk_fresh pks x : In x pks -> x <> DB.next_pk pks.
Proof.
  intros Hin. unfold DB.next_pk.
  pose proof (fold_max_ge_elem pks 0 x Hin). lia.
Qed.

Lemma map_replace_fresh {A} (pk : A -> Z) (l : list A) (m : A) :
  (forall b, In b l -> pk b <> pk m) ->
  map (fun b => if pk b =? pk m then m else b) l = l.
Proof.
  induction l as [|b l IH]; intros H; simpl; [reflexivity|].
  rewrite IH by (intros c Hc; apply H; now right).
  destruct (pk b =? pk m) eqn:E; [|reflexivity].
  apply Z.eqb_eq in E. exfalso. apply (H b); [now left | exact E].
Qed.

(** Saving a message right after it was created replaces that row only. *)
Lemma save_after_add_message db m m' :
  WhatsAppMessage.pk m
  = DB.next_pk (map WhatsAppMessage.pk (DB.whatsapp_messages db)) ->
  WhatsAppMessage.pk m' = WhatsAppMessage.pk m ->
  DB.whatsapp_messages
    (DB.save_whatsapp_message (DB.add_whatsapp_message db m) m')
  = (DB.whatsapp_messages db ++ [m'])%list.
Proof.
  intros Hpk Hsame. unfold DB.save_whatsapp_message, DB.add_whatsapp_message.
  cbn [DB.whatsapp_messages DB.set_whatsapp_messages].
  rewrite map_app. cbn [map]. rewrite Hsame, Z.eqb_refl.
  rewrite <- Hsame. rewrite map_replace_fresh; [reflexivity|].
  intros b Hb. rewrite Hsame, Hpk. apply next_pk_fresh. now apply in_map.
Qed.

Lemma prefix_app p s : String.prefix p (p ++ s) = true.
Proof.
  induction p as [|a p IH]; [now destruct s|].
  change (String a p ++ s) with (String a (p ++ s)).
  cbn [String.prefix]. destruct (ascii_dec a a) as [_ | Hne];
    [exact IH | now elim Hne].
Qed.

(** Membership in a table filtered by a boolean condition. *)
Lemma In_filter_bool {A} (f : A -> bool) (l : list A) x :
  In x (filter (fun a => f a) l) <-> In x l /\ f x = true.
Proof.
  rewrite <- !list_elem_of_In, list_elem_of_filter, Is_true_true. tauto.
Qed.

Lemma save_energy_report_messages db r :
  DB.whatsapp_messages (DB.save_energy_report db r) = DB.whatsapp_messages db.
Proof. reflexivity. Qed.

Lemma save_alert_messages db a :
  DB.whatsapp_messages (DB.save_alert db a) = DB.whatsapp_messages db.
Proof. reflexivity. Qed.

End Rows.

(** ** WhatsApp messages (whatsapp_service.py) *)

Section WhatsApp.
Variable self : WhatsAppService.t.
Variable now : Z.
Variable strftime : Z -> string.
Variable messages_create : Twilio.messages_create.

(** [_send_message] stores exactly one new message; its recipient carries the
    [whatsapp:] prefix once; it ends as SENT when the transport took the
    message and as FAILED when the transport raised, never as PENDING. *)
Theorem send_message_records_one_row db to_number message alert client
    message_type m db' :
  WhatsAppService._send_message self now messages_create db to_number message
    alert client message_type = (m, db') ->
  DB.whatsapp_messages db' = (DB.whatsapp_messages db ++ [m])%list
  /\ Str.startswith (WhatsAppMessage.recipient m) "whatsapp:" = true
  /\ (WhatsAppMessage.recipient m = to_number
      \/ (Str.startswith to_number "whatsapp:" = false
          /\ WhatsAppMessage.recipient m = "whatsapp:" ++ to_number))
  /\ WhatsAppMessage.message m = message
  /\ WhatsAppMessage.message_type m = message_type
  /\ WhatsAppMessage.status m <> "PENDING"
  /\ ((exists sid status,
          messages_create message (WhatsAppService.from_number self)
            (WhatsAppMessage.recipient m) = Twilio.Created sid status)
      /\ WhatsAppMessage.status m = "SENT"
      /\ WhatsAppMessage.sent_at m = Some now
      \/
      (exists e,
          messages_create message (WhatsAppService.from_number self)
            (WhatsAppMessage.recipient m) = Twilio.Raised e
          /\ WhatsAppMessage.response_data m = Some [("error", e)])
      /\ WhatsAppMessage.status m = "FAILED"
      /\ WhatsAppMessage.sent_at m = None
      /\ DB.alerts db' = DB.alerts db).
Proof.
  unfold WhatsAppService._send_message.
  set (number := if Str.startswith to_number "whatsapp:" then to_number
                 else "whatsapp:" ++ to_number).
  assert (Hprefix : Str.startswith number "whatsapp:" = true).
  { unfold number. destruct (Str.startswith to_number "whatsapp:") eqn:E;
      [exact E | apply prefix_app]. }
  assert (Hnumber : number = to_number
                    \/ (Str.startswith to_number "whatsapp:" = false
                        /\ number = "whatsapp:" ++ to_number)).
  { unfold number. destruct (Str.startswith to_number "whatsapp:");
      [now left | now right]. }
  destruct (messages_create message (WhatsAppService.from_number self) number)
    as [sid status | e] eqn:Hsend;
    intros H; injection H as <- <-.
  - split.
    { destruct alert as [a|]; rewrite ?save_alert_messages;
        now apply save_after_add_message. }
    cbn. repeat (split; [assumption || reflexivity || discriminate|]).
    left. split; [eauto|]. split; reflexivity.
  - split; [now apply save_after_add_message|].
    cbn. repeat (split; [assumption || reflexivity || discriminate|]).
    right. split; [eauto|]. repeat split; reflexivity.
Qed.

(** What the loop of [send_alert_message] needs to know about one send. *)
Lemma send_message_row db to_number message alert client message_type m db' :
  WhatsAppService._send_message self now messages_create db to_number message
    (Some alert) client message_type = (m, db') ->
  DB.whatsapp_messages db' = (DB.whatsapp_messages db ++ [m])%list
  /\ WhatsAppMessage.message_type m = message_type
  /\ WhatsAppMessage.alert m = Some (Alert.pk alert)
  /\ WhatsAppMessage.client m = Client.pk <$> client
  /\ (WhatsAppMessage.status m = "SENT"
      \/ WhatsAppMessage.status m = "FAILED").
Proof.
  unfold WhatsAppService._send_message.
  destruct (messages_create _ _ _) as [sid status | e];
    intros H; injection H as <- <-.
  - split; [rewrite save_alert_messages; now apply save_after_add_message|].
    cbn. auto.
  - split; [now apply save_after_add_message|]. cbn. auto.
Qed.

Lemma send_loop recipients message alert :
  forall acc db results db',
    fold_left
      (fun '(results, db) '(phone, c) =>
         let '(result, db) :=
           WhatsAppService._send_message self now messages_create db phone
             message (Some alert) (Some c) "alert" in
         ((results ++ [result])%list, db))
      recipients (acc, db) = (results, db') ->
    exists sent,
      results = (acc ++ sent)%list
      /\ DB.whatsapp_messages db' = (DB.whatsapp_messages db ++ sent)%list
      /\ map WhatsAppMessage.client sent
         = map (fun r => Some (Client.pk (snd r))) recipients
      /\ Forall (fun m => WhatsAppMessage.message_type m = "alert"
                         /\ WhatsAppMessage.alert m = Some (Alert.pk alert)
                         /\ (WhatsAppMessage.status m = "SENT"
                             \/ WhatsAppMessage.status m = "FAILED"))
                sent.
Proof.
  induction recipients as [|[phone c] rest IH]; intros acc db results db' H.
  - cbn in H. injection H as <- <-. exists []. rewrite !app_nil_r.
    repeat split; constructor.
  - cbn [fold_left] in H.
    destruct (WhatsAppService._send_message self now messages_create db phone
                message (Some alert) (Some c) "alert") as [m db1] eqn:Hsend.
    apply send_message_row in Hsend.
    destruct Hsend as (Hrows & Htype & Halert & Hclient & Hstatus).
    apply IH in H. destruct H as (sent & -> & Hdb & Hclients & Hall).
    exists (m :: sent). rewrite <- app_assoc. split; [reflexivity|].
    split; [rewrite Hdb, Hrows, <- app_assoc; reflexivity|].
    split; [cbn; now rewrite Hclient, Hclients|].
    constructor; auto.
Qed.

(** With the service configured, [send_alert_message] sends one message per
    recipient: every result is a stored row of type [alert] linked to the
    alert, SENT or FAILED; and with no recipient it returns [None] and stores
    nothing (no mock message). *)
Theorem send_alert_message_one_row_per_recipient db alert client result db' :
  WhatsAppService.enabled self = true ->
  WhatsAppService.send_alert_message self now strftime messages_create db
    alert client = (result, db') ->
  let recipients := WhatsAppService._get_alert_recipients db alert client in
  match result with
  | WhatsAppService.NoRecipients => recipients = [] /\ db' = db
  | WhatsAppService.Results sent =>
    recipients <> []
    /\ length sent = length recipients
    /\ DB.whatsapp_messages db' = (DB.whatsapp_messages db ++ sent)%list
    /\ map WhatsAppMessage.client sent
       = map (fun r => Some (Client.pk (snd r))) recipients
    /\ Forall (fun m => WhatsAppMessage.message_type m = "alert"
                       /\ WhatsAppMessage.alert m = Some (Alert.pk alert)
                       /\ (WhatsAppMessage.status m = "SENT"
                           \/ WhatsAppMessage.status m = "FAILED"))
              sent
  | WhatsAppService.MockMessage _ => False
  end.
Proof.
  intros Hon. unfold WhatsAppService.send_alert_message. rewrite Hon.
  cbn [negb]. cbv zeta.
  destruct (WhatsAppService._get_alert_recipients db alert client)
    as [|r rest] eqn:Hrec.
  - intros H. injection H as <- <-. split; reflexivity.
  - destruct (fold_left _ (r :: rest) ([], db)) as [results db1] eqn:Hloop.
    intros H. injection H as <- <-.
    apply send_loop in Hloop. destruct Hloop as (sent & -> & Hdb & Hc & Hall).
    cbn [app]. split; [discriminate|].
    split; [|auto].
    apply (f_equal (@length _)) in Hc. now rewrite !length_map in Hc.
Qed.

(** Without credentials [send_alert_message] never reaches the transport nor
    the recipients: whatever the client's preferences it stores one mock
    message with status SENT, addressed to the client's number as it is (or to
    a fixed number), and leaves the alert as it was. *)
Theorem send_alert_message_mock db alert client :
  WhatsAppService.enabled self = false ->
  exists m,
    WhatsAppService.send_alert_message self now strftime messages_create db
      alert client
    = (WhatsAppService.MockMessage m, DB.add_whatsapp_message db m)
    /\ WhatsAppMessage.status m = "SENT"
    /\ WhatsAppMessage.sent_at m = Some now
    /\ WhatsAppMessage.message_type m = "alert"
    /\ WhatsAppMessage.alert m = Some (Alert.pk alert)
    /\ WhatsAppMessage.recipient m
       = match client with
         | Some c => Client.whatsapp_number c
         | None => "whatsapp:+1234567890"
         end
    /\ WhatsAppMessage.message m
       = WhatsAppService._format_alert_message strftime db alert.
Proof.
  intros Hoff. unfold WhatsAppService.send_alert_message. rewrite Hoff.
  cbn. eexists. split; [reflexivity|]. cbn. repeat split; reflexivity.
Qed.

End WhatsApp.

(** The recipients of an alert are the clients that accept WhatsApp messages
    and have a number: the given client whether active or not, or else the
    active clients to which the device of the alert is attached. *)
Theorem alert_recipients_characterised db alert client phone c :
  In (phone, c) (WhatsAppService._get_alert_recipients db alert client)
  <-> Client.receive_whatsapp_alerts c = true
      /\ phone = Client.whatsapp_number c
      /\ Py.truthy_string phone = true
      /\ match client with
         | Some given => c = given
         | None =>
           Client.is_active c = true
           /\ In c (DB.clients db)
           /\ exists device_pk,
                Alert.device alert = Some device_pk
                /\ existsb (fun d => Device.pk d =? device_pk)
                           (Client.devices c) = true
         end.
Proof.
  unfold WhatsAppService._get_alert_recipients.
  destruct client as [given|].
  - destruct (Client.receive_whatsapp_alerts given) eqn:Hp;
      destruct (Py.truthy_string (Client.whatsapp_number given)) eqn:Ht;
      cbn; split;
      try (intros [H | []]; injection H as <- <-; auto);
      try (intros (H1 & -> & H3 & ->); try congruence; now left);
      try tauto.
  - destruct (Alert.device alert) as [device_pk|].
    + rewrite in_map_iff. split.
      * intros [c' [Heq Hin]]. injection Heq as <- <-.
        apply In_filter_bool in Hin. destruct Hin as [Hin Ht].
        apply In_filter_bool in Hin. destruct Hin as [Hin Hflags].
        apply andb_true_iff in Hflags. destruct Hflags as [Hp Ha].
        unfold DB.clients_of_device in Hin. apply In_filter_bool in Hin.
        destruct Hin as [Hin Hdev]. eauto 10.
      * intros (Hp & -> & Ht & Ha & Hin & pk & Hpk & Hdev).
        injection Hpk as <-. exists c. split; [reflexivity|].
        apply In_filter_bool. split; [|exact Ht].
        apply In_filter_bool. split; [|now rewrite Hp, Ha].
        unfold DB.clients_of_device. apply In_filter_bool. auto.
    + cbn. split; [tauto|]. intros (_ & _ & _ & _ & _ & pk & Hpk & _).
      discriminate Hpk.
Qed.

Lemma send_message_records_one_row_witness :
  let sent :=
    WhatsAppService._send_message
      (WhatsAppService.__init__ Sample.configured) Sample.today
      Sample.twilio_ok Sample.db "+2348000000001" "hello" None
      (Some Sample.ada) "report" in
  DB.whatsapp_messages sent.2 = (DB.whatsapp_messages Sample.db ++ [sent.1])%list.
Proof.
  exact (proj1 (send_message_records_one_row
                  (WhatsAppService.__init__ Sample.configured) Sample.today
                  Sample.twilio_ok Sample.db "+2348000000001" "hello" None
                  (Some Sample.ada) "report" _ _ (surjective_pairing _))).
Defined.

Lemma send_alert_message_one_row_per_recipient_witness :
  let sent :=
    WhatsAppService.send_alert_message
      (WhatsAppService.__init__ Sample.configured) Sample.today
      Sample.strftime Sample.twilio_ok Sample.db
      (Sample.an_alert 1 1 "CRITICAL" "ACTIVE") None in
  match sent.1 with
  | WhatsAppService.Results l => length l = 1%nat
  | _ => False
  end.
Proof.
  cbv zeta.
  pose proof (send_alert_message_one_row_per_recipient
                (WhatsAppService.__init__ Sample.configured) Sample.today
                Sample.strftime Sample.twilio_ok Sample.db
                (Sample.an_alert 1 1 "CRITICAL" "ACTIVE") None _ _
                eq_refl (surjective_pairing _)) as H.
  cbv zeta in H.
  destruct (WhatsAppService.send_alert_message _ _ _ _ _ _ _).1 as [m| |l];
    [exact H | discriminate (proj1 H) | exact (proj1 (proj2 H))].
Defined.

Lemma send_alert_message_mock_witness :
  exists m,
    WhatsAppService.send_alert_message
      (WhatsAppService.__init__ Settings.unconfigured) Sample.today
      Sample.strftime Sample.twilio_ok Sample.db
      (Sample.an_alert 2 2 "INFO" "RESOLVED") (Some Sample.quiet)
    = (WhatsAppService.MockMessage m, DB.add_whatsapp_message Sample.db m)
    /\ WhatsAppMessage.status m = "SENT".
Proof.
  destruct (send_alert_message_mock
              (WhatsAppService.__init__ Settings.unconfigured) Sample.today
              Sample.strftime Sample.twilio_ok Sample.db
              (Sample.an_alert 2 2 "INFO" "RESOLVED") (Some Sample.quiet)
              eq_refl) as [m [H1 [H2 _]]].
  exists m. split; [exact H1 | exact H2].
Defined.

Lemma alert_recipients_characterised_witness :
  In ("+2348000000001", Sample.ada)
     (WhatsAppService._get_alert_recipients Sample.db
        (Sample.an_alert 1 1 "CRITICAL" "ACTIVE") None).
Proof.
  apply (proj2 (alert_recipients_characterised Sample.db
                  (Sample.an_alert 1 1 "CRITICAL" "ACTIVE") None
                  "+2348000000001" Sample.ada)).
  repeat split; try reflexivity.
  - simpl. left. reflexivity.
  - exists 1. split; reflexivity.
Defined.

(** ** Delivery of a report, channel by channel *)

Section Channels.
Import Delivered.
Variable settings : Settings.t.
Variable now : Z.
Variable now_text : string.
Variable isoformat : Z -> string.
Variable smtp_send : Smtp.send.
Variable messages_create : Twilio.messages_create.

Lemma flagged_none report : flagged report false false = report.
Proof. destruct report. unfold flagged. cbn. now rewrite !orb_false_r. Qed.

Lemma replace_replace r1 r2 l :
  EnergyReport.pk r1 = EnergyReport.pk r2 ->
  map (replace_report r2) (map (replace_report r1) l)
  = map (replace_report r2) l.
Proof.
  intros Hpk. rewrite map_map. apply map_ext. intros b.
  unfold replace_report.
  destruct (EnergyReport.pk b =? EnergyReport.pk r1) eqn:E.
  - rewrite <- Hpk, E, Z.eqb_refl. reflexivity.
  - reflexivity.
Qed.

(** The four ways [send_report_email] can end. *)
Lemma send_report_email_cases db report er report1 db1 :
  EmailService.send_report_email (EmailService.__init__ settings) now_text
    isoformat smtp_send db report = (er, report1, db1) ->
  let client := EnergyReport.client report in
  let on := EmailService.enabled (EmailService.__init__ settings) in
  (on = false /\ er = Some true /\ report1 = report /\ db1 = db)
  \/ (on = true
      /\ (Py.truthy_string (Client.email client) = false
          \/ Client.receive_email_reports client = false)
      /\ er = None /\ report1 = report /\ db1 = db)
  \/ (on = true /\ Py.truthy_string (Client.email client) = true
      /\ (exists subject text html,
            smtp_send subject text html
              (EmailService.from_email (EmailService.__init__ settings))
              (Client.email client) = true)
      /\ er = Some true
      /\ report1 = EnergyReport.set_sent_via_email report true
      /\ db1 = DB.save_energy_report db report1)
  \/ (on = true /\ Py.truthy_string (Client.email client) = true
      /\ (exists subject text html,
            smtp_send subject text html
              (EmailService.from_email (EmailService.__init__ settings))
              (Client.email client) = false)
      /\ er = Some false /\ report1 = report /\ db1 = db).
Proof.
  unfold EmailService.send_report_email. cbv zeta.
  destruct (EmailService.enabled (EmailService.__init__ settings)); cbn [negb].
  2:{ intros H. injection H as <- <- <-. left. auto. }
  destruct (Py.truthy_string (Client.email (EnergyReport.client report)))
    eqn:Hmail; cbn [negb].
  2:{ intros H. injection H as <- <- <-. right. left. auto 10. }
  destruct (Client.receive_email_reports (EnergyReport.client report));
    cbn [negb].
  2:{ intros H. injection H as <- <- <-. right. left. auto 10. }
  destruct (smtp_send _ _ _ _ _) eqn:Hsend;
    intros H; injection H as <- <- <-; right; right; [left | right];
    repeat split; eauto.
Qed.

(** The three ways [send_report_summary] can end. *)
Lemma send_report_summary_cases db report wr db1 :
  WhatsAppService.send_report_summary (WhatsAppService.__init__ settings) now
    isoformat messages_create db report = (wr, db1) ->
  (wr = None /\ db1 = db
   /\ (WhatsAppService.enabled (WhatsAppService.__init__ settings) = false
       \/ Client.receive_whatsapp_alerts (EnergyReport.client report) = false))
  \/ (exists m,
        wr = Some m
        /\ WhatsAppService.enabled (WhatsAppService.__init__ settings) = true
        /\ WhatsAppService._send_message (WhatsAppService.__init__ settings)
             now messages_create db
             (Client.whatsapp_number (EnergyReport.client report))
             (WhatsAppService._format_report_message isoformat report)
             None (Some (EnergyReport.client report)) "report" = (m, db1)).
Proof.
  unfold WhatsAppService.send_report_summary.
  destruct (WhatsAppService.enabled (WhatsAppService.__init__ settings));
    cbn [negb].
  2:{ intros H. injection H as <- <-. left. auto. }
  destruct (Client.receive_whatsapp_alerts (EnergyReport.client report));
    cbn [negb].
  2:{ intros H. injection H as <- <-. left. auto. }
  destruct (WhatsAppService._send_message _ _ _ _ _ _ _ _ _) as [m db2] eqn:E.
  intros H. injection H as <- <-. right. eauto.
Qed.

Lemma send_message_keeps_reports svc db to message client mt m db1 :
  WhatsAppService._send_message svc now messages_create db to message None
    client mt = (m, db1) ->
  DB.energy_reports db1 = DB.energy_reports db.
Proof.
  unfold WhatsAppService._send_message.
  destruct (messages_create _ _ _); intros H; injection H as <- <-;
    reflexivity.
Qed.

Lemma save_energy_report_rows db r :
  DB.energy_reports (DB.save_energy_report db r)
  = map (replace_report r) (DB.energy_reports db).
Proof. reflexivity. Qed.

Ltac eval_sent :=
  repeat match goal with
         | |- context [sent ?r ?k] =>
           let b := eval vm_compute in (sent r k) in
           change (sent r k) with b
         end.

(** What [send_report] does to the report and to the table of reports. *)
Lemma send_report_shape db report via_email via_whatsapp results report' db' :
  ReportService.send_report settings now now_text isoformat smtp_send
    messages_create db report via_email via_whatsapp
    = (results, report', db') ->
  report' = flagged report (sent results "email") (sent results "whatsapp")
  /\ DB.energy_reports db'
     = (if sent results "email" || sent results "whatsapp"
        then map (replace_report report') (DB.energy_reports db)
        else DB.energy_reports db).
Proof.
  unfold ReportService.send_report.
  destruct (via_email && _).
  - destruct (EmailService.send_report_email _ _ _ _ _ _)
      as [[er report1] db1] eqn:Hemail.
    apply send_report_email_cases in Hemail. cbv zeta in Hemail.
    destruct Hemail as [(_ & -> & -> & ->)
                       | [(_ & _ & -> & -> & ->)
                         | [(_ & _ & _ & -> & -> & ->)
                           | (_ & _ & _ & -> & -> & ->)]]];
      cbv iota beta;
      (destruct (via_whatsapp && _);
       [ destruct (WhatsAppService.send_report_summary _ _ _ _ _ _)
           as [wr db2] eqn:Hwa;
         apply send_report_summary_cases in Hwa;
         destruct Hwa as [(-> & -> & _) | (m & -> & _ & Hsend)];
         [| apply send_message_keeps_reports in Hsend ]
       | ]);
      intros H; injection H as <- <- <-; eval_sent;
      cbn [orb]; rewrite ?save_energy_report_rows, ?Hsend,
                   ?save_energy_report_rows;
      (split;
       [ destruct report; unfold flagged; cbn;
         rewrite ?orb_true_r, ?orb_false_r; reflexivity
       | rewrite ?replace_replace by reflexivity;
         try rewrite replace_replace by reflexivity; reflexivity ]).
  - cbv iota beta.
    destruct (via_whatsapp && _);
      [ destruct (WhatsAppService.send_report_summary _ _ _ _ _ _)
          as [wr db2] eqn:Hwa;
        apply send_report_summary_cases in Hwa;
        destruct Hwa as [(-> & -> & _) | (m & -> & _ & Hsend)];
        [| apply send_message_keeps_reports in Hsend ]
      | ];
      intros H; injection H as <- <- <-; eval_sent;
      cbn [orb]; rewrite ?save_energy_report_rows, ?Hsend;
      (split;
       [ destruct report; unfold flagged; cbn;
         rewrite ?orb_true_r, ?orb_false_r; reflexivity
       | reflexivity ]).
Qed.

End Channels.

Section ChannelResults.
Import Delivered.
Variable settings : Settings.t.
Variable now : Z.
Variable now_text : string.
Variable isoformat : Z -> string.
Variable smtp_send : Smtp.send.
Variable messages_create : Twilio.messages_create.

Lemma send_message_outcome svc db to message alert client mt m db1 :
  WhatsAppService._send_message svc now messages_create db to message alert
    client mt = (m, db1) ->
  DB.whatsapp_messages db1 = (DB.whatsapp_messages db ++ [m])%list
  /\ WhatsAppMessage.message_type m = mt
  /\ ((exists b f t sid st, messages_create b f t = Twilio.Created sid st)
      /\ WhatsAppMessage.status m = "SENT"
      \/ (exists b f t e, messages_create b f t = Twilio.Raised e)
         /\ WhatsAppMessage.status m = "FAILED").
Proof.
  unfold WhatsAppService._send_message.
  destruct (messages_create _ _ _) as [sid st | e] eqn:E;
    intros H; injection H as <- <-.
  - split.
    { destruct alert; rewrite ?save_alert_messages;
        now apply save_after_add_message. }
    split; [reflexivity|]. left. split; [eauto 10 | reflexivity].
  - split; [now apply save_after_add_message|].
    split; [reflexivity|]. right. split; [eauto 10 | reflexivity].
Qed.

(** [send_report] changes nothing of the report but its two delivery flags:
    a flag is raised exactly when its channel is answered "sent", and is never
    cleared; the stored row of the report is replaced when a flag was raised,
    and the table of reports is left alone otherwise. *)
Theorem send_report_raises_sent_flags db report via_email via_whatsapp results
    report' db' :
  ReportService.send_report settings now now_text isoformat smtp_send
    messages_create db report via_email via_whatsapp
    = (results, report', db') ->
  report' = flagged report (sent results "email") (sent results "whatsapp")
  /\ EnergyReport.sent_via_email report'
     = EnergyReport.sent_via_email report || sent results "email"
  /\ EnergyReport.sent_via_whatsapp report'
     = EnergyReport.sent_via_whatsapp report || sent results "whatsapp"
  /\ DB.energy_reports db'
     = (if sent results "email" || sent results "whatsapp"
        then map (replace_report report') (DB.energy_reports db)
        else DB.energy_reports db).
Proof.
  intros H.
  destruct (send_report_shape settings now now_text isoformat smtp_send
              messages_create db report via_email via_whatsapp results
              report' db' H) as [Hflag Hrows].
  split; [exact Hflag|]. rewrite Hflag at 1 2.
  split; [reflexivity|]. split; [reflexivity | exact Hrows].
Qed.

(** The WhatsApp answer of [send_report] does not depend on what the
    transport did: the channel is answered when it is asked for and the
    client accepts it, "sent" when the credentials are configured and
    "failed" when they are not.  In particular a message that the
    transport refused is stored as FAILED while the report is answered
    "sent" and flagged as sent. *)
Theorem send_report_whatsapp_answer db report via_email via_whatsapp results
    report' db' :
  ReportService.send_report settings now now_text isoformat smtp_send
    messages_create db report via_email via_whatsapp
    = (results, report', db') ->
  let accepted :=
    via_whatsapp
    && Client.receive_whatsapp_alerts (EnergyReport.client report) in
  let configured :=
    WhatsAppService.enabled (WhatsAppService.__init__ settings) in
  results !! "whatsapp"
  = (if accepted then Some (if configured then "sent" else "failed")
     else None)
  /\ (if accepted && configured
      then EnergyReport.sent_via_whatsapp report' = true
           /\ exists m,
                DB.whatsapp_messages db'
                = (DB.whatsapp_messages db ++ [m])%list
                /\ WhatsAppMessage.message_type m = "report"
                /\ ((forall b f t, exists e,
                        messages_create b f t = Twilio.Raised e) ->
                    WhatsAppMessage.status m = "FAILED")
      else DB.whatsapp_messages db' = DB.whatsapp_messages db
           /\ EnergyReport.sent_via_whatsapp report'
              = EnergyReport.sent_via_whatsapp report).
Proof.
  unfold ReportService.send_report. cbv zeta.
  assert (Hstep : forall (res0 : gmap string string) report1 db1,
    EnergyReport.client report1 = EnergyReport.client report ->
    EnergyReport.sent_via_whatsapp report1
    = EnergyReport.sent_via_whatsapp report ->
    DB.whatsapp_messages db1 = DB.whatsapp_messages db ->
    res0 !! "whatsapp" = None ->
    (if via_whatsapp
        && Client.receive_whatsapp_alerts (EnergyReport.client report1)
     then
       let wa_service := WhatsAppService.__init__ settings in
       let '(wa_result, db0) :=
         WhatsAppService.send_report_summary wa_service now isoformat
           messages_create db1 report1 in
       match wa_result with
       | Some _ =>
         let report0 := EnergyReport.set_sent_via_whatsapp report1 true in
         (<["whatsapp" := "sent"]> res0, report0,
          DB.save_energy_report db0 report0)
       | None => (<["whatsapp" := "failed"]> res0, report1, db0)
       end
     else (res0, report1, db1)) = (results, report', db') ->
    results !! "whatsapp"
    = (if via_whatsapp
          && Client.receive_whatsapp_alerts (EnergyReport.client report)
       then Some (if WhatsAppService.enabled
                       (WhatsAppService.__init__ settings)
                  then "sent" else "failed")
       else None)
    /\ (if via_whatsapp
           && Client.receive_whatsapp_alerts (EnergyReport.client report)
           && WhatsAppService.enabled (WhatsAppService.__init__ settings)
        then EnergyReport.sent_via_whatsapp report' = true
             /\ exists m,
                  DB.whatsapp_messages db'
                  = (DB.whatsapp_messages db ++ [m])%list
                  /\ WhatsAppMessage.message_type m = "report"
                  /\ ((forall b f t, exists e,
                          messages_create b f t = Twilio.Raised e) ->
                      WhatsAppMessage.status m = "FAILED")
        else DB.whatsapp_messages db' = DB.whatsapp_messages db
             /\ EnergyReport.sent_via_whatsapp report'
                = EnergyReport.sent_via_whatsapp report)).
  { intros res0 report1 db1 Hc Hflag Hrows Hres. rewrite Hc.
    destruct (via_whatsapp
              && Client.receive_whatsapp_alerts (EnergyReport.client report))
      eqn:Hacc; cbv zeta.
    2:{ intros H. injection H as <- <- <-. cbn [andb]. auto. }
    destruct (WhatsAppService.send_report_summary _ _ _ _ _ _)
      as [wr db2] eqn:Hwa.
    apply send_report_summary_cases in Hwa.
    destruct Hwa as [(-> & -> & [Hoff | Hpref]) | (m & -> & Hon & Hsend)].
    - intros H. injection H as <- <- <-. rewrite Hoff. cbn [andb].
      rewrite lookup_insert_eq. auto.
    - apply andb_true_iff in Hacc. rewrite Hc in Hpref.
      destruct Hacc as [_ Hacc]. congruence.
    - intros H. injection H as <- <- <-. rewrite Hon. cbn [andb].
      rewrite lookup_insert_eq. split; [reflexivity|].
      split; [reflexivity|].
      apply send_message_outcome in Hsend.
      destruct Hsend as (Hm & Htype & Hstatus).
      exists m. rewrite save_energy_report_messages, Hm, Hrows.
      split; [reflexivity|]. split; [exact Htype|].
      intros Hraise.
      destruct Hstatus as [[(b & f & t & sid & st & Hok) _] | [_ Hst]];
        [|exact Hst].
      destruct (Hraise b f t) as [e He]. congruence. }
  destruct (via_email && _).
  - destruct (EmailService.send_report_email _ _ _ _ _ _)
      as [[er report1] db1] eqn:Hemail.
    apply send_report_email_preserves in Hemail.
    destruct Hemail as (Hc & Hw & Hm).
    destruct er as [[|]|]; apply Hstep; auto;
      rewrite lookup_insert_ne by discriminate; apply lookup_empty.
  - apply Hstep; auto.
Qed.

End ChannelResults.

Section EmailAnswer.
Import Delivered.
Variable settings : Settings.t.
Variable now : Z.
Variable now_text : string.
Variable isoformat : Z -> string.
Variable smtp_send : Smtp.send.
Variable messages_create : Twilio.messages_create.

(** The e-mail answer of [send_report].  The channel is answered only when it
    is asked for and the client accepts it.  Without e-mail credentials the
    answer is "sent" (the mock), even for a client without address; with
    credentials a client without address is answered "failed", and otherwise
    the answer follows the transport. *)
Theorem send_report_email_answer db report via_email via_whatsapp results
    report' db' :
  ReportService.send_report settings now now_text isoformat smtp_send
    messages_create db report via_email via_whatsapp
    = (results, report', db') ->
  let client := EnergyReport.client report in
  let asked := via_email && Client.receive_email_reports client in
  let configured := EmailService.enabled (EmailService.__init__ settings) in
  (asked = false -> results !! "email" = None)
  /\ (asked = true -> configured = false -> results !! "email" = Some "sent")
  /\ (asked = true -> configured = true ->
      Py.truthy_string (Client.email client) = false ->
      results !! "email" = Some "failed")
  /\ (asked = true -> configured = true ->
      Py.truthy_string (Client.email client) = true ->
      forall accepted,
        (forall subject text html sender recipient,
            smtp_send subject text html sender recipient = accepted) ->
        results !! "email" = Some (if accepted then "sent" else "failed")).
Proof.
  unfold ReportService.send_report. cbv zeta.
  assert (Hstep : forall (res0 : gmap string string) report1 db1,
    (if via_whatsapp
        && Client.receive_whatsapp_alerts (EnergyReport.client report1)
     then
       let wa_service := WhatsAppService.__init__ settings in
       let '(wa_result, db0) :=
         WhatsAppService.send_report_summary wa_service now isoformat
           messages_create db1 report1 in
       match wa_result with
       | Some _ =>
         let report0 := EnergyReport.set_sent_via_whatsapp report1 true in
         (<["whatsapp" := "sent"]> res0, report0,
          DB.save_energy_report db0 report0)
       | None => (<["whatsapp" := "failed"]> res0, report1, db0)
       end
     else (res0, report1, db1)) = (results, report', db') ->
    results !! "email" = res0 !! "email").
  { intros res0 report1 db1.
    destruct (via_whatsapp && _); cbv zeta.
    - destruct (WhatsAppService.send_report_summary _ _ _ _ _ _)
        as [[m|] db2];
        intros H; injection H as <- <- <-;
        now rewrite lookup_insert_ne by discriminate.
    - intros H. injection H as <- <- <-. reflexivity. }
  destruct (via_email
            && Client.receive_email_reports (EnergyReport.client report))
    eqn:Hasked.
  - apply andb_true_iff in Hasked. destruct Hasked as [_ Hpref].
    destruct (EmailService.send_report_email _ _ _ _ _ _)
      as [[er report1] db1] eqn:Hemail.
    apply send_report_email_cases in Hemail. cbv zeta in Hemail.
    destruct Hemail as [(Hoff & -> & -> & ->)
                       | [(Hon & Hwhy & -> & -> & ->)
                         | [(Hon & Hmail & (su & te & ht & Hok) & -> & -> & ->)
                           | (Hon & Hmail & (su & te & ht & Hno)
                              & -> & -> & ->)]]];
      intros H; apply Hstep in H; rewrite H, lookup_insert_eq;
      repeat split; intros; try discriminate; try reflexivity;
      try congruence.
    + destruct Hwhy; congruence.
    + match goal with
      | Hall : forall _ _ _ _ _, _ = ?a |- _ => rewrite Hall in Hok
      end. now subst.
    + match goal with
      | Hall : forall _ _ _ _ _, _ = ?a |- _ => rewrite Hall in Hno
      end. now subst.
  - intros H. apply Hstep in H. rewrite H, lookup_empty.
    repeat split; intros; try discriminate; reflexivity.
Qed.

End EmailAnswer.

Lemma send_report_raises_sent_flags_witness :
  EnergyReport.sent_via_email
    (ReportService.send_report Settings.unconfigured Sample.today
       Sample.now_text Sample.isoformat Sample.smtp_ok Sample.twilio_ok
       (Sample.db_with (Sample.report_for Sample.ada))
       (Sample.report_for Sample.ada) true true).1.2
  = true.
Proof.
  exact (proj1 (proj2
           (send_report_raises_sent_flags Settings.unconfigured Sample.today
              Sample.now_text Sample.isoformat Sample.smtp_ok Sample.twilio_ok
              (Sample.db_with (Sample.report_for Sample.ada))
              (Sample.report_for Sample.ada) true true _ _ _
              (triple_eta _)))).
Defined.

Lemma send_report_whatsapp_answer_witness :
  (ReportService.send_report Sample.configured Sample.today Sample.now_text
     Sample.isoformat Sample.smtp_ok (fun _ _ _ => Twilio.Raised "down")
     (Sample.db_with (Sample.report_for Sample.ada))
     (Sample.report_for Sample.ada) false true).1.1 !! "whatsapp"
  = Some "sent".
Proof.
  exact (proj1
           (send_report_whatsapp_answer Sample.configured Sample.today
              Sample.now_text Sample.isoformat Sample.smtp_ok
              (fun _ _ _ => Twilio.Raised "down")
              (Sample.db_with (Sample.report_for Sample.ada))
              (Sample.report_for Sample.ada) false true _ _ _
              (triple_eta _))).
Defined.

Lemma send_report_email_answer_witness :
  (ReportService.send_report Settings.unconfigured Sample.today
     Sample.now_text Sample.isoformat Sample.smtp_ok Sample.twilio_ok
     (Sample.db_with (Sample.report_for Sample.no_email))
     (Sample.report_for Sample.no_email) true false).1.1 !! "email"
  = Some "sent".
Proof.
  exact (proj1 (proj2
           (send_report_email_answer Settings.unconfigured Sample.today
              Sample.now_text Sample.isoformat Sample.smtp_ok Sample.twilio_ok
              (Sample.db_with (Sample.report_for Sample.no_email))
              (Sample.report_for Sample.no_email) true false _ _ _
              (triple_eta _)))
         eq_refl eq_refl).
Defined.

(** ** A report from generation to delivery *)

Section Lifecycle.
Import Delivered.

Lemma generate_report_row today db client rt device s e r db1 :
  ReportService.generate_report today db client rt device s e
    = (Some r, db1) ->
  db1 = DB.add_energy_report db r
  /\ EnergyReport.pk r
     = DB.next_pk (map EnergyReport.pk (DB.energy_reports db))
  /\ EnergyReport.sent_via_email r = false
  /\ EnergyReport.sent_via_whatsapp r = false.
Proof.
  unfold ReportService.generate_report.
  destruct (ReportService.resolve_dates today rt s e) as [sd ed].
  destruct (ReportService.device_set client device) as [|d ds];
    [discriminate|].
  intros H. injection H as <- <-. repeat split; reflexivity.
Qed.

Lemma replace_new_row db r r' :
  EnergyReport.pk r
  = DB.next_pk (map EnergyReport.pk (DB.energy_reports db)) ->
  EnergyReport.pk r' = EnergyReport.pk r ->
  map (replace_report r') (DB.energy_reports db ++ [r])
  = (DB.energy_reports db ++ [r'])%list.
Proof.
  intros Hpk Hsame. rewrite map_app. cbn [map]. unfold replace_report at 2.
  rewrite Hsame, Z.eqb_refl. f_equal.
  apply (map_replace_fresh EnergyReport.pk).
  intros b Hb. rewrite Hsame, Hpk. apply next_pk_fresh. now apply in_map.
Qed.

(** A report that was just generated and is then sent: the table of reports
    is the old table followed by the report with the flags of the channels
    answered "sent"; no earlier report is touched. *)
Theorem generated_then_sent settings today now now_text isoformat smtp_send
    messages_create db client rt device s e r db1 via_email via_whatsapp
    results r' db2 :
  ReportService.generate_report today db client rt device s e
    = (Some r, db1) ->
  ReportService.send_report settings now now_text isoformat smtp_send
    messages_create db1 r via_email via_whatsapp = (results, r', db2) ->
  r' = flagged r (sent results "email") (sent results "whatsapp")
  /\ EnergyReport.sent_via_email r' = sent results "email"
  /\ EnergyReport.sent_via_whatsapp r' = sent results "whatsapp"
  /\ DB.energy_reports db2 = (DB.energy_reports db ++ [r'])%list.
Proof.
  intros Hgen Hsend.
  apply generate_report_row in Hgen. destruct Hgen as (-> & Hpk & He & Hw).
  apply send_report_shape in Hsend. destruct Hsend as [Hflag Hrows].
  split; [exact Hflag|].
  split; [rewrite Hflag; cbn; now rewrite He|].
  split; [rewrite Hflag; cbn; now rewrite Hw|].
  rewrite Hrows. cbn [DB.energy_reports DB.add_energy_report
                      DB.set_energy_reports].
  destruct (sent results "email" || sent results "whatsapp") eqn:Hany.
  - apply replace_new_row; [exact Hpk|]. rewrite Hflag. reflexivity.
  - apply orb_false_iff in Hany. destruct Hany as [H1 H2].
    rewrite Hflag, H1, H2, flagged_none. reflexivity.
Qed.

End Lifecycle.

Lemma generated_then_sent_witness :
  let generated :=
    ReportService.generate_report Sample.today Sample.db Sample.ada "WEEKLY"
      None None None in
  match generated.1 with
  | Some r =>
    let sent :=
      ReportService.send_report Sample.configured (Sample.today + 1)
        Sample.now_text Sample.isoformat Sample.smtp_ok Sample.twilio_ok
        generated.2 r true true in
    DB.energy_reports sent.2 = [sent.1.2]
  | None => False
  end.
Proof.
  cbv zeta.
  destruct (ReportService.generate_report Sample.today Sample.db Sample.ada
              "WEEKLY" None None None) as [[r|] db1] eqn:Hgen; cbn [fst snd].
  - exact (proj2 (proj2 (proj2
             (generated_then_sent Sample.configured Sample.today
                (Sample.today + 1) Sample.now_text Sample.isoformat
                Sample.smtp_ok Sample.twilio_ok Sample.db Sample.ada "WEEKLY"
                None None None r db1 true true _ _ _ Hgen (triple_eta _))))).
  - vm_compute in Hgen. discriminate Hgen.
Defined.

(** ** Invariants of a generated report *)

Section ReportInvariants.
Import ReportService.

Lemma filter_none {A} (f : A -> bool) (l : list A) :
  (forall x, f x = false) -> filter (fun a => f a) l = [].
Proof.
  intros Hf. induction l as [|x l IH]; [reflexivity|].
  rewrite filter_cons. destruct (decide _) as [H | _]; [|exact IH].
  rewrite Hf in H. contradiction.
Qed.

Lemma stats_alert_counts db dev sd ed :
  let st := _get_device_statistics db dev sd ed in
  0 <= DeviceStats.critical_alerts st <= DeviceStats.alerts st
  /\ DeviceStats.uptime st
     = (inject_Z (Py.len (DeviceStats.power_factors st)) * (5 / 60))%Q.
Proof.
  cbv zeta. unfold _get_device_statistics. cbn. split.
  - unfold Orm.count. split; [lia|].
    apply inj_le. apply length_filter.
  - unfold Orm.count, Py.len. now rewrite length_map.
Qed.

Lemma Zsum_le l1 l2 :
  Forall2 (fun a b => 0 <= a <= b) l1 l2 ->
  0 <= Stat.Zsum l1 <= Stat.Zsum l2.
Proof.
  induction 1 as [|a b l1 l2 Hab _ IH]; simpl; lia.
Qed.

Lemma sum_from_nonneg l : forall a,
  (0 <= a)%Q -> (forall x, In x l -> (0 <= x)%Q) ->
  (0 <= fold_left Qplus l a)%Q.
Proof.
  induction l as [|x l IH]; intros a Ha Hl; cbn [fold_left]; [exact Ha|].
  apply IH.
  - pose proof (Hl x (or_introl eq_refl)) as Hx. lra.
  - intros y Hy. apply Hl. now right.
Qed.

(** In every generated report the critical alerts are among the alerts (so
    the PDF's count of the others, total minus critical, is not negative),
    and the uptime is made of the power-factor samples that entered the
    average: for each device of the breakdown, 5 minutes times the number of
    its samples, added up device by device; it is never negative. *)
Theorem report_counts_are_consistent today db client rt device s e r db' :
  generate_report today db client rt device s e = (Some r, db') ->
  0 <= EnergyReport.critical_alerts r <= EnergyReport.total_alerts r
  /\ EnergyReport.uptime_hours r
     = Py.sum (map (fun st => (inject_Z (Stat.samples st) * (5 / 60))%Q)
                   (ReportData.devices (EnergyReport.report_data r)))
  /\ (0 <= EnergyReport.uptime_hours r)%Q.
Proof.
  intros Hgen.
  assert (Hlen : (0 < length (device_set client device))%nat).
  { unfold generate_report in Hgen.
    destruct (resolve_dates today rt s e) as [sd ed].
    destruct (device_set client device); [discriminate | simpl; lia]. }
  destruct (generate_report_fields today db client rt device s e Hlen)
    as [r0 [Hr (_ & _ & _ & Hup & Hal & Hcrit & _ & Hdata)]].
  rewrite Hr in Hgen. injection Hgen as <- <-.
  rewrite aggregate_fold in Hup, Hal, Hcrit, Hdata.
  rewrite fold_accumulate_uptime in Hup.
  rewrite fold_accumulate_alerts in Hal.
  rewrite fold_accumulate_critical in Hcrit.
  rewrite fold_accumulate_device_data in Hdata. cbn in Hup, Hal, Hcrit, Hdata.
  set (stats := Stat.stats_of db (device_set client device)
                  (EnergyReport.start_date r0) (EnergyReport.end_date r0))
    in *.
  assert (Hall : Forall (fun st =>
            0 <= DeviceStats.critical_alerts st <= DeviceStats.alerts st
            /\ DeviceStats.uptime st
               = (inject_Z (Py.len (DeviceStats.power_factors st))
                  * (5 / 60))%Q) stats).
  { unfold stats, Stat.stats_of. apply List.Forall_forall. intros st Hin.
    apply in_map_iff in Hin. destruct Hin as [dev [<- _]].
    apply stats_alert_counts. }
  assert (Huptime :
    EnergyReport.uptime_hours r0
    = Py.sum (map (fun st => (inject_Z (Stat.samples st) * (5 / 60))%Q)
                  stats)).
  { rewrite Hup. unfold Py.sum. f_equal. apply map_ext_in. intros st Hin.
    rewrite List.Forall_forall in Hall. exact (proj2 (Hall st Hin)). }
  split.
  { rewrite Hal, Hcrit. apply Zsum_le.
    clear -Hall. induction Hall as [|st l [Hst _] _ IH]; constructor; auto. }
  split; [rewrite Hdata; exact Huptime|].
  rewrite Huptime. unfold Py.sum. apply sum_from_nonneg; [apply Qle_refl|].
  intros x Hx. apply in_map_iff in Hx. destruct Hx as (st & <- & _).
  apply Qmult_le_0_compat; [|discriminate].
  change 0%Q with (inject_Z 0). rewrite <- Zle_Qle.
  unfold Stat.samples, Py.len. lia.
Qed.

End ReportInvariants.

Lemma report_counts_are_consistent_witness :
  match
    (ReportService.generate_report Sample.today Sample.db Sample.ada "WEEKLY"
       None None None).1
  with
  | Some r =>
    0 <= EnergyReport.critical_alerts r <= EnergyReport.total_alerts r
  | None => False
  end.
Proof.
  destruct (ReportService.generate_report Sample.today Sample.db Sample.ada
              "WEEKLY" None None None) as [[r|] db1] eqn:Hgen; cbn [fst].
  - exact (proj1 (report_counts_are_consistent Sample.today Sample.db
                    Sample.ada "WEEKLY" None None None r db1 Hgen)).
  - vm_compute in Hgen. discriminate Hgen.
Defined.

Section InvertedRange.
Import ReportService.

Lemma inverted_range_is_empty sd ed d :
  ed < sd -> Orm.date_in_range sd ed d = false.
Proof.
  intros H. unfold Orm.date_in_range.
  destruct (sd <=? d) eqn:E1; [|reflexivity].
  apply Z.leb_le in E1. cbn. apply Z.leb_gt. lia.
Qed.

Lemma stats_of_inverted_range db dev sd ed :
  ed < sd ->
  let st := _get_device_statistics db dev sd ed in
  DeviceStats.consumption st = 0%Q
  /\ DeviceStats.cost st = 0%Q
  /\ DeviceStats.peak_power st = 0%Q
  /\ DeviceStats.power_factors st = []
  /\ (DeviceStats.uptime st == 0)%Q
  /\ DeviceStats.alerts st = 0
  /\ DeviceStats.critical_alerts st = 0.
Proof.
  intros H. cbv zeta. unfold _get_device_statistics.
  assert (Hc : consumption_records db dev sd ed = []).
  { apply (filter_none (fun r =>
             Orm.fk_is (DailyConsumption.device r) (Device.pk dev)
             && Orm.date_in_range sd ed (DailyConsumption.date r))).
    intros x. rewrite inverted_range_is_empty by exact H.
    apply andb_false_r. }
  assert (Hr : readings db dev sd ed = []).
  { apply (filter_none (fun r =>
             Orm.fk_is (PowerReading.device r) (Device.pk dev)
             && Orm.date_in_range sd ed (PowerReading.timestamp_date r))).
    intros x. rewrite inverted_range_is_empty by exact H.
    apply andb_false_r. }
  assert (Ha : alerts db dev sd ed = []).
  { apply (filter_none (fun a =>
             Orm.fk_is (Alert.device a) (Device.pk dev)
             && Orm.date_in_range sd ed (Alert.timestamp_date a))).
    intros x. rewrite inverted_range_is_empty by exact H.
    apply andb_false_r. }
  rewrite Hc, Hr, Ha. cbn. repeat split; reflexivity.
Qed.

Lemma sum_of_zeros l : Forall (fun x => x = 0%Q) l -> Py.sum l = 0%Q.
Proof.
  unfold Py.sum. induction 1 as [|x l -> _ IH]; [reflexivity|].
  cbn [fold_left]. exact IH.
Qed.

Lemma sum_of_null l : Forall (fun x => (x == 0)%Q) l -> (Py.sum l == 0)%Q.
Proof.
  induction 1 as [|x l Hx _ IH]; [reflexivity|].
  rewrite sum_cons, Hx, IH. reflexivity.
Qed.

Lemma max_of_zeros l :
  Forall (fun x => x = 0%Q) l -> fold_left Py.max l 0%Q = 0%Q.
Proof.
  induction 1 as [|x l -> _ IH]; [reflexivity|].
  cbn [fold_left]. exact IH.
Qed.

Lemma Zsum_of_zeros l : Forall (fun x => x = 0) l -> Stat.Zsum l = 0.
Proof. induction 1 as [|x l -> _ IH]; simpl; lia. Qed.

(** A request whose end date lies before its start date is not refused: the
    report is created over the inverted period, with every total at zero and
    a daily average of zero. *)
Theorem inverted_period_gives_empty_report today db client rt device sd ed :
  ed < sd ->
  (0 < length (device_set client device))%nat ->
  exists r,
    generate_report today db client rt device (Some sd) (Some ed)
      = (Some r, DB.add_energy_report db r)
    /\ EnergyReport.start_date r = sd
    /\ EnergyReport.end_date r = ed
    /\ ReportData.days_in_period (EnergyReport.report_data r) = ed - sd + 1
    /\ EnergyReport.total_consumption_kwh r = 0%Q
    /\ EnergyReport.total_cost r = 0%Q
    /\ EnergyReport.avg_daily_consumption r = 0%Q
    /\ EnergyReport.peak_power r = 0%Q
    /\ EnergyReport.avg_power_factor r = 0%Q
    /\ (EnergyReport.uptime_hours r == 0)%Q
    /\ EnergyReport.total_alerts r = 0
    /\ EnergyReport.critical_alerts r = 0.
Proof.
  intros Hinv Hlen. unfold generate_report. cbn [resolve_dates].
  remember (device_set client device) as devices eqn:Hd.
  destruct devices as [|d ds]; [simpl in Hlen; lia|].
  eexists. split; [reflexivity|]. cbn.
  assert (Hdays : (0 <? ed - sd + 1) = false) by (apply Z.ltb_ge; lia).
  rewrite Hdays.
  pose proof (aggregate_fold db (d :: ds) sd ed) as Hagg.
  cbn [aggregate fold_left] in Hagg. rewrite Hagg.
  set (stats := Stat.stats_of db (d :: ds) sd ed).
  assert (Hall : Forall (fun st =>
            DeviceStats.consumption st = 0%Q
            /\ DeviceStats.cost st = 0%Q
            /\ DeviceStats.peak_power st = 0%Q
            /\ DeviceStats.power_factors st = []
            /\ (DeviceStats.uptime st == 0)%Q
            /\ DeviceStats.alerts st = 0
            /\ DeviceStats.critical_alerts st = 0) stats).
  { unfold stats, Stat.stats_of. apply List.Forall_forall. intros st Hin.
    apply in_map_iff in Hin. destruct Hin as [dev [<- _]].
    now apply stats_of_inverted_range. }
  rewrite fold_accumulate_consumption, fold_accumulate_cost,
    fold_accumulate_peak, fold_accumulate_uptime, fold_accumulate_alerts,
    fold_accumulate_critical, fold_accumulate_power_factors.
  cbn [total_consumption total_cost peak_power uptime_hours total_alerts
       critical_alerts power_factors totals_init app].
  assert (Hpf : concat (map DeviceStats.power_factors stats) = []).
  { clear -Hall. induction Hall as [|st l (_ & _ & _ & Hp & _) _ IH];
      [reflexivity|]. cbn. now rewrite Hp, IH. }
  rewrite Hpf.
  repeat split.
  - apply sum_of_zeros. clear -Hall.
    induction Hall as [|st l (H & _) _ IH]; constructor; auto.
  - apply sum_of_zeros. clear -Hall.
    induction Hall as [|st l (_ & H & _) _ IH]; constructor; auto.
  - apply max_of_zeros. clear -Hall.
    induction Hall as [|st l (_ & _ & H & _) _ IH]; constructor; auto.
  - apply sum_of_null. clear -Hall.
    induction Hall as [|st l (_ & _ & _ & _ & H & _) _ IH]; constructor; auto.
  - rewrite Zsum_of_zeros; [reflexivity|]. clear -Hall.
    induction Hall as [|st l (_ & _ & _ & _ & _ & H & _) _ IH];
      constructor; auto.
  - rewrite Zsum_of_zeros; [reflexivity|]. clear -Hall.
    induction Hall as [|st l (_ & _ & _ & _ & _ & _ & H) _ IH];
      constructor; auto.
Qed.

End InvertedRange.

Lemma inverted_period_gives_empty_report_witness :
  exists r,
    ReportService.generate_report Sample.today Sample.db Sample.ada "CUSTOM"
      None (Some Sample.today) (Some (Sample.today - 6))
    = (Some r, DB.add_energy_report Sample.db r)
    /\ EnergyReport.total_consumption_kwh r = 0%Q.
Proof.
  destruct (inverted_period_gives_empty_report Sample.today Sample.db
              Sample.ada "CUSTOM" None Sample.today (Sample.today - 6)
              ltac:(reflexivity) ltac:(simpl; lia))
    as (r & Hr & _ & _ & _ & Hc & _).
  exists r. split; [exact Hr | exact Hc].
Defined.

(** ** The report views (views.py) *)

Section ReportViews.
Import Delivered.
Variable settings : Settings.t.
Variable today : Z.
Variable now_text : string.
Variable isoformat : Z -> string.
Variable smtp_send : Smtp.send.
Variable messages_create : Twilio.messages_create.

Lemma generate_report_links db client rt device s e r db1 :
  ReportService.generate_report today db client rt device s e
    = (Some r, db1) ->
  EnergyReport.client r = client /\ EnergyReport.device r = device
  /\ EnergyReport.report_type r = rt.
Proof.
  unfold ReportService.generate_report.
  destruct (ReportService.resolve_dates today rt s e) as [sd ed].
  destruct (ReportService.device_set client device) as [|d ds];
    [discriminate|].
  intros H. injection H as <- <-. repeat split; reflexivity.
Qed.

Lemma generate_for_outcome db data client device resp db' :
  EnergyReportViewSet.generate_for settings today now_text isoformat smtp_send
    messages_create db data client device = (resp, db') ->
  (Http.status_code resp = 400 /\ Http.report resp = None /\ db' = db
   /\ ReportService.device_set client device = [])
  \/ (exists r,
        resp = Http.created r
        /\ EnergyReport.client r = client
        /\ EnergyReport.device r = device
        /\ EnergyReport.report_type r
           = default "WEEKLY" (EnergyReportViewSet.report_type data)
        /\ DB.energy_reports db' = (DB.energy_reports db ++ [r])%list
        /\ (EnergyReportViewSet.send_whatsapp data
            || EnergyReportViewSet.send_email data = false ->
            EnergyReport.sent_via_email r = false
            /\ EnergyReport.sent_via_whatsapp r = false
            /\ DB.whatsapp_messages db' = DB.whatsapp_messages db)).
Proof.
  unfold EnergyReportViewSet.generate_for.
  destruct (ReportService.generate_report _ _ _ _ _ _ _)
    as [[r|] db1] eqn:Hgen.
  - pose proof (generate_report_links _ _ _ _ _ _ _ _ Hgen)
      as (Hc & Hd & Ht).
    pose proof (generate_report_row _ _ _ _ _ _ _ _ _ Hgen)
      as (-> & Hpk & He & Hw).
    destruct (EnergyReportViewSet.send_whatsapp data
              || EnergyReportViewSet.send_email data) eqn:Hsend.
    + destruct (ReportService.send_report _ _ _ _ _ _ _ _ _ _)
        as [[results r'] db2] eqn:Hs.
      apply send_report_shape in Hs. destruct Hs as [Hflag Hrows].
      intros H. injection H as <- <-. right. exists r'.
      split; [reflexivity|]. rewrite Hflag at 1 2 3.
      split; [exact Hc|]. split; [exact Hd|]. split; [exact Ht|].
      split; [|discriminate].
      rewrite Hrows.
      cbn [DB.energy_reports DB.add_energy_report DB.set_energy_reports].
      destruct (sent results "email" || sent results "whatsapp") eqn:Hany.
      * apply replace_new_row; [exact Hpk|]. rewrite Hflag. reflexivity.
      * apply orb_false_iff in Hany. destruct Hany as [H1 H2].
        rewrite Hflag, H1, H2, flagged_none. reflexivity.
    + intros H. injection H as <- <-. right. exists r.
      repeat split; auto.
  - intros H. injection H as <- <-. left.
    unfold ReportService.generate_report in Hgen.
    destruct (ReportService.resolve_dates _ _ _ _) as [sd ed].
    destruct (ReportService.device_set client device) as [|d ds] eqn:Hset;
      [|discriminate].
    injection Hgen as <-. auto.
Qed.

(** [EnergyReportViewSet.generate] answers 404 for an unknown client or an
    unknown device, 400 for a device that is not attached to the client or
    for a client without devices, and stores nothing in these cases; on 201
    exactly one report was added, for the requested client, and a report for
    a device is a report for a device of that client.  An empty [device_id]
    counts as none. *)
Theorem generate_view_outcomes db data resp db' :
  EnergyReportViewSet.generate settings today now_text isoformat smtp_send
    messages_create db data = (resp, db') ->
  let client := EnergyReportViewSet.client_id data ≫= Http.get_client db in
  (Http.status_code resp = 201 \/ Http.status_code resp = 400
   \/ Http.status_code resp = 404)
  /\ (client = None -> Http.status_code resp = 404)
  /\ (Http.status_code resp <> 201 -> Http.report resp = None /\ db' = db)
  /\ (Http.status_code resp = 201 ->
      exists r,
        Http.report resp = Some r
        /\ client = Some (EnergyReport.client r)
        /\ DB.energy_reports db' = (DB.energy_reports db ++ [r])%list
        /\ match EnergyReport.device r with
           | Some d =>
             EnergyReportViewSet.belongs d (EnergyReport.client r) = true
             /\ EnergyReportViewSet.device_id data = Some (Device.device_id d)
             /\ Http.get_device_by_id db (Device.device_id d) = Some d
           | None =>
             EnergyReportViewSet.device_id data = None
             \/ EnergyReportViewSet.device_id data = Some EmptyString
           end).
Proof.
  unfold EnergyReportViewSet.generate. cbv zeta.
  destruct (EnergyReportViewSet.client_id data ≫= Http.get_client db)
    as [client|].
  2:{ intros H. injection H as <- <-. cbn.
      repeat split; auto; discriminate. }
  assert (Hfor : forall device,
    match device with
    | Some d =>
      EnergyReportViewSet.belongs d client = true
      /\ EnergyReportViewSet.device_id data = Some (Device.device_id d)
      /\ Http.get_device_by_id db (Device.device_id d) = Some d
    | None =>
      EnergyReportViewSet.device_id data = None
      \/ EnergyReportViewSet.device_id data = Some EmptyString
    end ->
    EnergyReportViewSet.generate_for settings today now_text isoformat
      smtp_send messages_create db data client device = (resp, db') ->
    (Http.status_code resp = 201 \/ Http.status_code resp = 400
     \/ Http.status_code resp = 404)
    /\ (Some client = None -> Http.status_code resp = 404)
    /\ (Http.status_code resp <> 201 -> Http.report resp = None /\ db' = db)
    /\ (Http.status_code resp = 201 ->
        exists r,
          Http.report resp = Some r
          /\ Some client = Some (EnergyReport.client r)
          /\ DB.energy_reports db' = (DB.energy_reports db ++ [r])%list
          /\ match EnergyReport.device r with
             | Some d =>
               EnergyReportViewSet.belongs d (EnergyReport.client r) = true
               /\ EnergyReportViewSet.device_id data
                  = Some (Device.device_id d)
               /\ Http.get_device_by_id db (Device.device_id d) = Some d
             | None =>
               EnergyReportViewSet.device_id data = None
               \/ EnergyReportViewSet.device_id data = Some EmptyString
             end)).
  { intros device Hdev Hgen. apply generate_for_outcome in Hgen.
    destruct Hgen as [(Hcode & Hrep & -> & _)
                     | (r & -> & Hc & Hd & _ & Hrows & _)].
    - rewrite Hcode. repeat split; auto; try discriminate.
    - cbn. split; [auto|]. split; [discriminate|].
      split; [intros H; now elim H|]. intros _. exists r.
      rewrite Hc, Hd. auto. }
  destruct (EnergyReportViewSet.device_id data) as [id|] eqn:Hid.
  - destruct (Py.truthy_string id) eqn:Htruthy.
    + destruct (Http.get_device_by_id db id) as [device|] eqn:Hget.
      * destruct (EnergyReportViewSet.belongs device client) eqn:Hbel;
          cbn [negb].
        -- assert (Hdid : Device.device_id device = id).
           { unfold Http.get_device_by_id in Hget. apply find_some in Hget.
             destruct Hget as [_ Hget]. now apply String.eqb_eq in Hget. }
           apply (Hfor (Some device)). rewrite Hdid. auto.
        -- intros H. injection H as <- <-. cbn.
           repeat split; auto; discriminate.
      * intros H. injection H as <- <-. cbn.
        repeat split; auto; discriminate.
    + apply (Hfor None). right. destruct id; [reflexivity | discriminate].
  - apply (Hfor None). now left.
Qed.

End ReportViews.

Lemma generate_view_outcomes_witness :
  let answer :=
    EnergyReportViewSet.generate Sample.configured Sample.today
      Sample.now_text Sample.isoformat Sample.smtp_ok Sample.twilio_ok
      Sample.db Fixtures.device_report_request in
  exists r,
    Http.report answer.1 = Some r
    /\ DB.energy_reports answer.2 = (DB.energy_reports Sample.db ++ [r])%list.
Proof.
  cbv zeta.
  destruct (proj2 (proj2 (proj2
             (generate_view_outcomes Sample.configured Sample.today
                Sample.now_text Sample.isoformat Sample.smtp_ok
                Sample.twilio_ok Sample.db Fixtures.device_report_request
                _ _ (surjective_pairing _))))
             ltac:(reflexivity)) as (r & Hr & _ & Hrows & _).
  exists r. split; [exact Hr | exact Hrows].
Defined.

(** [ClientViewSet.generate_report]: 404 for an unknown client; for a known
    one the answer is 201 with a report over the default range of the type
    (WEEKLY when none is given) exactly when the client has a device, and 400
    with nothing stored when it has none. *)
Theorem client_report_view today db pk report_type resp db' :
  ClientViewSet.generate_report today db pk report_type = (resp, db') ->
  match Http.get_client db pk with
  | None => Http.status_code resp = 404 /\ db' = db
  | Some client =>
    match Client.devices client with
    | [] => Http.status_code resp = 400 /\ Http.report resp = None /\ db' = db
    | _ =>
      exists r,
        resp = Http.created r
        /\ db' = DB.add_energy_report db r
        /\ EnergyReport.client r = client
        /\ EnergyReport.device r = None
        /\ EnergyReport.report_type r = default "WEEKLY" report_type
        /\ (EnergyReport.start_date r, EnergyReport.end_date r)
           = ReportService._get_date_range today
               (default "WEEKLY" report_type)
    end
  end.
Proof.
  unfold ClientViewSet.generate_report.
  destruct (Http.get_client db pk) as [client|].
  2:{ intros H. injection H as <- <-. auto. }
  destruct (Client.devices client) as [|d ds] eqn:Hdev.
  - rewrite (generate_report_none today db client _ None None None Hdev).
    intros H. injection H as <- <-. auto.
  - destruct (generate_report_some today db client
                (default "WEEKLY" report_type) None None None)
      as (r & Hr & Hrange & Hrt & Hc & Hd).
    { cbn. rewrite Hdev. simpl. lia. }
    rewrite Hr. intros H. injection H as <- <-. exists r.
    repeat split; auto.
Qed.

Lemma client_report_view_witness :
  Http.status_code
    (ClientViewSet.generate_report Sample.today Sample.db 2 None).1 = 400.
Proof.
  exact (proj1 (client_report_view Sample.today Sample.db 2 None _ _
                  (surjective_pairing _))).
Defined.

(** ** Cost of a consumption (views.py, [calculate_cost]) *)

(** [calculate_cost] prices a consumption with the active tariff of the given
    id, as consumption times rate; a tariff that is missing or inactive is not
    found, whatever the consumption; with a tariff found, a request without a
    number fails on the multiplication. *)
Theorem calculate_cost_answers tariffs consumption_kwh tariff_id :
  match DailyConsumptionViewSet.calculate_cost tariffs consumption_kwh
          tariff_id with
  | DailyConsumptionViewSet.Cost kwh rate cost currency =>
    consumption_kwh = Some kwh
    /\ cost = (kwh * rate)%Q
    /\ exists t,
         In t tariffs /\ tariff_id = Some (EnergyTariff.pk t)
         /\ EnergyTariff.is_active t = true
         /\ rate = EnergyTariff.rate_per_kwh t
         /\ currency = EnergyTariff.currency t
  | DailyConsumptionViewSet.TariffNotFound =>
    forall t, In t tariffs -> tariff_id = Some (EnergyTariff.pk t) ->
              EnergyTariff.is_active t = false
  | DailyConsumptionViewSet.TypeError =>
    consumption_kwh = None
    /\ exists t,
         In t tariffs /\ tariff_id = Some (EnergyTariff.pk t)
         /\ EnergyTariff.is_active t = true
  end.
Proof.
  unfold DailyConsumptionViewSet.calculate_cost.
  destruct tariff_id as [id|]; cbn [mbind option_bind].
  2:{ intros t _ H. discriminate H. }
  destruct (find _ tariffs) as [t|] eqn:Hfind.
  - apply find_some in Hfind. destruct Hfind as [Hin Hok].
    apply andb_true_iff in Hok. destruct Hok as [Hpk Hact].
    apply Z.eqb_eq in Hpk. subst id.
    destruct consumption_kwh as [kwh|].
    + split; [reflexivity|]. split; [reflexivity|]. exists t. auto.
    + split; [reflexivity|]. exists t. auto.
  - intros t Hin Hid. injection Hid as ->.
    pose proof (find_none _ _ Hfind t Hin) as Hno. cbn in Hno.
    rewrite Z.eqb_refl in Hno. exact Hno.
Qed.

Lemma calculate_cost_answers_witness :
  exists t,
    In t Fixtures.tariffs /\ EnergyTariff.is_active t = true
    /\ (65 : Q) = EnergyTariff.rate_per_kwh t.
Proof.
  destruct (calculate_cost_answers Fixtures.tariffs (Some (452 # 10))
              (Some 1)) as (_ & _ & t & Hin & _ & Hact & Hrate & _).
  exists t. auto.
Defined.

(** ** Operator actions on alerts (views.py and admin.py) *)

Section OperatorActions.

Lemma save_alert_rows db a :
  DB.alerts (DB.save_alert db a)
  = map (fun b => if Alert.pk b =? Alert.pk a then a else b) (DB.alerts db).
Proof. reflexivity. Qed.

(** [acknowledge] and [resolve] answer 404 for an unknown alert and change
    nothing then; on a stored alert they rewrite the status (and, for
    [resolve], the resolution time) and nothing else: [acknowledge] keeps the
    resolution time that the alert had, the rows of the other alerts and the
    number of rows are as before, and no message is sent. *)
Theorem acknowledge_and_resolve_touch_one_alert now db pk :
  match DB.get_alert db pk with
  | None =>
    AlertViewSet.acknowledge db pk = (AlertViewSet.Response 404 "Not found.", db)
    /\ AlertViewSet.resolve now db pk
       = (AlertViewSet.Response 404 "Not found.", db)
  | Some alert =>
    let acked := snd (AlertViewSet.acknowledge db pk) in
    let resolved := snd (AlertViewSet.resolve now db pk) in
    DB.get_alert acked pk
    = Some (Alert.set_status alert "ACKNOWLEDGED" (Alert.resolved_at alert))
    /\ DB.get_alert resolved pk
       = Some (Alert.set_status alert "RESOLVED" (Some now))
    /\ (forall b, In b (DB.alerts db) -> Alert.pk b <> pk ->
                  In b (DB.alerts acked) /\ In b (DB.alerts resolved))
    /\ length (DB.alerts acked) = length (DB.alerts db)
    /\ length (DB.alerts resolved) = length (DB.alerts db)
    /\ DB.whatsapp_messages acked = DB.whatsapp_messages db
    /\ DB.whatsapp_messages resolved = DB.whatsapp_messages db
  end.
Proof.
  destruct (DB.get_alert db pk) as [alert|] eqn:Hget.
  - cbv zeta. unfold AlertViewSet.acknowledge, AlertViewSet.resolve.
    rewrite Hget. cbn [snd].
    pose proof (get_alert_pk _ _ _ Hget) as Hpk.
    split; [now apply (get_alert_save_alert db pk alert)|].
    split; [now apply (get_alert_save_alert db pk alert)|].
    split.
    { intros b Hin Hne. rewrite !save_alert_rows. split;
        apply in_map_iff; exists b; (split; [|exact Hin]); cbn;
        rewrite Hpk; destruct (Alert.pk b =? pk) eqn:E;
        try reflexivity; apply Z.eqb_eq in E; contradiction. }
    rewrite !save_alert_rows, !length_map. repeat split; reflexivity.
  - unfold AlertViewSet.acknowledge, AlertViewSet.resolve. rewrite Hget.
    split; reflexivity.
Qed.

Lemma unique_row (l : list Alert.t) a b :
  NoDup (map Alert.pk l) -> In a l -> In b l -> Alert.pk a = Alert.pk b ->
  a = b.
Proof.
  induction l as [|x l IH]; intros Hnd Ha Hb Hpk; [contradiction|].
  cbn in Hnd. apply NoDup_cons in Hnd. destruct Hnd as [Hx Hnd].
  rewrite list_elem_of_In in Hx.
  destruct Ha as [-> | Ha], Hb as [-> | Hb]; auto.
  - exfalso. apply Hx. rewrite Hpk. now apply in_map.
  - exfalso. apply Hx. rewrite <- Hpk. now apply in_map.
Qed.

Lemma selected_one pk a : AlertAdmin.selected [pk] a = (Alert.pk a =? pk).
Proof. unfold AlertAdmin.selected. cbn. apply orb_false_r. Qed.

(** The admin actions do to a selected alert what the API actions do: with
    primary keys unique, marking the alert [pk] acknowledged (resolved) in the
    admin leaves the same table of alerts as [acknowledge] ([resolve]) on
    [pk]; without any guard on the current status in either place. *)
Theorem admin_marks_as_the_view_does now db pk :
  NoDup (map Alert.pk (DB.alerts db)) ->
  DB.alerts (AlertAdmin.mark_acknowledged db [pk])
  = DB.alerts (snd (AlertViewSet.acknowledge db pk))
  /\ DB.alerts (AlertAdmin.mark_resolved now db [pk])
     = DB.alerts (snd (AlertViewSet.resolve now db pk)).
Proof.
  intros Hnd.
  unfold AlertAdmin.mark_acknowledged, AlertAdmin.mark_resolved,
    AlertViewSet.acknowledge, AlertViewSet.resolve.
  cbn [DB.alerts DB.set_alerts].
  destruct (DB.get_alert db pk) as [alert|] eqn:Hget; cbn [snd].
  - pose proof (get_alert_pk _ _ _ Hget) as Hpk.
    unfold DB.get_alert in Hget. apply find_some in Hget.
    destruct Hget as [Hin _].
    rewrite !save_alert_rows. split; apply map_ext_in; intros b Hb;
      rewrite selected_one; cbn; rewrite Hpk;
      destruct (Alert.pk b =? pk) eqn:E; try reflexivity;
      apply Z.eqb_eq in E;
      rewrite (unique_row (DB.alerts db) b alert Hnd Hb Hin) by congruence;
      reflexivity.
  - unfold DB.get_alert in Hget.
    split; rewrite <- (map_id (DB.alerts db)) at 2; apply map_ext_in;
      intros b Hb; rewrite selected_one;
      pose proof (find_none _ _ Hget b Hb) as Hno; cbn in Hno;
      now rewrite Hno.
Qed.

End OperatorActions.

Lemma admin_marks_as_the_view_does_witness :
  DB.alerts (AlertAdmin.mark_acknowledged Sample.db [2])
  = DB.alerts (snd (AlertViewSet.acknowledge Sample.db 2)).
Proof.
  refine (proj1 (admin_marks_as_the_view_does Sample.today Sample.db 2 _)).
  cbn. apply NoDup_cons_2;
    [rewrite list_elem_of_In; intros [H | []]; discriminate H|].
  apply NoDup_cons_2; [rewrite list_elem_of_In; intros []|].
  apply NoDup_nil_2.
Defined.

(** ** The admin actions that send (admin.py) *)

Section AdminResend.
Variable settings : Settings.t.
Variable now : Z.
Variable strftime : Z -> string.
Variable messages_create : Twilio.messages_create.

Lemma resend_loop_count queryset : forall count db,
  fst (fold_left
         (fun '(count, db) alert =>
            let '(_, db) :=
              WhatsAppService.send_alert_message
                (WhatsAppService.__init__ settings) now strftime
                messages_create db alert None in
            (count + 1, db))
         queryset (count, db))
  = count + Py.len queryset.
Proof.
  induction queryset as [|a q IH]; intros count db.
  - cbn. unfold Py.len. cbn. lia.
  - cbn [fold_left].
    destruct (WhatsAppService.send_alert_message _ _ _ _ db a None)
      as [r db1].
    rewrite IH. unfold Py.len. cbn [length]. lia.
Qed.

Lemma resend_loop_mock queryset :
  WhatsAppService.enabled (WhatsAppService.__init__ settings) = false ->
  forall count db,
  exists mocks,
    let db' :=
      snd (fold_left
             (fun '(count, db) alert =>
                let '(_, db) :=
                  WhatsAppService.send_alert_message
                    (WhatsAppService.__init__ settings) now strftime
                    messages_create db alert None in
                (count + 1, db))
             queryset (count, db)) in
    DB.whatsapp_messages db' = (DB.whatsapp_messages db ++ mocks)%list
    /\ map WhatsAppMessage.alert mocks
       = map (fun a => Some (Alert.pk a)) queryset
    /\ Forall (fun m => WhatsAppMessage.status m = "SENT"
                       /\ WhatsAppMessage.message_type m = "alert"
                       /\ WhatsAppMessage.recipient m = "whatsapp:+1234567890")
              mocks
    /\ DB.alerts db' = DB.alerts db.
Proof.
  intros Hoff. induction queryset as [|a q IH]; intros count db.
  - exists []. cbn. rewrite app_nil_r. repeat split. constructor.
  - cbn [fold_left].
    destruct (WhatsAppService.send_alert_message _ _ _ _ db a None)
      as [r db1] eqn:E.
    unfold WhatsAppService.send_alert_message in E. rewrite Hoff in E.
    cbn [negb] in E. unfold WhatsAppService._create_mock_message in E.
    injection E as _ <-.
    match goal with
    | |- context [fold_left _ q (_, DB.add_whatsapp_message db ?m)] =>
      destruct (IH (count + 1) (DB.add_whatsapp_message db m))
        as (mocks & Hrows & Hlinks & Hall & Halerts);
      exists (m :: mocks)
    end.
    cbv zeta in Hrows, Halerts |- *.
    split; [rewrite Hrows; cbn; now rewrite <- app_assoc|].
    split; [cbn [map]; rewrite Hlinks; reflexivity|].
    split; [|exact Halerts].
    constructor; [cbn; auto | exact Hall].
Qed.

Lemma resend_loop_nobody queryset :
  WhatsAppService.enabled (WhatsAppService.__init__ settings) = true ->
  forall count db,
    (forall a, In a queryset ->
               WhatsAppService._get_alert_recipients db a None = []) ->
    snd (fold_left
           (fun '(count, db) alert =>
              let '(_, db) :=
                WhatsAppService.send_alert_message
                  (WhatsAppService.__init__ settings) now strftime
                  messages_create db alert None in
              (count + 1, db))
           queryset (count, db))
    = db.
Proof.
  intros Hon. induction queryset as [|a q IH]; intros count db Hnone.
  - reflexivity.
  - cbn [fold_left].
    destruct (WhatsAppService.send_alert_message _ _ _ _ db a None)
      as [r db1] eqn:E.
    unfold WhatsAppService.send_alert_message in E. rewrite Hon in E.
    cbn [negb] in E. rewrite (Hnone a) in E by now left.
    injection E as _ <-.
    apply IH. intros b Hb. apply Hnone. now right.
Qed.

(** [resend_whatsapp] reports the number of the selected alerts whatever their
    severity and whatever came of it.  Without credentials every selected
    alert, also one of severity INFO, gets one mock message marked SENT, in
    the order of the selection, and no alert is touched; with credentials and
    nobody to notify nothing is stored at all, and the number reported is the
    same. *)
Theorem resend_reports_every_selected_alert db queryset :
  let done :=
    AlertAdmin.resend_whatsapp settings now strftime messages_create db
      queryset in
  let on := WhatsAppService.enabled (WhatsAppService.__init__ settings) in
  fst done = Py.len queryset
  /\ (on = false ->
      exists mocks,
        DB.whatsapp_messages (snd done)
        = (DB.whatsapp_messages db ++ mocks)%list
        /\ map WhatsAppMessage.alert mocks
           = map (fun a => Some (Alert.pk a)) queryset
        /\ Forall (fun m => WhatsAppMessage.status m = "SENT"
                           /\ WhatsAppMessage.message_type m = "alert"
                           /\ WhatsAppMessage.recipient m
                              = "whatsapp:+1234567890")
                  mocks
        /\ DB.alerts (snd done) = DB.alerts db)
  /\ (on = true ->
      (forall a, In a queryset ->
                 WhatsAppService._get_alert_recipients db a None = []) ->
      snd done = db).
Proof.
  cbv zeta. unfold AlertAdmin.resend_whatsapp.
  split; [apply (resend_loop_count queryset 0 db)|].
  split.
  - intros Hoff. apply (resend_loop_mock queryset Hoff 0 db).
  - intros Hon Hnone. now apply (resend_loop_nobody queryset Hon 0 db).
Qed.

End AdminResend.

Lemma resend_reports_every_selected_alert_witness :
  let done :=
    AlertAdmin.resend_whatsapp Settings.unconfigured Sample.today
      Sample.strftime Sample.twilio_ok Sample.db
      [Fixtures.info_alert; Fixtures.critical_alert] in
  exists mocks,
    DB.whatsapp_messages (snd done)
    = (DB.whatsapp_messages Sample.db ++ mocks)%list
    /\ map WhatsAppMessage.alert mocks = [Some 2; Some 1].
Proof.
  cbv zeta.
  destruct (proj1 (proj2 (resend_reports_every_selected_alert
                            Settings.unconfigured Sample.today Sample.strftime
                            Sample.twilio_ok Sample.db
                            [Fixtures.info_alert; Fixtures.critical_alert]))
              eq_refl) as (mocks & H1 & H2 & _).
  exists mocks. split; [exact H1 | exact H2].
Defined.

Section AdminSend.
Variable settings : Settings.t.
Variable now : Z.
Variable now_text : string.
Variable isoformat : Z -> string.
Variable smtp_send : Smtp.send.
Variable messages_create : Twilio.messages_create.

(** One report sent from the admin: over WhatsApp only. *)
Lemma send_report_whatsapp_only db report results report' db' :
  ReportService.send_report settings now now_text isoformat smtp_send
    messages_create db report false true = (results, report', db') ->
  length (DB.energy_reports db') = length (DB.energy_reports db)
  /\ (if WhatsAppService.enabled (WhatsAppService.__init__ settings)
         && Client.receive_whatsapp_alerts (EnergyReport.client report)
      then exists m,
          DB.whatsapp_messages db' = (DB.whatsapp_messages db ++ [m])%list
          /\ WhatsAppMessage.message_type m = "report"
          /\ (WhatsAppMessage.status m = "SENT"
              \/ WhatsAppMessage.status m = "FAILED")
      else db' = db).
Proof.
  unfold ReportService.send_report. cbn [andb].
  destruct (Client.receive_whatsapp_alerts (EnergyReport.client report))
    eqn:Hpref; rewrite ?andb_false_r.
  2:{ intros H. injection H as _ _ <-. split; reflexivity. }
  rewrite andb_true_r.
  destruct (WhatsAppService.send_report_summary _ _ _ _ _ _) as [wr db1]
    eqn:Hwa.
  apply send_report_summary_cases in Hwa.
  destruct Hwa as [(-> & -> & [Hoff | Hno]) | (m & -> & Hon & Hsend)].
  - intros H. injection H as _ _ <-. rewrite Hoff. split; reflexivity.
  - congruence.
  - intros H. injection H as _ _ <-. rewrite Hon.
    pose proof (send_message_keeps_reports _ _ _ _ _ _ _ _ _ _ Hsend) as Hrep.
    apply send_message_outcome in Hsend.
    destruct Hsend as (Hrows & Htype & Hstatus).
    split.
    + unfold DB.save_energy_report. cbn [DB.energy_reports
        DB.set_energy_reports]. now rewrite length_map, Hrep.
    + exists m. rewrite save_energy_report_messages.
      split; [exact Hrows|]. split; [exact Htype|]. tauto.
Qed.

Lemma send_via_whatsapp_loop queryset : forall count db,
  let done :=
    fold_left
      (fun '(count, db) report =>
         let '(_, _, db) :=
           ReportService.send_report settings now now_text isoformat
             smtp_send messages_create db report false true in
         (count + 1, db))
      queryset (count, db) in
  fst done = count + Py.len queryset
  /\ length (DB.energy_reports (snd done)) = length (DB.energy_reports db)
  /\ (if WhatsAppService.enabled (WhatsAppService.__init__ settings)
      then exists new,
          DB.whatsapp_messages (snd done)
          = (DB.whatsapp_messages db ++ new)%list
          /\ length new
             = length (filter
                         (fun r => Client.receive_whatsapp_alerts
                                     (EnergyReport.client r))
                         queryset)
          /\ Forall (fun m => WhatsAppMessage.message_type m = "report"
                             /\ (WhatsAppMessage.status m = "SENT"
                                 \/ WhatsAppMessage.status m = "FAILED"))
                    new
      else snd done = db).
Proof.
  induction queryset as [|r q IH]; intros count db; cbv zeta.
  - cbn [fold_left fst snd]. unfold Py.len. cbn [length].
    split; [lia|]. split; [reflexivity|].
    destruct (WhatsAppService.enabled _); [|reflexivity].
    exists []. rewrite app_nil_r. repeat split. constructor.
  - cbn [fold_left].
    destruct (ReportService.send_report _ _ _ _ _ _ db r false true)
      as [[results r'] db1] eqn:Hsend.
    apply send_report_whatsapp_only in Hsend.
    destruct Hsend as (Hlen & Hmsg).
    specialize (IH (count + 1) db1). cbv zeta in IH.
    destruct IH as (Hcount & Hreports & Hrows).
    split; [rewrite Hcount; unfold Py.len; cbn [length]; lia|].
    split; [now rewrite Hreports|].
    destruct (WhatsAppService.enabled (WhatsAppService.__init__ settings));
      cbn [andb] in Hmsg.
    + destruct Hrows as (new & Hnew & Hnum & Hall).
      rewrite filter_cons.
      destruct (Client.receive_whatsapp_alerts (EnergyReport.client r)).
      * destruct Hmsg as (m & Hm & Htype & Hstatus).
        exists (m :: new). rewrite Hnew, Hm, <- app_assoc.
        split; [reflexivity|].
        rewrite decide_True by exact I.
        split; [cbn [length]; now rewrite Hnum|].
        constructor; auto.
      * subst db1. exists new. rewrite decide_False by (intros []).
        auto.
    + now rewrite Hrows.
Qed.

(** [send_via_whatsapp] reports the number of the selected reports, sent or
    not.  Without credentials nothing is sent and nothing is stored; with
    credentials one message of type [report] is stored for each selected
    report whose client accepts WhatsApp messages, and none for the others.
    No report is added or removed. *)
Theorem send_via_whatsapp_reports_every_selected_report db queryset :
  let done :=
    EnergyReportAdmin.send_via_whatsapp settings now now_text isoformat
      smtp_send messages_create db queryset in
  fst done = Py.len queryset
  /\ length (DB.energy_reports (snd done)) = length (DB.energy_reports db)
  /\ (if WhatsAppService.enabled (WhatsAppService.__init__ settings)
      then exists new,
          DB.whatsapp_messages (snd done)
          = (DB.whatsapp_messages db ++ new)%list
          /\ length new
             = length (filter
                         (fun r => Client.receive_whatsapp_alerts
                                     (EnergyReport.client r))
                         queryset)
          /\ Forall (fun m => WhatsAppMessage.message_type m = "report"
                             /\ (WhatsAppMessage.status m = "SENT"
                                 \/ WhatsAppMessage.status m = "FAILED"))
                    new
      else snd done = db).
Proof.
  unfold EnergyReportAdmin.send_via_whatsapp.
  apply (send_via_whatsapp_loop queryset 0 db).
Qed.

End AdminSend.

(** ** A new client and its first report (serializers.py, views.py) *)

Section NewClient.
Variable today : Z.

Lemma mem_In s l : AlertViewSet.mem s l = true <-> In s l.
Proof.
  unfold AlertViewSet.mem. rewrite existsb_exists. split.
  - intros (x & Hin & Heq). apply String.eqb_eq in Heq. now subst.
  - intros Hin. exists s. split; [exact Hin | apply String.eqb_refl].
Qed.

Lemma find_new_row {A} (f : A -> bool) (l : list A) (x : A) :
  (forall y, In y l -> f y = false) -> f x = true ->
  find f (l ++ [x]) = Some x.
Proof.
  induction l as [|y l IH]; intros Hold Hnew; cbn.
  - now rewrite Hnew.
  - rewrite (Hold y) by now left. apply IH; [|exact Hnew].
    intros z Hz. apply Hold. now right.
Qed.

Lemma created_client_devices db data d :
  In d (Client.devices (fst (ClientSerializer.create db data)))
  <-> In d (DB.devices db)
      /\ In (Device.device_id d)
            (default [] (ClientSerializer.device_ids data)).
Proof.
  unfold ClientSerializer.create. cbn [fst Client.devices].
  destruct (default [] (ClientSerializer.device_ids data)) as [|i ids] eqn:E.
  - cbn. tauto.
  - rewrite In_filter_bool, mem_In. reflexivity.
Qed.

(** [create] stores the client under a key of its own and attaches to it the
    stored devices whose [device_id] is listed, ignoring the identifiers that
    no device has; no device is created.  A report asked for this client right
    away is made (201) when at least one listed identifier is that of a stored
    device, and is refused (400) otherwise. *)
Theorem new_client_devices_and_first_report db data report_type :
  let made := ClientSerializer.create db data in
  let client := fst made in
  let ids := default [] (ClientSerializer.device_ids data) in
  let answer :=
    fst (ClientViewSet.generate_report today (snd made) (Client.pk client)
           report_type) in
  (forall d, In d (Client.devices client)
             <-> In d (DB.devices db) /\ In (Device.device_id d) ids)
  /\ (forall c, In c (DB.clients db) -> Client.pk c <> Client.pk client)
  /\ DB.clients (snd made) = (DB.clients db ++ [client])%list
  /\ DB.devices (snd made) = DB.devices db
  /\ (Http.status_code answer = 201
      <-> exists d, In d (DB.devices db) /\ In (Device.device_id d) ids)
  /\ (Http.status_code answer <> 201 ->
      answer = Http.failed 400 "Failed to generate report").
Proof.
  cbv zeta.
  assert (Hfresh : forall c, In c (DB.clients db) ->
            Client.pk c
            <> Client.pk (fst (ClientSerializer.create db data))).
  { intros c Hc. cbn. apply next_pk_fresh. now apply in_map. }
  split; [intros d; apply created_client_devices|].
  split; [exact Hfresh|].
  split; [reflexivity|]. split; [reflexivity|].
  unfold ClientViewSet.generate_report, Http.get_client.
  change (DB.clients (snd (ClientSerializer.create db data)))
    with (DB.clients db ++ [fst (ClientSerializer.create db data)])%list.
  rewrite find_new_row;
    [| intros c Hc; apply Z.eqb_neq; now apply Hfresh | apply Z.eqb_refl].
  pose proof (created_client_devices db data) as Hdev.
  set (client := fst (ClientSerializer.create db data)) in *.
  set (db1 := snd (ClientSerializer.create db data)).
  assert (Hcases : Client.devices client = []
                   \/ exists d0 rest, Client.devices client = d0 :: rest)
    by (destruct (Client.devices client); eauto).
  destruct Hcases as [Hlist | (d0 & rest & Hlist)]; rewrite Hlist in Hdev.
  - rewrite generate_report_none by exact Hlist. cbn [fst].
    split; [|reflexivity]. split; [discriminate|].
    intros (d & Hd). apply Hdev in Hd. destruct Hd.
  - destruct (generate_report_some today db1 client
                (default "WEEKLY" report_type) None None None)
      as (r & Hgen & _).
    { unfold ReportService.device_set. rewrite Hlist. cbn. lia. }
    rewrite Hgen. cbn [fst Http.created Http.status_code].
    split; [|intros H; now elim H]. split; [|reflexivity].
    intros _. exists d0. apply Hdev. now left.
Qed.

End NewClient.

Lemma new_client_devices_and_first_report_witness :
  let made := ClientSerializer.create Sample.db Fixtures.new_client in
  Http.status_code
    (fst (ClientViewSet.generate_report Sample.today (snd made)
            (Client.pk (fst made)) None))
  = 201.
Proof.
  cbv zeta.
  apply (proj2 (proj1 (proj2 (proj2 (proj2 (proj2
           (new_client_devices_and_first_report Sample.today Sample.db
              Fixtures.new_client None))))))).
  exists Sample.inverter_b. split; cbn; auto.
Defined.

(** ** Creating an alert (views.py) *)

Section AlertCreation.
Variable settings : Settings.t.
Variable now : Z.
Variable strftime : Z -> string.
Variable messages_create : Twilio.messages_create.

Lemma get_or_create_device_row db id name d db' :
  AlertViewSet.get_or_create_device db id name = (d, db') ->
  In d (DB.devices db') /\ Device.device_id d = id
  /\ DB.clients db' = DB.clients db
  /\ match Http.get_device_by_id db id with
     | Some found => d = found /\ db' = db
     | None =>
       DB.devices db' = (DB.devices db ++ [d])%list
       /\ Device.device_name d = name
       /\ Device.device_type d = "inverter"
       /\ Device.is_active d = true
     end.
Proof.
  unfold AlertViewSet.get_or_create_device, Http.get_device_by_id.
  destruct (find _ (DB.devices db)) as [found|] eqn:Hfind;
    intros H; injection H as <- <-.
  - apply find_some in Hfind. destruct Hfind as [Hin Heq].
    apply String.eqb_eq in Heq. auto.
  - cbn. split; [apply in_or_app; right; now left|]. auto 10.
Qed.

Lemma mark_sent_twice (a : Alert.t) (l : list Alert.t) :
  map (fun b => if Alert.pk b =? Alert.pk a
                then Alert.set_whatsapp_sent a now else b)
      (map (fun b => if Alert.pk b =? Alert.pk a
                     then Alert.set_whatsapp_sent a now else b) l)
  = map (fun b => if Alert.pk b =? Alert.pk a
                  then Alert.set_whatsapp_sent a now else b) l.
Proof.
  rewrite map_map. apply map_ext. intros b.
  destruct (Alert.pk b =? Alert.pk a) eqn:E; [|now rewrite E].
  cbn. now rewrite Z.eqb_refl.
Qed.

(** What one send does to the tables of devices and of alerts. *)
Lemma send_message_alert_rows svc db to message a client mt m db' :
  WhatsAppService._send_message svc now messages_create db to message
    (Some a) client mt = (m, db') ->
  DB.devices db' = DB.devices db
  /\ (DB.alerts db' = DB.alerts db
      \/ DB.alerts db'
         = map (fun b => if Alert.pk b =? Alert.pk a
                         then Alert.set_whatsapp_sent a now else b)
               (DB.alerts db)).
Proof.
  unfold WhatsAppService._send_message.
  destruct (messages_create _ _ _); intros H; injection H as _ <-;
    (split; [reflexivity|]); [right | left]; reflexivity.
Qed.

Lemma send_loop_alert_rows svc recipients message a :
  forall acc db results db',
    fold_left
      (fun '(results, db) '(phone, c) =>
         let '(result, db) :=
           WhatsAppService._send_message svc now messages_create db phone
             message (Some a) (Some c) "alert" in
         ((results ++ [result])%list, db))
      recipients (acc, db) = (results, db') ->
    DB.devices db' = DB.devices db
    /\ (DB.alerts db' = DB.alerts db
        \/ DB.alerts db'
           = map (fun b => if Alert.pk b =? Alert.pk a
                           then Alert.set_whatsapp_sent a now else b)
                 (DB.alerts db)).
Proof.
  induction recipients as [|[phone c] rest IH]; intros acc db results db' H.
  - cbn in H. injection H as _ <-. auto.
  - cbn [fold_left] in H.
    destruct (WhatsAppService._send_message svc now messages_create db phone
                message (Some a) (Some c) "alert") as [m db1] eqn:Hsend.
    apply send_message_alert_rows in Hsend. destruct Hsend as [Hdev Hrows].
    apply IH in H. destruct H as [Hdev' Hrows'].
    split; [congruence|].
    destruct Hrows as [Hrows | Hrows], Hrows' as [Hrows' | Hrows'];
      rewrite Hrows', Hrows; rewrite ?mark_sent_twice; auto.
Qed.

Lemma send_alert_message_alert_rows svc db a client r db' :
  WhatsAppService.send_alert_message svc now strftime messages_create db a
    client = (r, db') ->
  DB.devices db' = DB.devices db
  /\ (DB.alerts db' = DB.alerts db
      \/ (WhatsAppService.enabled svc = true
          /\ DB.alerts db'
             = map (fun b => if Alert.pk b =? Alert.pk a
                             then Alert.set_whatsapp_sent a now else b)
                   (DB.alerts db))).
Proof.
  unfold WhatsAppService.send_alert_message.
  destruct (WhatsAppService.enabled svc); cbn [negb].
  2:{ intros H. injection H as _ <-. auto. }
  destruct (WhatsAppService._get_alert_recipients db a client) as [|x rest].
  { intros H. injection H as _ <-. auto. }
  destruct (fold_left _ (x :: rest) ([], db)) as [results db1] eqn:Hloop.
  intros H. injection H as _ <-.
  apply send_loop_alert_rows in Hloop. destruct Hloop as [Hdev [Hr | Hr]];
    auto.
Qed.



(** A request that fails validation is answered 400 and stores neither an
    alert nor a message; but its device was looked up first, so that an
    unknown [device_id] (or the identifier [default] when none is given) has
    already been registered as a new active inverter.  A known identifier
    changes nothing. *)
Theorem invalid_alert_still_registers_device is_valid db data :
  is_valid data = None ->
  let id := default "default" (AlertViewSet.device_id data) in
  let done :=
    AlertViewSet.create settings now strftime messages_create is_valid db
      data in
  AlertViewSet.status_code (AlertViewSet.created_response (fst done)) = 400
  /\ AlertViewSet.created_alert (fst done) = None
  /\ DB.alerts (snd done) = DB.alerts db
  /\ DB.whatsapp_messages (snd done) = DB.whatsapp_messages db
  /\ match Http.get_device_by_id db id with
     | Some _ => snd done = db
     | None =>
       exists d,
         DB.devices (snd done) = (DB.devices db ++ [d])%list
         /\ Device.device_id d = id
         /\ Device.device_name d
            = default "Unknown Device" (AlertViewSet.device_name data)
         /\ Device.device_type d = "inverter"
         /\ Device.is_active d = true
     end.
Proof.
  intros Hbad. cbv zeta. unfold AlertViewSet.create.
  destruct (AlertViewSet.get_or_create_device _ _ _) as [device db0] eqn:Hdev.
  rewrite Hbad. cbn [fst snd AlertViewSet.created_response
                       AlertViewSet.created_alert AlertViewSet.status_code].
  pose proof (get_or_create_device_tables _ _ _ _ _ Hdev) as [Ha Hm].
  apply get_or_create_device_row in Hdev.
  destruct Hdev as (_ & Hid & _ & Hcase).
  repeat (split; [reflexivity || assumption|]).
  destruct (Http.get_device_by_id db _); [tauto|].
  exists device. tauto.
Qed.

(** A request that passes validation is answered 201 and adds exactly one
    alert, at the end of the table and under a key of its own.  The alert
    carries the validated fields, INFO and ACTIVE standing in for a severity
    and a status that were left out, and the identifier as the request gave
    it; it points to a stored device with that [device_id]; and it is stored
    either as created or marked as sent over WhatsApp at the time of the
    request, the latter only for a WARNING or CRITICAL alert with the WhatsApp
    service configured. *)
Theorem valid_alert_is_stored_with_its_device is_valid db data valid :
  is_valid data = Some valid ->
  let done :=
    AlertViewSet.create settings now strftime messages_create is_valid db
      data in
  exists alert device,
    AlertViewSet.created_response (fst done)
    = AlertViewSet.Response 201 "created"
    /\ AlertViewSet.created_alert (fst done) = Some alert
    /\ (forall a, In a (DB.alerts db) -> Alert.pk a <> Alert.pk alert)
    /\ Alert.device alert = Some (Device.pk device)
    /\ In device (DB.devices (snd done))
    /\ Device.device_id device = Alert.device_identifier alert
    /\ Alert.device_identifier alert
       = default "default" (AlertViewSet.device_id data)
    /\ Alert.alert_type alert = AlertViewSet.valid_alert_type valid
    /\ Alert.message alert = AlertViewSet.valid_message valid
    /\ Alert.value alert = AlertViewSet.valid_value valid
    /\ Alert.resolved_at alert = AlertViewSet.valid_resolved_at valid
    /\ Alert.severity alert
       = default "INFO" (AlertViewSet.valid_severity valid)
    /\ Alert.status alert
       = default "ACTIVE" (AlertViewSet.valid_status valid)
    /\ Alert.timestamp_date alert = now
    /\ Alert.whatsapp_sent alert = false
    /\ (DB.alerts (snd done) = (DB.alerts db ++ [alert])%list
        \/ (DB.alerts (snd done)
            = (DB.alerts db ++ [Alert.set_whatsapp_sent alert now])%list
            /\ (Alert.severity alert = "WARNING"
                \/ Alert.severity alert = "CRITICAL")
            /\ WhatsAppService.enabled (WhatsAppService.__init__ settings)
               = true)).
Proof.
  intros Hok. cbv zeta. unfold AlertViewSet.create.
  destruct (AlertViewSet.get_or_create_device _ _ _) as [device db0] eqn:Hdev.
  rewrite Hok.
  pose proof (get_or_create_device_tables _ _ _ _ _ Hdev) as [Ha _].
  apply get_or_create_device_row in Hdev.
  destruct Hdev as (Hin & Hid & _ & _).
  match goal with
  | |- context [AlertViewSet._send_whatsapp_alert _ _ _ _ _ ?a] =>
    set (alert := a)
  end.
  assert (Hfresh : forall a, In a (DB.alerts db) ->
                             Alert.pk a <> Alert.pk alert).
  { intros a Hina. unfold alert. cbn [Alert.pk]. rewrite Ha.
    apply next_pk_fresh. now apply in_map. }
  exists alert, device. cbn [fst snd AlertViewSet.created_response
                               AlertViewSet.created_alert].
  set (db2 := AlertViewSet._send_whatsapp_alert settings now strftime
                messages_create (DB.add_alert db0 alert) alert).
  assert (Hend : DB.devices db2 = DB.devices db0
                 /\ (DB.alerts db2 = (DB.alerts db ++ [alert])%list
                     \/ DB.alerts db2
                        = (DB.alerts db
                           ++ [Alert.set_whatsapp_sent alert now])%list
                        /\ (Alert.severity alert = "WARNING"
                            \/ Alert.severity alert = "CRITICAL")
                        /\ WhatsAppService.enabled
                             (WhatsAppService.__init__ settings) = true)).
  { unfold db2, AlertViewSet._send_whatsapp_alert.
    destruct (AlertViewSet.mem (Alert.severity alert) ["WARNING"; "CRITICAL"])
      eqn:Hsev.
    - destruct (WhatsAppService.send_alert_message _ _ _ _ _ _ _)
        as [r db3] eqn:Hmsg. cbn [snd].
      apply send_alert_message_alert_rows in Hmsg.
      destruct Hmsg as [Hd [Hr | [Hon Hr]]].
      + split; [exact Hd|]. left. rewrite Hr. cbn. now rewrite Ha.
      + split; [exact Hd|]. right.
        split; [|split; [now apply mem_warning_critical | exact Hon]].
        rewrite Hr. cbn [DB.add_alert DB.alerts DB.set_alerts].
        rewrite map_app. cbn [map]. rewrite Z.eqb_refl, Ha.
        f_equal.
        apply (map_replace_fresh Alert.pk (DB.alerts db)
                 (Alert.set_whatsapp_sent alert now)).
        intros b Hb. cbn [Alert.pk Alert.set_whatsapp_sent].
        now apply Hfresh.
    - split; [reflexivity|]. left. cbn. now rewrite Ha. }
  destruct Hend as [Hdevs Hrows].
  split; [reflexivity|]. split; [reflexivity|]. split; [exact Hfresh|].
  split; [reflexivity|].
  split; [rewrite Hdevs; exact Hin|].
  split; [exact Hid|].
  repeat (split; [reflexivity|]). exact Hrows.
Qed.

End AlertCreation.


Lemma invalid_alert_still_registers_device_witness :
  let done :=
    AlertViewSet.create Settings.unconfigured Sample.today Sample.strftime
      Sample.twilio_ok Fixtures.serializer Sample.db Fixtures.blank_request in
  AlertViewSet.status_code (AlertViewSet.created_response (fst done)) = 400
  /\ length (DB.devices (snd done)) = 3%nat.
Proof.
  cbv zeta.
  pose proof (invalid_alert_still_registers_device Settings.unconfigured
                Sample.today Sample.strftime Sample.twilio_ok
                Fixtures.serializer Sample.db Fixtures.blank_request eq_refl)
    as H.
  cbv zeta in H. destruct H as (Hcode & _ & _ & _ & Hdev).
  split; [exact Hcode|].
  change (Http.get_device_by_id Sample.db
            (default "default"
               (AlertViewSet.device_id Fixtures.blank_request)))
    with (@None Device.t) in Hdev.
  destruct Hdev as (d & Hrows & _). rewrite Hrows. reflexivity.
Defined.

Lemma valid_alert_is_stored_with_its_device_witness :
  let done :=
    AlertViewSet.create Sample.configured Sample.today Sample.strftime
      Sample.twilio_ok Fixtures.serializer Sample.db
      Fixtures.warning_request in
  exists alert device,
    AlertViewSet.created_alert (fst done) = Some alert
    /\ Alert.device alert = Some (Device.pk device)
    /\ Device.device_id device = "INV-A".
Proof.
  cbv zeta.
  destruct (valid_alert_is_stored_with_its_device Sample.configured
              Sample.today Sample.strftime Sample.twilio_ok
              Fixtures.serializer Sample.db Fixtures.warning_request _
              eq_refl)
    as (alert & device & _ & Ha & _ & Hd & _ & Hid & Hident & _).
  exists alert, device. split; [exact Ha|]. split; [exact Hd|].
  rewrite Hid. exact Hident.
Defined.

(** ** The texts of an alert (whatsapp_service.py, email_service.py) *)

Section AlertTexts.
Variable strftime : Z -> string.

Lemma append_assoc (a b c : string) : (a ++ b) ++ c = a ++ (b ++ c).
Proof.
  induction a as [|x a IH]; [reflexivity|].
  change ((String x a ++ b) ++ c) with (String x ((a ++ b) ++ c)).
  change (String x a ++ (b ++ c)) with (String x (a ++ (b ++ c))).
  now rewrite IH.
Qed.

Lemma cat_split l1 x l2 :
  Str.cat (l1 ++ x :: l2) = Str.cat l1 ++ x ++ Str.cat l2.
Proof.
  induction l1 as [|y l1 IH]; [reflexivity|].
  change (Str.cat ((y :: l1) ++ x :: l2)) with (y ++ Str.cat (l1 ++ x :: l2)).
  change (Str.cat (y :: l1)) with (y ++ Str.cat l1).
  now rewrite IH, append_assoc.
Qed.

(** [if alert.value] is false for the value 0 as it is for no value: an alert
    that measured 0 is worded, over WhatsApp and in both bodies of the e-mail,
    exactly like the same alert without a value.  Any other value is shown
    with two decimals in all three. *)
Theorem zero_value_reads_as_no_value db alert v :
  Alert.value alert = Some v ->
  let bare := Valued.with_value alert None in
  let figure := Fmt.format_f false 2 v in
  if Qeq_bool v 0 then
    WhatsAppService._format_alert_message strftime db alert
    = WhatsAppService._format_alert_message strftime db bare
    /\ EmailAlert._generate_text_alert strftime db alert
       = EmailAlert._generate_text_alert strftime db bare
    /\ EmailAlert._generate_html_alert strftime db alert
       = EmailAlert._generate_html_alert strftime db bare
  else
    (exists before after,
        WhatsAppService._format_alert_message strftime db alert
        = before ++ Str.cat ["*Value:* "; figure; Str.nl] ++ after)
    /\ In ("Value: " ++ figure)
          (EmailAlert._generate_text_alert strftime db alert)
    /\ In (Str.cat ["<div class="; Str.dq; "detail"; Str.dq;
                    "><strong>Value:</strong> "; figure; "</div>"])
          (EmailAlert._generate_html_alert strftime db alert).
Proof.
  intros Hv. cbv zeta.
  unfold WhatsAppService._format_alert_message,
    EmailAlert._generate_text_alert, EmailAlert._generate_html_alert,
    EmailAlert.shown_value, EmailAlert.device_name_of,
    WhatsAppService.alert_device.
  destruct alert as [pk dev ident ty msg val sev st ts res sent sent_at].
  cbn [Alert.value] in Hv. subst val.
  cbn [Valued.with_value Alert.value Alert.device Alert.severity
       Alert.alert_type Alert.message Alert.timestamp_date].
  destruct (Qeq_bool v 0).
  - repeat split; reflexivity.
  - split; [|split].
    + match goal with
      | |- context [Str.cat (?a1 :: ?a2 :: ?a3 :: ?a4 :: ?a5 :: ?a6 :: ?a7
                              :: ?a8 :: ?a9 :: ?a10 :: ?a11 :: ?a12 :: ?a13
                              :: ?a14 :: ?a15 :: ?a16 :: ?x :: ?rest)] =>
        exists (Str.cat [a1; a2; a3; a4; a5; a6; a7; a8; a9; a10; a11; a12;
                         a13; a14; a15; a16]), (Str.cat rest);
        exact (cat_split [a1; a2; a3; a4; a5; a6; a7; a8; a9; a10; a11; a12;
                          a13; a14; a15; a16] x rest)
      end.
    + rewrite !in_app_iff. right. left. now left.
    + rewrite !in_app_iff. right. right. right. left. now left.
Qed.

(** An alert e-mail has no mock: [send_alert_email] answers [True] only when
    e-mail is configured, there is a recipient and the transport took the
    message.  Without configuration it answers [False], whereas
    [send_report_email] answers [True] for its mock. *)
Theorem alert_email_is_never_mocked settings now_text isoformat
    (smtp_alert : EmailAlert.send) (smtp_send : Smtp.send) db alert recipients
    report :
  let svc := EmailService.__init__ settings in
  let sent :=
    EmailAlert.send_alert_email svc strftime smtp_alert db alert recipients in
  (sent = true ->
   EmailService.enabled svc = true /\ recipients <> []
   /\ exists subject text html,
        smtp_alert subject text html (EmailService.from_email svc) recipients
        = true)
  /\ (EmailService.enabled svc = false ->
      sent = false
      /\ fst (fst (EmailService.send_report_email svc now_text isoformat
                     smtp_send db report))
         = Some true).
Proof.
  cbv zeta. unfold EmailAlert.send_alert_email. split.
  - destruct (EmailService.enabled (EmailService.__init__ settings));
      cbn [negb]; [|discriminate].
    destruct recipients as [|r rest]; [discriminate|].
    intros H. split; [reflexivity|]. split; [discriminate|]. eauto.
  - intros Hoff. rewrite Hoff. cbn [negb]. split; [reflexivity|].
    destruct (EmailService.send_report_email _ _ _ _ _ _)
      as [[er r1] db1] eqn:Hsend.
    apply send_report_email_cases in Hsend. cbv zeta in Hsend.
    destruct Hsend as [(_ & -> & _) | [(Hon & _) | [(Hon & _) | (Hon & _)]]];
      [reflexivity | congruence ..].
Qed.

End AlertTexts.

Lemma zero_value_reads_as_no_value_witness :
  WhatsAppService._format_alert_message Sample.strftime Sample.db
    Fixtures.zero_alert
  = WhatsAppService._format_alert_message Sample.strftime Sample.db
      (Valued.with_value Fixtures.zero_alert None).
Proof.
  exact (proj1 (zero_value_reads_as_no_value Sample.strftime Sample.db
                  Fixtures.zero_alert 0%Q eq_refl)).
Defined.

(** ** The alert table of the PDF (pdf_service.py) *)

Section PdfAlertRow.
Import ReportService.
Variable strftime : Z -> string.
Variable now_text : string.
Variable isoformat : Z -> string.

Lemma count_not_critical (l : list Alert.t) :
  Orm.count l
  - Orm.count (filter (fun a => String.eqb (Alert.severity a) "CRITICAL") l)
  = Orm.count
      (filter (fun a => negb (String.eqb (Alert.severity a) "CRITICAL")) l).
Proof.
  unfold Orm.count. induction l as [|a l IH]; [reflexivity|].
  rewrite !filter_cons.
  destruct (String.eqb (Alert.severity a) "CRITICAL"); cbn [negb].
  - rewrite decide_True by exact I. rewrite decide_False by (intros []).
    cbn [length]. lia.
  - rewrite decide_False by (intros []). rewrite decide_True by exact I.
    cbn [length]. lia.
Qed.

Lemma other_alerts_difference db devices sd ed :
  Valued.other_alerts db devices sd ed
  = Stat.Zsum (map DeviceStats.alerts (Stat.stats_of db devices sd ed))
    - Stat.Zsum (map DeviceStats.critical_alerts
                     (Stat.stats_of db devices sd ed)).
Proof.
  unfold Valued.other_alerts, Stat.stats_of.
  induction devices as [|d l IH]; [reflexivity|].
  cbn [map Stat.Zsum fold_right]. unfold Stat.Zsum in IH. rewrite IH.
  pose proof (count_not_critical (alerts db d sd ed)) as Hd.
  change (Orm.count (alerts db d sd ed))
    with (DeviceStats.alerts (_get_device_statistics db d sd ed)) in Hd.
  change (Orm.count (filter _ (alerts db d sd ed)))
    with (DeviceStats.critical_alerts (_get_device_statistics db d sd ed))
    in Hd at 1.
  rewrite <- Hd. lia.
Qed.

(** When a generated report has alerts, the row [Warning Alerts] of the PDF
    shows the number of the alerts of the period that are not critical: the
    alerts of severity INFO are counted in it like the warnings.  The number
    is the total minus the critical ones and is never negative. *)
Theorem pdf_warning_row_counts_all_other_alerts today db client rt device s e
    r db' :
  generate_report today db client rt device s e = (Some r, db') ->
  EnergyReport.total_alerts r <> 0 ->
  let others :=
    Valued.other_alerts db (device_set client device)
      (EnergyReport.start_date r) (EnergyReport.end_date r) in
  others = EnergyReport.total_alerts r - EnergyReport.critical_alerts r
  /\ 0 <= others
  /\ Shown.in_pdf
       (PDFReportService.generate_report_pdf strftime now_text isoformat r)
       "Warning Alerts" (Fmt.str_int others).
Proof.
  intros Hgen Hsome. cbv zeta.
  assert (Hlen : (0 < length (device_set client device))%nat).
  { unfold generate_report in Hgen.
    destruct (resolve_dates today rt s e) as [sd ed].
    destruct (device_set client device); [discriminate | simpl; lia]. }
  destruct (generate_report_fields today db client rt device s e Hlen)
    as [r0 [Hr (_ & _ & _ & _ & Hal & Hcrit & _)]].
  rewrite Hr in Hgen. injection Hgen as <- <-.
  rewrite aggregate_fold in Hal, Hcrit.
  rewrite fold_accumulate_alerts in Hal.
  rewrite fold_accumulate_critical in Hcrit. cbn in Hal, Hcrit.
  assert (Hothers :
    Valued.other_alerts db (device_set client device)
      (EnergyReport.start_date r0) (EnergyReport.end_date r0)
    = EnergyReport.total_alerts r0 - EnergyReport.critical_alerts r0).
  { rewrite other_alerts_difference, Hal, Hcrit. reflexivity. }
  split; [exact Hothers|]. split.
  { rewrite other_alerts_difference. unfold Valued.other_alerts.
    rewrite <- other_alerts_difference. unfold Valued.other_alerts.
    clear. induction (device_set client device) as [|d l IH];
      cbn [map Stat.Zsum fold_right]; [lia|].
    unfold Stat.Zsum in IH. unfold Orm.count at 1. lia. }
  rewrite Hothers. eexists. split.
  - unfold PDFReportService.generate_report_pdf. rewrite !in_app_iff.
    right. right. right. right. left.
    unfold PDFReportService._create_alert_summary. rewrite !in_app_iff.
    right. left.
    destruct (EnergyReport.total_alerts r0 =? 0) eqn:E;
      [apply Z.eqb_eq in E; contradiction|].
    left. reflexivity.
  - cbv [In]. right. right. right. left. reflexivity.
Qed.

End PdfAlertRow.

Lemma pdf_warning_row_counts_all_other_alerts_witness :
  match
    (ReportService.generate_report Sample.today Sample.db Sample.ada "WEEKLY"
       None None None).1
  with
  | Some r =>
    Shown.in_pdf
      (PDFReportService.generate_report_pdf Sample.strftime Sample.now_text
         Sample.isoformat r)
      "Warning Alerts"
      (Fmt.str_int
         (Valued.other_alerts Sample.db (Client.devices Sample.ada)
            (EnergyReport.start_date r) (EnergyReport.end_date r)))
  | None => False
  end.
Proof.
  destruct (ReportService.generate_report Sample.today Sample.db Sample.ada
              "WEEKLY" None None None) as [[r|] db1] eqn:Hgen; cbn [fst].
  - refine (proj2 (proj2 (pdf_warning_row_counts_all_other_alerts
                            Sample.strftime Sample.now_text Sample.isoformat
                            Sample.today Sample.db Sample.ada "WEEKLY" None
                            None None r db1 Hgen _))).
    assert (Ht : option_map EnergyReport.total_alerts
                   (fst (ReportService.generate_report Sample.today Sample.db
                           Sample.ada "WEEKLY" None None None))
                 = Some 2) by (vm_compute; reflexivity).
    rewrite Hgen in Ht. cbn [fst option_map] in Ht. injection Ht as Ht.
    rewrite Ht. discriminate.
  - vm_compute in Hgen. discriminate Hgen.
Defined.

(** ** Daily summaries of the sample data (generate_sample_data.py) *)

Section DailySummaries.
Import SampleData.

Lemma min_l a b : (py_min a b <= a)%Q.
Proof.
  unfold py_min. destruct (Qle_bool a b) eqn:E; [apply Qle_refl|].
  apply Qlt_le_weak, Qnot_le_lt. intros H. apply Qle_bool_iff in H.
  congruence.
Qed.

Lemma min_r a b : (py_min a b <= b)%Q.
Proof.
  unfold py_min. destruct (Qle_bool a b) eqn:E; [|apply Qle_refl].
  now apply Qle_bool_iff.
Qed.

Lemma min_cases a b : py_min a b = a \/ py_min a b = b.
Proof. unfold py_min. destruct (Qle_bool a b); auto. Qed.

Lemma fold_min_init l a : (fold_left py_min l a <= a)%Q.
Proof.
  revert a. induction l as [|x l IH]; intros a; cbn; [apply Qle_refl|].
  eapply Qle_trans; [apply IH | apply min_l].
Qed.

Lemma fold_min_lower l a x : In x l -> (fold_left py_min l a <= x)%Q.
Proof.
  revert a. induction l as [|y l IH]; intros a Hin; cbn in *; [tauto|].
  destruct Hin as [-> | Hin]; [|now apply IH].
  eapply Qle_trans; [apply fold_min_init | apply min_r].
Qed.

Lemma fold_min_cases l a :
  fold_left py_min l a = a \/ In (fold_left py_min l a) l.
Proof.
  revert a. induction l as [|x l IH]; intros a; cbn; [now left|].
  destruct (IH (py_min a x)) as [H | H]; [|now right; right].
  rewrite H. destruct (min_cases a x) as [E | E]; rewrite E; auto.
Qed.

(** The summary of one day lies where its readings lie: the peak is one of
    the powers read and none is greater, the minimum is one of them and none
    is less, so the minimum is not above the peak; the summary is filed under
    the device, its [device_id] and the day; and the cost is the stored
    consumption times the tariff's rate.  No summary is made of a day without
    readings. *)
Theorem daily_record_figures device date readings tariff :
  let powers := map PowerReading.power readings in
  match daily_record device date readings tariff with
  | None => readings = []
  | Some row =>
    readings <> []
    /\ DailyConsumption.date row = date
    /\ DailyConsumption.device row = Some (Device.pk device)
    /\ DailyConsumption.device_identifier row = Device.device_id device
    /\ In (DailyConsumption.peak_power row) powers
    /\ (forall p, In p powers -> (p <= DailyConsumption.peak_power row)%Q)
    /\ In (DailyConsumption.min_power row) powers
    /\ (forall p, In p powers -> (DailyConsumption.min_power row <= p)%Q)
    /\ (DailyConsumption.min_power row <= DailyConsumption.peak_power row)%Q
    /\ DailyConsumption.total_cost row
       = (DailyConsumption.total_consumption row
          * EnergyTariff.rate_per_kwh tariff)%Q
  end.
Proof.
  cbv zeta. unfold daily_record.
  destruct readings as [|r0 rs]; [reflexivity|].
  cbn [map]. set (p := PowerReading.power r0).
  set (ps := map PowerReading.power rs).
  cbn [DailyConsumption.date DailyConsumption.device
       DailyConsumption.device_identifier
       DailyConsumption.peak_power DailyConsumption.min_power
       DailyConsumption.total_consumption DailyConsumption.total_cost].
  assert (Hmax : forall y, In y (p :: ps)
                           -> (y <= fold_left Py.max ps p)%Q).
  { intros y [<- | Hy]; [apply fold_max_init | now apply fold_max_upper]. }
  assert (Hmin : forall y, In y (p :: ps)
                           -> (fold_left py_min ps p <= y)%Q).
  { intros y [<- | Hy]; [apply fold_min_init | now apply fold_min_lower]. }
  split; [discriminate|]. split; [reflexivity|]. split; [reflexivity|].
  split; [reflexivity|].
  split.
  { destruct (fold_max_cases ps p) as [-> | H]; [now left | now right]. }
  split; [exact Hmax|].
  split.
  { destruct (fold_min_cases ps p) as [-> | H]; [now left | now right]. }
  split; [exact Hmin|].
  split; [|reflexivity].
  eapply Qle_trans; [apply (Hmin p) | apply (Hmax p)]; now left.
Qed.

End DailySummaries.

Section SampleDays.
Import SampleData.
Variable today : Z.
Variable device : Device.t.
Variable tariff : EnergyTariff.t.

Lemma daily_record_some date rs row :
  daily_record device date rs tariff = Some row ->
  DailyConsumption.date row = date
  /\ DailyConsumption.device row = Some (Device.pk device)
  /\ DailyConsumption.device_identifier row = Device.device_id device
  /\ rs <> [].
Proof.
  unfold daily_record. destruct rs as [|r rs]; [discriminate|].
  cbn [map]. intros H. injection H as <-. repeat split. discriminate.
Qed.

Lemma daily_record_none date rs :
  daily_record device date rs tariff = None -> rs = [].
Proof.
  unfold daily_record. destruct rs as [|r rs]; [reflexivity|].
  cbn [map]. discriminate.
Qed.

Lemma day_offsets_range days k : In k (day_offsets days) <-> 1 <= k <= days.
Proof.
  unfold day_offsets. rewrite in_map_iff. split.
  - intros (i & <- & Hi). apply in_seq in Hi. lia.
  - intros Hk. exists (Z.to_nat (days - k)). split; [lia|].
    apply in_seq. lia.
Qed.

Lemma day_offsets_sorted days : StronglySorted Z.gt (day_offsets days).
Proof.
  unfold day_offsets. generalize (Z.to_nat days) as n. generalize 0%nat as a.
  intros a n. revert a. induction n as [|n IH]; intros a; cbn [seq map].
  - constructor.
  - constructor; [apply IH|].
    apply List.Forall_forall. intros x Hx. apply in_map_iff in Hx.
    destruct Hx as (i & <- & Hi). apply in_seq in Hi. lia.
Qed.

Lemma collides_iff db row :
  collides db row = true
  <-> exists r, In r (DB.daily_consumption db)
                /\ DailyConsumption.device_identifier r
                   = DailyConsumption.device_identifier row
                /\ DailyConsumption.date r = DailyConsumption.date row.
Proof.
  unfold collides. rewrite existsb_exists. split.
  - intros (r & Hin & H). apply andb_true_iff in H. destruct H as [H1 H2].
    apply String.eqb_eq in H1. apply Z.eqb_eq in H2. eauto.
  - intros (r & Hin & H1 & H2). exists r. split; [exact Hin|].
    apply andb_true_iff. split; [now apply String.eqb_eq | now apply Z.eqb_eq].
Qed.

Lemma create_some db row db1 :
  create db row = Some db1 ->
  collides db row = false
  /\ DB.power_readings db1 = DB.power_readings db
  /\ DB.daily_consumption db1 = (DB.daily_consumption db ++ [row])%list.
Proof.
  unfold create. destruct (collides db row); [discriminate|].
  intros H. injection H as <-. repeat split.
Qed.

Lemma create_none db row : create db row = None -> collides db row = true.
Proof.
  unfold create. destruct (collides db row); [reflexivity | discriminate].
Qed.

Lemma readings_on_same db db1 d :
  DB.power_readings db1 = DB.power_readings db ->
  readings_on db1 device d = readings_on db device d.
Proof. unfold readings_on. now intros ->. Qed.

Lemma made_same db db1 (offsets : list Z) :
  DB.power_readings db1 = DB.power_readings db ->
  omap (fun k => daily_record device (today - k)
                   (readings_on db1 device (today - k)) tariff) offsets
  = omap (fun k => daily_record device (today - k)
                     (readings_on db device (today - k)) tariff) offsets.
Proof.
  intros Hsame. induction offsets as [|k rest IH]; [reflexivity|].
  cbn [omap list_omap]. now rewrite IH, (readings_on_same db db1).
Qed.

Lemma rows_of_offsets db (offs : list Z) row :
  In row
     (omap (fun k => daily_record device (today - k)
                       (readings_on db device (today - k)) tariff) offs)
  <-> exists k,
        In k offs
        /\ daily_record device (today - k)
             (readings_on db device (today - k)) tariff = Some row.
Proof.
  rewrite <- list_elem_of_In, list_elem_of_omap.
  split; intros (k & Hk & Hrow); exists k; split; auto;
    now apply list_elem_of_In.
Qed.

Lemma rows_sorted db (offs : list Z) :
  StronglySorted Z.gt offs ->
  StronglySorted Z.lt
    (map DailyConsumption.date
         (omap (fun k => daily_record device (today - k)
                           (readings_on db device (today - k)) tariff)
               offs)).
Proof.
  induction 1 as [|o rest Hrest IH Hall]; [constructor|].
  cbn [omap list_omap].
  destruct (daily_record device (today - o) _ tariff) as [row|] eqn:Hrow;
    [|exact IH].
  cbn [map]. constructor; [exact IH|].
  apply daily_record_some in Hrow. destruct Hrow as [-> _].
  apply List.Forall_forall. intros d Hd. apply in_map_iff in Hd.
  destruct Hd as (row' & <- & Hin). apply rows_of_offsets in Hin.
  destruct Hin as (k & Hk & Hrow'). apply daily_record_some in Hrow'.
  destruct Hrow' as [-> _].
  rewrite List.Forall_forall in Hall. specialize (Hall k Hk). lia.
Qed.

Lemma sorted_split before k after :
  StronglySorted Z.gt (before ++ k :: after) ->
  (forall j, In j before -> k < j) /\ (forall j, In j after -> j < k).
Proof.
  induction before as [|b before IH]; cbn [app]; intros H;
    apply StronglySorted_inv in H; destruct H as [Hrest Hall];
    rewrite List.Forall_forall in Hall.
  - split; [intros j [] | intros j Hj; specialize (Hall j Hj); lia].
  - destruct (IH Hrest) as [Hb Ha]. split; [|exact Ha].
    intros j [<- | Hj]; [|now apply Hb].
    assert (Hk : In k (before ++ k :: after))
      by (apply in_or_app; right; now left).
    specialize (Hall k Hk). lia.
Qed.

(** The loop, over offsets that come in decreasing order. *)
Lemma summarise_loop (offsets : list Z) : forall count db,
  StronglySorted Z.gt offsets ->
  match summarise today device tariff offsets count db with
  | (Count n, db') =>
    (forall k, In k offsets -> Summaries.due db device (today - k) ->
               ~ Summaries.taken db device (today - k))
    /\ DB.power_readings db' = DB.power_readings db
    /\ DB.daily_consumption db'
       = (DB.daily_consumption db
          ++ omap (fun k => daily_record device (today - k)
                              (readings_on db device (today - k)) tariff)
                  offsets)%list
    /\ n = count
           + Py.len (omap (fun k => daily_record device (today - k)
                                      (readings_on db device (today - k))
                                      tariff)
                          offsets)
  | (IntegrityError, db') =>
    exists before k after,
      offsets = (before ++ k :: after)%list
      /\ Summaries.due db device (today - k)
      /\ Summaries.taken db device (today - k)
      /\ (forall j, In j before -> Summaries.due db device (today - j) ->
                    ~ Summaries.taken db device (today - j))
      /\ DB.power_readings db' = DB.power_readings db
      /\ DB.daily_consumption db'
         = (DB.daily_consumption db
            ++ omap (fun k => daily_record device (today - k)
                                (readings_on db device (today - k)) tariff)
                    before)%list
  end.
Proof.
  induction offsets as [|o rest IH]; intros count db Hsorted.
  - cbn [summarise omap list_omap]. rewrite app_nil_r. unfold Py.len. cbn.
    split; [intros k []|]. split; [reflexivity|]. split; [reflexivity | lia].
  - apply StronglySorted_inv in Hsorted. destruct Hsorted as [Hrest Hgt].
    rewrite List.Forall_forall in Hgt.
    cbn [summarise omap list_omap].
    destruct (daily_record device (today - o)
                (readings_on db device (today - o)) tariff) as [row|] eqn:Hrow.
    + pose proof (daily_record_some _ _ _ Hrow) as (Hdate & _ & Hid & Hne).
      destruct (create db row) as [db1|] eqn:Hcreate.
      * apply create_some in Hcreate.
        destruct Hcreate as (Hfree & Hread & Hrows).
        assert (Hnot : ~ Summaries.taken db device (today - o)).
        { intros (r & Hin & Hr1 & Hr2).
          assert (Hc : collides db row = true)
            by (apply collides_iff; exists r; rewrite Hid, Hdate; auto).
          congruence. }
        assert (Hup : forall j, Summaries.taken db device (today - j) ->
                                Summaries.taken db1 device (today - j)).
        { intros j (r & Hin & Hr). exists r. rewrite Hrows.
          split; [apply in_or_app; now left | exact Hr]. }
        assert (Hdown : forall j, j <> o ->
                  Summaries.taken db1 device (today - j) ->
                  Summaries.taken db device (today - j)).
        { intros j Hj (r & Hin & Hr1 & Hr2). rewrite Hrows in Hin.
          apply in_app_or in Hin. destruct Hin as [Hin | [<- | []]].
          - exists r. auto.
          - rewrite Hdate in Hr2. lia. }
        assert (Hdue : forall j, Summaries.due db1 device (today - j)
                                 <-> Summaries.due db device (today - j)).
        { intros j. unfold Summaries.due.
          now rewrite (readings_on_same db db1). }
        specialize (IH (count + 1) db1 Hrest).
        rewrite (made_same db db1) in IH by exact Hread.
        destruct (summarise today device tariff rest (count + 1) db1)
          as [[n|] db'].
        -- destruct IH as (Hfree' & Hread' & Hrows' & Hn).
           split.
           { intros k [<- | Hk] Hd; [exact Hnot|].
             intros Ht. apply (Hfree' k Hk); [now apply Hdue | now apply Hup]. }
           split; [congruence|].
           split; [rewrite Hrows', Hrows, <- app_assoc; reflexivity|].
           rewrite Hn. unfold Py.len. cbn [length]. lia.
        -- destruct IH as (before & k & after & -> & Hd & Ht & Hfree' & Hread'
                           & Hrows').
           assert (Hk : k < o).
           { assert (Hin : In k (before ++ k :: after))
               by (apply in_or_app; right; now left).
             specialize (Hgt k Hin). lia. }
           exists (o :: before), k, after. split; [reflexivity|].
           split; [now apply Hdue|].
           split; [apply Hdown; [lia | exact Ht]|].
           split.
           { intros j [<- | Hj] Hdj; [exact Hnot|].
             intros Htj.
             apply (Hfree' j Hj); [now apply Hdue | now apply Hup]. }
           split; [congruence|].
           rewrite (made_same db db1) in Hrows' by exact Hread.
           cbn [omap list_omap]. rewrite Hrow.
           rewrite Hrows', Hrows, <- app_assoc. reflexivity.
      * apply create_none in Hcreate. apply collides_iff in Hcreate.
        destruct Hcreate as (r & Hin & Hr1 & Hr2).
        exists [], o, rest. split; [reflexivity|].
        split; [exact Hne|].
        split; [exists r; rewrite <- Hid, <- Hdate; auto|].
        split; [intros j []|]. split; [reflexivity|].
        cbn. now rewrite app_nil_r.
    + apply daily_record_none in Hrow.
      specialize (IH count db Hrest).
      destruct (summarise today device tariff rest count db) as [[n|] db'].
      * destruct IH as (Hfree' & Hread' & Hrows' & Hn).
        split; [|auto].
        intros k [<- | Hk] Hd; [contradiction | now apply Hfree'].
      * destruct IH as (before & k & after & -> & Hd & Ht & Hfree' & Hread'
                        & Hrows').
        exists (o :: before), k, after. split; [reflexivity|].
        split; [exact Hd|]. split; [exact Ht|].
        split.
        { intros j [<- | Hj] Hdj; [contradiction | now apply Hfree']. }
        split; [exact Hread'|].
        cbn [omap list_omap].
        assert (Hnone : daily_record device (today - o)
                          (readings_on db device (today - o)) tariff = None)
          by (rewrite Hrow; reflexivity).
        rewrite Hnone. exact Hrows'.
Qed.

(** The rows made from a run of offsets are the summaries of its days. *)
Lemma cover_of_offsets db (offsets : list Z) lo hi :
  StronglySorted Z.gt offsets ->
  (forall k, In k offsets <-> lo < k <= hi) ->
  Summaries.cover today db device tariff lo hi
    (omap (fun k => daily_record device (today - k)
                      (readings_on db device (today - k)) tariff)
          offsets).
Proof.
  intros Hsorted Hrange. split; [|now apply rows_sorted].
  intros row. rewrite rows_of_offsets. split.
  - intros (k & Hk & Hrow). exists k. split; [now apply Hrange | exact Hrow].
  - intros (k & Hk & Hrow). exists k. split; [now apply Hrange | exact Hrow].
Qed.

(** How [generate_daily_consumption] ends. *)
Lemma generate_daily_consumption_outcome db days :
  match generate_daily_consumption today db device days tariff with
  | (Count n, db') =>
    (forall k, 1 <= k <= days -> Summaries.due db device (today - k) ->
               ~ Summaries.taken db device (today - k))
    /\ DB.power_readings db' = DB.power_readings db
    /\ exists rows,
         DB.daily_consumption db' = (DB.daily_consumption db ++ rows)%list
         /\ n = Py.len rows
         /\ Summaries.cover today db device tariff 0 days rows
  | (IntegrityError, db') =>
    exists k rows,
      1 <= k <= days
      /\ Summaries.due db device (today - k)
      /\ Summaries.taken db device (today - k)
      /\ (forall j, k < j <= days -> Summaries.due db device (today - j) ->
                    ~ Summaries.taken db device (today - j))
      /\ DB.power_readings db' = DB.power_readings db
      /\ DB.daily_consumption db' = (DB.daily_consumption db ++ rows)%list
      /\ Summaries.cover today db device tariff k days rows
  end.
Proof.
  unfold generate_daily_consumption.
  pose proof (summarise_loop (day_offsets days) 0 db (day_offsets_sorted days))
    as H.
  destruct (summarise today device tariff (day_offsets days) 0 db)
    as [[n|] db'].
  - destruct H as (Hfree & Hread & Hrows & Hn).
    split; [intros k Hk; apply Hfree; now apply day_offsets_range|].
    split; [exact Hread|].
    eexists. split; [exact Hrows|]. split; [lia|].
    apply cover_of_offsets; [apply day_offsets_sorted|].
    intros k. rewrite day_offsets_range. lia.
  - destruct H as (before & k & after & Hsplit & Hd & Ht & Hfree & Hread
                   & Hrows).
    pose proof (day_offsets_sorted days) as Hsorted.
    rewrite Hsplit in Hsorted.
    pose proof (sorted_split _ _ _ Hsorted) as [Hbefore Hafter].
    assert (Hk : 1 <= k <= days).
    { apply day_offsets_range. rewrite Hsplit. apply in_or_app.
      right. now left. }
    assert (Hin : forall j, In j before <-> k < j <= days).
    { intros j. split.
      - intros Hj. split; [now apply Hbefore|].
        assert (Hj' : In j (day_offsets days))
          by (rewrite Hsplit; apply in_or_app; now left).
        apply day_offsets_range in Hj'. lia.
      - intros Hj.
        assert (Hj' : In j (day_offsets days))
          by (apply day_offsets_range; lia).
        rewrite Hsplit in Hj'. apply in_app_or in Hj'.
        destruct Hj' as [Hj' | [<- | Hj']]; [exact Hj' | lia |].
        specialize (Hafter j Hj'). lia. }
    exists k. eexists. split; [exact Hk|]. split; [exact Hd|].
    split; [exact Ht|].
    split; [intros j Hj; apply Hfree; now apply Hin|].
    split; [exact Hread|]. split; [exact Hrows|].
    apply cover_of_offsets; [|exact Hin].
    clear -Hsorted. induction before as [|b before IH]; [constructor|].
    cbn [app] in Hsorted. apply StronglySorted_inv in Hsorted.
    destruct Hsorted as [Hrest Hall]. constructor; [now apply IH|].
    rewrite List.Forall_forall in *. intros x Hx. apply Hall.
    apply in_or_app. now left.
Qed.

(** [generate_daily_consumption] goes through the [days] days before today,
    oldest first, and stores a summary for each day on which the device has a
    reading.  It comes to its end, returning the number of the summaries
    stored, exactly when no such day is already held by a stored summary under
    the device's identifier; otherwise it stops with an [IntegrityError] at the
    first such day, and the summaries of the days before it stay stored.  A
    run never bars itself, no day being summarised twice; but a second run on
    the same day fails as soon as the first has stored a summary. *)
Theorem daily_summaries_cover_the_days_with_readings db days :
  match generate_daily_consumption today db device days tariff with
  | (Count n, db') =>
    (forall k, 1 <= k <= days -> Summaries.due db device (today - k) ->
               ~ Summaries.taken db device (today - k))
    /\ (exists rows,
           DB.daily_consumption db' = (DB.daily_consumption db ++ rows)%list
           /\ n = Py.len rows
           /\ Summaries.cover today db device tariff 0 days rows)
    /\ (0 < n ->
        fst (generate_daily_consumption today db' device days tariff)
        = IntegrityError)
  | (IntegrityError, db') =>
    exists k rows,
      1 <= k <= days
      /\ Summaries.due db device (today - k)
      /\ Summaries.taken db device (today - k)
      /\ (forall j, k < j <= days -> Summaries.due db device (today - j) ->
                    ~ Summaries.taken db device (today - j))
      /\ DB.daily_consumption db' = (DB.daily_consumption db ++ rows)%list
      /\ Summaries.cover today db device tariff k days rows
  end.
Proof.
  pose proof (generate_daily_consumption_outcome db days) as H.
  destruct (generate_daily_consumption today db device days tariff)
    as [[n|] db'].
  - destruct H as (Hfree & Hread & rows & Hrows & Hn & Hcover).
    split; [exact Hfree|]. split; [eauto|].
    intros Hpos.
    destruct rows as [|row rows]; [unfold Py.len in Hn; cbn in Hn; lia|].
    destruct (proj1 (proj1 Hcover row) (or_introl eq_refl))
      as (k & Hk & Hrow).
    pose proof (daily_record_some _ _ _ Hrow) as (Hdate & _ & Hid & Hne).
    pose proof (generate_daily_consumption_outcome db' days) as H2.
    destruct (generate_daily_consumption today db' device days tariff)
      as [[n2|] db2]; [|reflexivity].
    exfalso. destruct H2 as (Hfree2 & _).
    apply (Hfree2 k); [lia | |].
    + unfold Summaries.due. now rewrite (readings_on_same db db').
    + exists row. rewrite Hrows.
      split; [apply in_or_app; right; now left | auto].
  - destruct H as (k & rows & Hk & Hd & Ht & Hfree & _ & Hrows & Hcover).
    exists k, rows. auto 10.
Qed.

End SampleDays.

(** ** The reports of the sample data (generate_sample_data.py) *)

Section SampleReports.
Import SampleData.
Variable today : Z.

Lemma sample_reports_loop clients : forall count db,
  let done :=
    fold_left
      (fun '(count, db) client =>
         let '(report, db) :=
           ReportService.generate_report today db client "WEEKLY" None None
                                         None in
         let count :=
           match report with Some _ => count + 1 | None => count end in
         if String.eqb (Client.report_frequency client) "MONTHLY" then
           let '(report, db) :=
             ReportService.generate_report today db client "MONTHLY" None
                                           None None in
           (match report with Some _ => count + 1 | None => count end, db)
         else (count, db))
      clients (count, db) in
  exists new,
    DB.energy_reports (snd done) = (DB.energy_reports db ++ new)%list
    /\ fst done = count + Py.len new
    /\ Py.len new
       = Stat.Zsum
           (map (fun c =>
                   match Client.devices c with
                   | [] => 0
                   | _ => if String.eqb (Client.report_frequency c) "MONTHLY"
                          then 2 else 1
                   end)
                clients)
    /\ Forall (fun r =>
                 In (EnergyReport.client r) clients
                 /\ Client.devices (EnergyReport.client r) <> []
                 /\ EnergyReport.device r = None
                 /\ (EnergyReport.report_type r = "WEEKLY"
                     \/ (EnergyReport.report_type r = "MONTHLY"
                         /\ Client.report_frequency (EnergyReport.client r)
                            = "MONTHLY")))
              new.
Proof.
  induction clients as [|c rest IH]; intros count db; cbv zeta.
  - exists []. cbn [fold_left fst snd map Stat.Zsum fold_right].
    rewrite app_nil_r. unfold Py.len. cbn [length].
    repeat split; try lia. constructor.
  - cbn [fold_left].
    assert (Hweaken : forall new : list EnergyReport.t,
              Forall (fun r =>
                 In (EnergyReport.client r) rest
                 /\ Client.devices (EnergyReport.client r) <> []
                 /\ EnergyReport.device r = None
                 /\ (EnergyReport.report_type r = "WEEKLY"
                     \/ (EnergyReport.report_type r = "MONTHLY"
                         /\ Client.report_frequency (EnergyReport.client r)
                            = "MONTHLY"))) new ->
              Forall (fun r =>
                 In (EnergyReport.client r) (c :: rest)
                 /\ Client.devices (EnergyReport.client r) <> []
                 /\ EnergyReport.device r = None
                 /\ (EnergyReport.report_type r = "WEEKLY"
                     \/ (EnergyReport.report_type r = "MONTHLY"
                         /\ Client.report_frequency (EnergyReport.client r)
                            = "MONTHLY"))) new).
    { intros new Hall. eapply List.Forall_impl; [|exact Hall].
      cbn beta. intros r (H1 & H2). split; [now right | exact H2]. }
    cbn [map Stat.Zsum fold_right].
    destruct (Client.devices c) as [|d0 ds] eqn:Hdev.
    + rewrite !generate_report_none by exact Hdev.
      assert (Hsame :
        (if String.eqb (Client.report_frequency c) "MONTHLY"
         then (count, db) else (count, db)) = (count, db))
        by (destruct (String.eqb _ _); reflexivity).
      rewrite Hsame. specialize (IH count db). cbv zeta in IH.
      destruct IH as (new & Hrows & Hcount & Hnum & Hall).
      exists new. split; [exact Hrows|]. split; [exact Hcount|].
      split; [unfold Stat.Zsum in Hnum; lia | now apply Hweaken].
    + destruct (generate_report_some today db c "WEEKLY" None None None)
        as (r1 & Hgen1 & _ & Htype1 & Hclient1 & Hdevice1).
      { cbn. rewrite Hdev. cbn. lia. }
      rewrite Hgen1.
      assert (Hr1 : Client.devices (EnergyReport.client r1) <> [])
        by (rewrite Hclient1, Hdev; discriminate).
      destruct (String.eqb (Client.report_frequency c) "MONTHLY") eqn:Hfreq.
      * destruct (generate_report_some today (DB.add_energy_report db r1) c
                    "MONTHLY" None None None)
          as (r2 & Hgen2 & _ & Htype2 & Hclient2 & Hdevice2).
        { cbn. rewrite Hdev. cbn. lia. }
        rewrite Hgen2.
        specialize (IH (count + 1 + 1)
                      (DB.add_energy_report (DB.add_energy_report db r1) r2)).
        cbv zeta in IH. destruct IH as (new & Hrows & Hcount & Hnum & Hall).
        exists (r1 :: r2 :: new). rewrite Hrows, Hcount.
        unfold Py.len in *. cbn [length]. unfold Stat.Zsum in Hnum.
        split; [cbn; now rewrite <- !app_assoc|].
        split; [lia|]. split; [lia|].
        constructor.
        { split; [left; now rewrite Hclient1|]. auto. }
        constructor; [|now apply Hweaken].
        split; [left; now rewrite Hclient2|].
        split; [rewrite Hclient2, Hdev; discriminate|].
        split; [exact Hdevice2|]. right. split; [exact Htype2|].
        rewrite Hclient2. now apply String.eqb_eq.
      * specialize (IH (count + 1) (DB.add_energy_report db r1)).
        cbv zeta in IH. destruct IH as (new & Hrows & Hcount & Hnum & Hall).
        exists (r1 :: new). rewrite Hrows, Hcount.
        unfold Py.len in *. cbn [length]. unfold Stat.Zsum in Hnum.
        split; [cbn; now rewrite <- !app_assoc|].
        split; [lia|]. split; [lia|].
        constructor; [|now apply Hweaken].
        split; [left; now rewrite Hclient1|]. auto.
Qed.

(** [generate_reports] returns the number of the reports it has stored: one
    weekly report for each client with a device and a monthly one as well when
    the client's frequency is MONTHLY; a client without devices gets none.
    Every report made covers all the devices of its client. *)
Theorem sample_reports_are_counted db :
  let done := generate_reports today db in
  exists new,
    DB.energy_reports (snd done) = (DB.energy_reports db ++ new)%list
    /\ fst done = Py.len new
    /\ Py.len new
       = Stat.Zsum
           (map (fun c =>
                   match Client.devices c with
                   | [] => 0
                   | _ => if String.eqb (Client.report_frequency c) "MONTHLY"
                          then 2 else 1
                   end)
                (DB.clients db))
    /\ Forall (fun r =>
                 In (EnergyReport.client r) (DB.clients db)
                 /\ Client.devices (EnergyReport.client r) <> []
                 /\ EnergyReport.device r = None
                 /\ (EnergyReport.report_type r = "WEEKLY"
                     \/ (EnergyReport.report_type r = "MONTHLY"
                         /\ Client.report_frequency (EnergyReport.client r)
                            = "MONTHLY")))
              new.
Proof.
  cbv zeta. unfold generate_reports.
  destruct (sample_reports_loop (DB.clients db) 0 db)
    as (new & H1 & H2 & H3 & H4).
  exists new. cbv zeta in H1, H2. rewrite H1, H2. auto.
Qed.

End SampleReports.

(** ** The default tariffs (create_tariffs.py) *)

Section DefaultTariffs.
Import CreateTariffs.

Lemma named_app n l1 l2 : named n (l1 ++ l2) = (named n l1 ++ named n l2)%list.
Proof. unfold named. apply filter_app. Qed.

Lemma named_one n t :
  named n [t] = if String.eqb (EnergyTariff.name t) n then [t] else [].
Proof.
  unfold named. rewrite filter_cons, filter_nil.
  destruct (String.eqb (EnergyTariff.name t) n);
    [rewrite decide_True by exact I | rewrite decide_False by (intros [])];
    reflexivity.
Qed.

Lemma create_all_raised data : create_all data None = None.
Proof. induction data as [|d data IH]; [reflexivity | exact IH]. Qed.

Lemma create_all_step d data count table :
  create_all (d :: data) (Some (count, table))
  = match get_or_create table d with
    | None => None
    | Some (_, created, table') =>
      create_all data
        (Some (if created then count + 1 else count, table'))
    end.
Proof.
  unfold create_all. cbn [fold_left].
  destruct (get_or_create table d) as [[[t created] table']|];
    [reflexivity | apply create_all_raised].
Qed.

(** The three ways [get_or_create] can end. *)
Lemma get_or_create_cases table d :
  (named (name d) table = []
   /\ exists t,
        get_or_create table d = Some (t, true, (table ++ [t])%list)
        /\ EnergyTariff.name t = name d
        /\ EnergyTariff.rate_per_kwh t = rate_per_kwh d
        /\ EnergyTariff.currency t = currency d
        /\ EnergyTariff.is_active t = true)
  \/ (exists t, named (name d) table = [t]
                /\ get_or_create table d = Some (t, false, table))
  \/ ((2 <= length (named (name d) table))%nat
      /\ get_or_create table d = None).
Proof.
  unfold get_or_create.
  destruct (named (name d) table) as [|t [|t' rest]].
  - left. split; [reflexivity|]. eexists. split; [reflexivity|].
    cbn. auto.
  - right. left. eauto.
  - right. right. split; [cbn; lia | reflexivity].
Qed.

Lemma create_all_shape data : forall count table count' table',
  create_all data (Some (count, table)) = Some (count', table') ->
  exists new,
    table' = (table ++ new)%list
    /\ count' = count + Py.len new
    /\ Forall (fun t =>
                 EnergyTariff.is_active t = true
                 /\ exists d, In d data
                              /\ EnergyTariff.name t = name d
                              /\ EnergyTariff.rate_per_kwh t = rate_per_kwh d
                              /\ EnergyTariff.currency t = currency d)
              new.
Proof.
  induction data as [|d data IH]; intros count table count' table' H.
  - cbn in H. injection H as <- <-. exists []. rewrite app_nil_r.
    unfold Py.len. cbn. split; [reflexivity|]. split; [lia | constructor].
  - rewrite create_all_step in H.
    assert (Hweaken : forall new,
      Forall (fun t =>
                EnergyTariff.is_active t = true
                /\ exists d, In d data
                             /\ EnergyTariff.name t = name d
                             /\ EnergyTariff.rate_per_kwh t = rate_per_kwh d
                             /\ EnergyTariff.currency t = currency d) new ->
      Forall (fun t =>
                EnergyTariff.is_active t = true
                /\ exists d0, In d0 (d :: data)
                              /\ EnergyTariff.name t = name d0
                              /\ EnergyTariff.rate_per_kwh t = rate_per_kwh d0
                              /\ EnergyTariff.currency t = currency d0) new).
    { intros new Hall. eapply List.Forall_impl; [|exact Hall]. cbn beta.
      intros t (Ha & d0 & Hin & Hrest). split; [exact Ha|].
      exists d0. split; [now right | exact Hrest]. }
    destruct (get_or_create_cases table d)
      as [(_ & t & Hgoc & Hn & Hr & Hc & Ha)
         | [(t & _ & Hgoc) | (_ & Hgoc)]]; rewrite Hgoc in H.
    + apply IH in H. destruct H as (new & -> & -> & Hall).
      exists (t :: new). rewrite <- app_assoc. split; [reflexivity|].
      unfold Py.len. cbn [length]. split; [lia|].
      constructor; [|now apply Hweaken].
      split; [exact Ha|]. exists d. split; [now left | auto].
    + apply IH in H. destruct H as (new & -> & -> & Hall).
      exists new. auto.
    + discriminate H.
Qed.

(** A name that is held by exactly one tariff stays so. *)
Lemma create_all_keeps_single data n t : forall count table count' table',
  named n table = [t] ->
  create_all data (Some (count, table)) = Some (count', table') ->
  named n table' = [t].
Proof.
  induction data as [|d data IH]; intros count table count' table' Hone H.
  - cbn in H. injection H as _ <-. exact Hone.
  - rewrite create_all_step in H.
    destruct (get_or_create_cases table d)
      as [(Hnone & t' & Hgoc & Hn & _) | [(t' & _ & Hgoc) | (_ & Hgoc)]];
      rewrite Hgoc in H; [| now apply IH in H | discriminate H].
    apply IH in H; [exact H|].
    rewrite named_app, Hone, named_one.
    destruct (String.eqb (EnergyTariff.name t') n) eqn:E; [|reflexivity].
    apply String.eqb_eq in E. rewrite Hn in E. rewrite E, Hone in Hnone.
    discriminate Hnone.
Qed.

Lemma create_all_present data : forall count table count' table',
  create_all data (Some (count, table)) = Some (count', table') ->
  forall d, In d data -> exists t, named (name d) table' = [t].
Proof.
  induction data as [|d0 data IH]; intros count table count' table' H d Hin;
    [destruct Hin|].
  rewrite create_all_step in H.
  destruct (get_or_create_cases table d0)
    as [(Hnone & t & Hgoc & Hn & _) | [(t & Hone & Hgoc) | (_ & Hgoc)]];
    rewrite Hgoc in H; [| |discriminate H].
  - destruct Hin as [-> | Hin]; [|now apply (IH _ _ _ _ H)].
    exists t.
    assert (Hone : named (name d) (table ++ [t]) = [t])
      by (rewrite named_app, Hnone, named_one, Hn, String.eqb_refl;
          reflexivity).
    exact (create_all_keeps_single _ _ _ _ _ _ _ Hone H).
  - destruct Hin as [-> | Hin]; [|now apply (IH _ _ _ _ H)].
    exists t. exact (create_all_keeps_single _ _ _ _ _ _ _ Hone H).
Qed.

Lemma create_all_again data : forall count table,
  (forall d, In d data -> exists t, named (name d) table = [t]) ->
  create_all data (Some (count, table)) = Some (count, table).
Proof.
  induction data as [|d data IH]; intros count table Hall; [reflexivity|].
  rewrite create_all_step. destruct (Hall d) as [t Ht]; [now left|].
  unfold get_or_create. rewrite Ht. apply IH.
  intros d' Hd'. apply Hall. now right.
Qed.

Lemma create_all_duplicate data n : forall count table,
  (2 <= length (named n table))%nat ->
  (exists d, In d data /\ name d = n) ->
  create_all data (Some (count, table)) = None.
Proof.
  induction data as [|d0 data IH]; intros count table Htwo (d & Hin & Hn);
    [destruct Hin|].
  rewrite create_all_step.
  destruct (get_or_create_cases table d0)
    as [(Hnone & t & Hgoc & Hn0 & _) | [(t & Hone & Hgoc) | (_ & Hgoc)]];
    rewrite Hgoc; [| |reflexivity].
  - destruct Hin as [-> | Hin].
    + rewrite <- Hn, Hnone in Htwo. cbn in Htwo. lia.
    + apply IH; [|eauto]. rewrite named_app, length_app. lia.
  - destruct Hin as [-> | Hin].
    + rewrite <- Hn, Hone in Htwo. cbn in Htwo. lia.
    + apply IH; [exact Htwo | eauto].
Qed.

Lemma create_all_total data : forall count table,
  (forall d, In d data -> (length (named (name d) table) <= 1)%nat) ->
  create_all data (Some (count, table)) <> None.
Proof.
  induction data as [|d0 data IH]; intros count table Hall; [discriminate|].
  rewrite create_all_step.
  destruct (get_or_create_cases table d0)
    as [(Hnone & t & Hgoc & Hn0 & _) | [(t & Hone & Hgoc) | (Htwo & Hgoc)]];
    rewrite Hgoc.
  - apply IH. intros d Hd. rewrite named_app, length_app, named_one.
    destruct (String.eqb (EnergyTariff.name t) (name d)) eqn:E.
    + apply String.eqb_eq in E. rewrite <- E, Hn0, Hnone. cbn. lia.
    + cbn. specialize (Hall d (or_intror Hd)). lia.
  - apply IH. intros d Hd. apply Hall. now right.
  - specialize (Hall d0 (or_introl eq_refl)). lia.
Qed.

(** The command only adds: the stored tariffs stay as they are (a tariff that
    already bears one of the four names keeps its own rate), the tariffs added
    are active and carry the listed name, rate and currency, and their number
    is the count that is printed.  Afterwards each of the four names is held
    by exactly one tariff, so that running the command again creates
    nothing. *)
Theorem create_tariffs_is_idempotent table created_count table' :
  handle table = Some (created_count, table') ->
  (exists new,
      table' = (table ++ new)%list
      /\ created_count = Py.len new
      /\ Forall (fun t =>
                   EnergyTariff.is_active t = true
                   /\ exists d, In d tariffs
                                /\ EnergyTariff.name t = name d
                                /\ EnergyTariff.rate_per_kwh t = rate_per_kwh d
                                /\ EnergyTariff.currency t = currency d)
                new)
  /\ (forall d, In d tariffs -> exists t, named (name d) table' = [t])
  /\ handle table' = Some (0, table').
Proof.
  unfold handle. intros H.
  pose proof (create_all_present _ _ _ _ _ H) as Hpresent.
  split; [|split; [exact Hpresent | now apply create_all_again]].
  apply create_all_shape in H. destruct H as (new & -> & -> & Hall).
  exists new. split; [reflexivity|]. split; [lia | exact Hall].
Qed.

(** The command fails exactly when one of its four names is already held by
    two or more tariffs ([get_or_create] then finds more than one row). *)
Theorem create_tariffs_fails_on_duplicate_names table :
  handle table = None
  <-> exists d, In d tariffs /\ (2 <= length (named (name d) table))%nat.
Proof.
  unfold handle. split.
  - intros Hnone.
    destruct (List.Exists_dec
                (fun d => (2 <= length (named (name d) table))%nat) tariffs)
      as [Hex | Hno].
    { intros d. destruct (le_dec 2 (length (named (name d) table))); auto. }
    + apply List.Exists_exists in Hex. exact Hex.
    + exfalso. revert Hnone. apply create_all_total. intros d Hd.
      destruct (le_dec (length (named (name d) table)) 1) as [Hle | Hgt];
        [exact Hle|].
      exfalso. apply Hno. apply List.Exists_exists. exists d.
      split; [exact Hd | lia].
  - intros (d & Hin & Htwo).
    apply (create_all_duplicate tariffs (name d)); eauto.
Qed.

End DefaultTariffs.

Lemma create_tariffs_is_idempotent_witness :
  match CreateTariffs.handle Fixtures.tariffs with
  | Some (created_count, table') =>
    CreateTariffs.handle table' = Some (0, table')
  | None => False
  end.
Proof.
  destruct (CreateTariffs.handle Fixtures.tariffs) as [[n table']|] eqn:H.
  - exact (proj2 (proj2 (create_tariffs_is_idempotent Fixtures.tariffs n
                           table' H))).
  - vm_compute in H. discriminate H.
Defined.

(** ** The statements above on the sample data *)

Lemma acknowledge_and_resolve_touch_one_alert_witness :
  DB.get_alert (snd (AlertViewSet.resolve (Sample.today + 1) Sample.db 1)) 1
  = Some (Alert.set_status Fixtures.critical_alert "RESOLVED"
            (Some (Sample.today + 1))).
Proof.
  exact (proj1 (proj2 (acknowledge_and_resolve_touch_one_alert
                         (Sample.today + 1) Sample.db 1))).
Defined.

Lemma send_via_whatsapp_reports_every_selected_report_witness :
  let done :=
    EnergyReportAdmin.send_via_whatsapp Sample.configured Sample.today
      Sample.now_text Sample.isoformat Sample.smtp_ok Fixtures.twilio_down
      (Sample.db_with (Sample.report_for Sample.ada))
      [Sample.report_for Sample.ada; Sample.report_for Sample.quiet] in
  fst done = 2
  /\ exists new,
       DB.whatsapp_messages (snd done) = new /\ length new = 1%nat.
Proof.
  cbv zeta.
  pose proof (send_via_whatsapp_reports_every_selected_report
                Sample.configured Sample.today Sample.now_text
                Sample.isoformat Sample.smtp_ok Fixtures.twilio_down
                (Sample.db_with (Sample.report_for Sample.ada))
                [Sample.report_for Sample.ada; Sample.report_for Sample.quiet])
    as H.
  cbv zeta in H. destruct H as (Hcount & _ & Hrows). split; [exact Hcount|].
  change (WhatsAppService.enabled (WhatsAppService.__init__ Sample.configured))
    with true in Hrows.
  destruct Hrows as (new & Hnew & Hnum & _). exists new.
  split; [exact Hnew | exact Hnum].
Defined.

Lemma alert_email_is_never_mocked_witness :
  EmailAlert.send_alert_email (EmailService.__init__ Settings.unconfigured)
    Sample.strftime (fun _ _ _ _ _ => true) Sample.db Fixtures.critical_alert
    ["ada@example.com"]
  = false
  /\ fst (fst (EmailService.send_report_email
                 (EmailService.__init__ Settings.unconfigured)
                 Sample.now_text Sample.isoformat Sample.smtp_ok Sample.db
                 (Sample.report_for Sample.ada)))
     = Some true.
Proof.
  exact (proj2 (alert_email_is_never_mocked Sample.strftime
                  Settings.unconfigured Sample.now_text Sample.isoformat
                  (fun _ _ _ _ _ => true) Sample.smtp_ok Sample.db
                  Fixtures.critical_alert ["ada@example.com"]
                  (Sample.report_for Sample.ada))
               eq_refl).
Defined.

Lemma daily_record_figures_witness :
  match
    SampleData.daily_record Sample.inverter_a (Sample.today - 1)
      Fixtures.yesterday_readings Fixtures.standard
  with
  | Some row =>
    In (DailyConsumption.peak_power row)
       (map PowerReading.power Fixtures.yesterday_readings)
    /\ (DailyConsumption.min_power row <= DailyConsumption.peak_power row)%Q
  | None => False
  end.
Proof.
  pose proof (daily_record_figures Sample.inverter_a (Sample.today - 1)
                Fixtures.yesterday_readings Fixtures.standard) as H.
  cbv zeta in H.
  destruct (SampleData.daily_record Sample.inverter_a (Sample.today - 1)
              Fixtures.yesterday_readings Fixtures.standard) as [row|].
  - destruct H as (_ & _ & _ & _ & Hpeak & _ & _ & _ & Hle & _).
    split; [exact Hpeak | exact Hle].
  - discriminate H.
Defined.

Lemma daily_summaries_cover_the_days_with_readings_witness :
  exists n db',
    SampleData.generate_daily_consumption Sample.today Fixtures.db_yesterday
      Sample.inverter_a 7 Fixtures.standard
    = (SampleData.Count n, db')
    /\ 0 < n
    /\ fst (SampleData.generate_daily_consumption Sample.today db'
              Sample.inverter_a 7 Fixtures.standard)
       = SampleData.IntegrityError.
Proof.
  pose proof (daily_summaries_cover_the_days_with_readings Sample.today
                Sample.inverter_a Fixtures.standard Fixtures.db_yesterday 7)
    as H.
  destruct (SampleData.generate_daily_consumption Sample.today
              Fixtures.db_yesterday Sample.inverter_a 7 Fixtures.standard)
    as [[n|] db'] eqn:Hrun.
  - assert (Hn : 0 < n).
    { vm_compute in Hrun. injection Hrun as Hn _. rewrite <- Hn.
      reflexivity. }
    exists n, db'. split; [reflexivity|]. split; [exact Hn|].
    exact (proj2 (proj2 H) Hn).
  - vm_compute in Hrun. discriminate Hrun.
Defined.

Lemma sample_reports_are_counted_witness :
  fst (SampleData.generate_reports Sample.today Sample.db) = 1.
Proof.
  destruct (sample_reports_are_counted Sample.today Sample.db)
    as (new & _ & Hcount & Hnum & _).
  cbv zeta in Hcount. rewrite Hcount, Hnum. reflexivity.
Defined.

Lemma create_tariffs_fails_on_duplicate_names_witness :
  CreateTariffs.handle [Fixtures.standard; Fixtures.standard] = None.
Proof.
  apply (proj2 (create_tariffs_fails_on_duplicate_names
                  [Fixtures.standard; Fixtures.standard])).
  exists (CreateTariffs.mk_data "Standard Rate (Nigeria)" 65 "NGN").
  split; [now left | vm_compute; lia].
Defined.
